(** * Rebound scanner (app3.py): the detection engine

    The development follows the Python source function by function:

    - [analyze_time_window]        (WebScanner.analyze_time_window)
    - [analyze_21d_with_drawdown]  (WebScanner.analyze_21d_with_drawdown)
    - [analyze_pair]               (WebScanner.analyze_pair)
    - [scan]                       (WebScanner.scan)
    - [scan_route]                 (the Flask route [scan] behind POST /scan)
    - [step]                       (requests to that route served side by side)

    Numbers.  Prices, volumes and thresholds are Python floats obtained
    with [float(...)] from decimal strings; a finite double is a rational,
    and they are modelled as rationals [Q], on which the comparisons of
    the source are exact.  The percentages the source compares with a
    threshold (the recent rebound, the pullback from the recent high, the
    21d drawdown) are computed as Python computes them, each operation
    rounded to binary64 ([round_binary64], nearest, ties to even, with the
    subnormal range); results beyond the largest double, which Python turns
    into [inf], are not represented.  The price change of a window
    analysis, which is reported and sorted on but never compared with a
    threshold, the hour differences and the number of candles to request
    are kept as the exact value of their formula.  The progress percentage,
    an integer cut out of a float product, and the time label are computed
    with binary64 primitive floats.

    Time.  A [datetime] is the number of microseconds on the local clock's
    axis (a [Z]); [datetime.fromtimestamp] and [datetime.now] are read on the
    same axis.

    Effects.  The exchange (HTTP calls) and the clock are oracles over an
    abstract world, threaded by explicit state passing: two calls with the
    same arguments may be answered differently. *)

From Stdlib Require Import ZArith QArith Qpower Qabs List String Bool Lia Lqa.
From Stdlib Require Import Permutation Sorted.
From Stdlib Require Import Uint63 PrimFloat SpecFloat FloatOps DecimalString.
Import ListNotations.

Local Open Scope Q_scope.

(** ** A small state monad for the world *)

Definition M (W A : Type) : Type := W -> A * W.

Definition ret {W A : Type} (a : A) : M W A := fun w => (a, w).

Definition bind {W A B : Type} (m : M W A) (f : A -> M W B) : M W B :=
  fun w => let (a, w') := m w in f a w'.

Declare Scope monad_scope.
Delimit Scope monad_scope with monad.
Notation "x <- m ;; k" := (bind m (fun x => k))
  (at level 61, m at next level, right associativity) : monad_scope.
Notation "m ;;; k" := (bind m (fun _ => k))
  (at level 61, right associativity) : monad_scope.

(** ** Python numerics used by the scanner *)

(** [a < b] on floats. *)
Definition Qltb (a b : Q) : bool := negb (Qle_bool b a).

(** [int(x)]: truncation toward zero. *)
Definition py_int (x : Q) : Z := Z.quot (Qnum x) (Zpos (Qden x)).

(** Rounding to the nearest integer, ties to even: the rounding
    [timedelta] applies to a fractional number of microseconds. *)
Definition round_half_even (x : Q) : Z :=
  let n := Qnum x in
  let d := Zpos (Qden x) in
  let f := (n / d)%Z in
  let r := (n mod d)%Z in
  if (2 * r <? d)%Z then f
  else if (d <? 2 * r)%Z then (f + 1)%Z
  else if Z.even f then f else (f + 1)%Z.

(** ** binary64 arithmetic on finite values

    The sum, difference, product and quotient of two doubles are the exact
    result rounded to the nearest double, ties to the even mantissa (IEEE
    754, which CPython's float follows). *)

(** [floor(log2 |q|)] for [q] other than zero. *)
Definition Qlog2 (q : Q) : Z :=
  let n := Z.abs (Qnum q) in
  let d := Zpos (Qden q) in
  let a := Z.log2 n in
  let b := Z.log2 d in
  if (d * 2 ^ a <=? n * 2 ^ b)%Z then (a - b)%Z else (a - b - 1)%Z.

(** The nearest double: a mantissa of 53 bits at the exponent of [q], or
    a multiple of 2^-1074 in the subnormal range. *)
Definition round_binary64 (q : Q) : Q :=
  let e := Z.max (Qlog2 q - 52) (-1074) in
  inject_Z (round_half_even (q / 2 ^ e)) * 2 ^ e.

(** [q] is the value of a double: rounding leaves it as it is. *)
Definition is_binary64 (q : Q) : bool := Qeq_bool (round_binary64 q) q.

(** [a - b], [a / b] for [b] other than zero, and [a * b] on floats. *)
Definition float_sub (a b : Q) : Q := round_binary64 (a - b).
Definition float_div (a b : Q) : Q := round_binary64 (a / b).
Definition float_mul (a b : Q) : Q := round_binary64 (a * b).

Arguments round_binary64 : simpl never.
Arguments float_sub : simpl never.
Arguments float_div : simpl never.
Arguments float_mul : simpl never.

(** ** datetime and timedelta, in microseconds *)

Definition datetime := Z.

Definition us_per_hour : Z := 3600000000.

(** [timedelta.min] and [timedelta.max]: -999999999 days and
    999999999 days, 23:59:59.999999. *)
Definition timedelta_min : Z := -86399999913600000000.
Definition timedelta_max : Z := 86399999999999999999.

(** [datetime.min] (0001-01-01 00:00:00) and [datetime.max]
    (9999-12-31 23:59:59.999999), counted from the epoch. *)
Definition datetime_min : Z := -62135596800000000.
Definition datetime_max : Z := 253402300799999999.

(** [timedelta(hours=h)]; [None] is OverflowError. *)
Definition timedelta_hours (h : Q) : option Z :=
  let us := round_half_even (h * inject_Z us_per_hour) in
  if ((timedelta_min <=? us) && (us <=? timedelta_max))%Z
  then Some us else None.

(** [t - d] for a datetime [t] and a timedelta [d]; [None] is
    OverflowError (date value out of range). *)
Definition datetime_sub (t : datetime) (d : Z) : option datetime :=
  let r := (t - d)%Z in
  if ((datetime_min <=? r) && (r <=? datetime_max))%Z then Some r else None.

(** [now - timedelta(hours=lookback_hours)]. *)
Definition cutoff_time (now : datetime) (lookback_hours : Q) : option datetime :=
  match timedelta_hours lookback_hours with
  | Some d => datetime_sub now d
  | None => None
  end.

(** [(t2 - t1).total_seconds() / 3600]. *)
Definition hours_between (t1 t2 : datetime) : Q :=
  inject_Z (t2 - t1) / inject_Z us_per_hour.

(** ** Data model *)

(** One parsed kline row: the dict built at lines 168-175
    ([time] from [k[0]], [high], [low], [close] from [k[2]], [k[3]],
    [k[4]]).  A row that does not parse raises inside the [try] and the
    caller returns [None], which is also what a failed fetch produces: the
    oracle [get_klines] below answers [None] for both. *)
Record candle : Type := mkCandle {
  c_time : datetime;
  c_high : Q;
  c_low : Q;
  c_close : Q
}.

(** The 24h ticker, with [lastPrice] and [quoteVolume] parsed (lines
    329-330).  A ticker whose fields do not parse raises inside the [try]
    of [analyze_pair], which returns [None] as for a failed fetch: the
    oracle [get_ticker_24hr] answers [None] for both. *)
Record Ticker : Type := mkTicker {
  lastPrice : Q;
  quoteVolume : Q
}.

(** The dict returned by [analyze_time_window] (keys [low_price],
    [low_time], [high_price], [high_time], [price_change]).  The source
    stores the two times as [strftime] renderings of the anchors'
    datetimes; the model keeps the datetimes. *)
Record WindowResult : Type := mkWindowResult {
  w_low_price : Q;
  w_low_time : datetime;
  w_high_price : Q;
  w_high_time : datetime;
  w_price_change : Q
}.

(** The five drawdown flags. *)
Inductive Severity : Type := CRITICAL | HIGH | MEDIUM | LOW | MINIMAL.

(** The dict returned by [analyze_21d_with_drawdown] (keys
    [high_21d_price], [high_21d_time], [drawdown_21d], [drawdown_flag]). *)
Record DrawdownResult : Type := mkDrawdownResult {
  d_high_21d_price : Q;
  d_high_21d_time : datetime;
  d_drawdown_21d : Q;
  d_drawdown_flag : Severity
}.

(** ** Python list primitives *)

Section ListPrimitives.
Context {A : Type}.

(** [list.sort] is stable.  [precedes y x] says that [y] sorts strictly
    before [x]; an element is inserted in front of the first element it
    does not have to follow, so equal elements keep their order. *)
Fixpoint insert_stable (precedes : A -> A -> bool) (x : A) (l : list A) : list A :=
  match l with
  | [] => [x]
  | y :: l' =>
      if precedes y x then y :: insert_stable precedes x l'
      else x :: y :: l'
  end.

Definition stable_sort (precedes : A -> A -> bool) (l : list A) : list A :=
  fold_right (insert_stable precedes) [] l.

(** [min(l, key=key)] after the first element: a later element replaces
    the best one only when its key is strictly smaller. *)
Fixpoint min_from (key : A -> Q) (best : A) (l : list A) : A :=
  match l with
  | [] => best
  | x :: l' => min_from key (if Qltb (key x) (key best) then x else best) l'
  end.

(** [min(l, key=key)]; [None] is ValueError on an empty list. *)
Definition py_min (key : A -> Q) (l : list A) : option A :=
  match l with
  | [] => None
  | x :: l' => Some (min_from key x l')
  end.

(** [max(l, key=key)] after the first element: a later element replaces
    the best one only when its key is strictly greater. *)
Fixpoint max_from (key : A -> Q) (best : A) (l : list A) : A :=
  match l with
  | [] => best
  | x :: l' => max_from key (if Qltb (key best) (key x) then x else best) l'
  end.

Definition py_max (key : A -> Q) (l : list A) : option A :=
  match l with
  | [] => None
  | x :: l' => Some (max_from key x l')
  end.
End ListPrimitives.

(** [candles.sort(key=lambda x: x['time'])]. *)
Definition sort_by_time (candles : list candle) : list candle :=
  stable_sort (fun y x => (c_time y <? c_time x)%Z) candles.

(** [[c for c in candles if c['time'] >= cutoff_time]]. *)
Definition window_candles (candles : list candle) (cutoff : datetime) : list candle :=
  filter (fun c => (cutoff <=? c_time c)%Z) candles.

(** [[c for c in window if c['time'] > low_time]]. *)
Definition candles_after (window : list candle) (t : datetime) : list candle :=
  filter (fun c => (t <? c_time c)%Z) window.

(** ** The window analysis on fetched candles

    Lines 177-216 of [analyze_time_window], after the fetch: sort, cut the
    window at [now - lookback_hours], take the lowest low, then the highest
    high strictly after it. *)
Definition window_extrema (candles : list candle) (now : datetime)
    (lookback_hours : Q) : option WindowResult :=
  let candles := sort_by_time candles in
  match cutoff_time now lookback_hours with
  | None => None
  | Some cutoff =>
      let window := window_candles candles cutoff in
      if (List.length window <? 5)%nat then None
      else
        match py_min c_low window with
        | None => None
        | Some absolute_low =>
            let low_price := c_low absolute_low in
            let low_time := c_time absolute_low in
            match py_max c_high (candles_after window low_time) with
            | None => None
            | Some highest_after_low =>
                let high_price := c_high highest_after_low in
                let high_time := c_time highest_after_low in
                if Qle_bool low_price 0 then None
                else
                  Some {| w_low_price := low_price;
                          w_low_time := low_time;
                          w_high_price := high_price;
                          w_high_time := high_time;
                          w_price_change := ((high_price - low_price) / low_price) * 100 |}
            end
        end
  end.

(** The flag chain of lines 271-280. *)
Definition flag_of_drawdown (drawdown_21d : Q) : Severity :=
  if Qle_bool 30 drawdown_21d then CRITICAL
  else if Qle_bool 20 drawdown_21d then HIGH
  else if Qle_bool 10 drawdown_21d then MEDIUM
  else if Qle_bool 5 drawdown_21d then LOW
  else MINIMAL.

(** Lines 251-290 of [analyze_21d_with_drawdown], after the fetch. *)
Definition drawdown_extrema (candles : list candle) (now : datetime)
    (lookback_21d_hours : Q) (current_price : Q) : option DrawdownResult :=
  let candles := sort_by_time candles in
  match cutoff_time now lookback_21d_hours with
  | None => None
  | Some cutoff =>
      let window := window_candles candles cutoff in
      if (List.length window <? 5)%nat then None
      else
        match py_max c_high window with
        | None => None
        | Some absolute_high =>
            let high_price := c_high absolute_high in
            let high_time := c_time absolute_high in
            if Qle_bool high_price 0 then None
            else
              let drawdown_21d :=
                float_mul (float_div (float_sub high_price current_price) high_price) 100 in
              Some {| d_high_21d_price := high_price;
                      d_high_21d_time := high_time;
                      d_drawdown_21d := drawdown_21d;
                      d_drawdown_flag := flag_of_drawdown drawdown_21d |}
        end
  end.

(** ** The scanner object and its result record *)

(** The configuration fields of [WebScanner.__init__], parsed. *)
Record WebScanner : Type := mkWebScanner {
  lookback_hours : Q;
  lookback_48h_hours : Q;
  lookback_96h_hours : Q;
  lookback_21d_hours : Q;
  min_price_change : Q;
  min_volume_24h : Q;
  max_drawdown : Q;
  timeframe : string;
  timeframe_21d : string;
  filter_timeframe : string;
  filter_enabled : bool
}.

(** [self.candle_limit_recent] (lines 91 and 94). *)
Definition candle_limit_recent (self : WebScanner) : Z :=
  let candles_per_hour_15m :=
    if (timeframe self =? "15m")%string then 4
    else if (timeframe self =? "1h")%string then 1
    else 1 # 4 in
  (py_int (lookback_hours self * candles_per_hour_15m) + 10)%Z.

(** The dataclass [ReboundResult].  Times are kept as datetimes where the
    source stores their [strftime] rendering; [time_display], a rendering
    of [rebound_hours], is not carried. *)
Record ReboundResult : Type := mkReboundResult {
  symbol : string;
  current_price : Q;
  rebound_pct : Q;
  rebound_hours : Q;
  drawdown_from_high : Q;
  drawdown_21d : Q;
  drawdown_flag : Severity;
  price_change_48h : Q;
  price_change_96h : Q;
  price_change_21d : Q;
  volume_24h : Q;
  low_price : Q;
  low_time : datetime;
  high_price : Q;
  high_time : datetime;
  low_48h_price : Q;
  low_48h_time : datetime;
  high_48h_price : Q;
  high_48h_time : datetime;
  low_96h_price : Q;
  low_96h_time : datetime;
  high_96h_price : Q;
  high_96h_time : datetime;
  low_21d_price : Q;
  low_21d_time : datetime;
  high_21d_price : Q;
  high_21d_time : datetime;
  high_21d_for_drawdown : Q;
  high_21d_time_for_drawdown : datetime;
  candles_count : nat;
  scan_time : datetime
}.

(** [get_filter_price_change]. *)
Definition get_filter_price_change (self : WebScanner) (result : ReboundResult) : Q :=
  if (filter_timeframe self =? "48h")%string then price_change_48h result
  else if (filter_timeframe self =? "96h")%string then price_change_96h result
  else if (filter_timeframe self =? "21d")%string then price_change_21d result
  else price_change_48h result.

(** Lines 357-363: the filter block of [analyze_pair]. *)
Definition filter_rejects (self : WebScanner)
    (analysis_48h analysis_96h analysis_21d : option WindowResult) : bool :=
  let is_None (a : option WindowResult) :=
    match a with None => true | Some _ => false end in
  filter_enabled self &&
  (((filter_timeframe self =? "48h")%string && is_None analysis_48h)
   || ((filter_timeframe self =? "96h")%string && is_None analysis_96h)
   || ((filter_timeframe self =? "21d")%string && is_None analysis_21d)).

(** Lines 380-399 of [analyze_pair]: the recent window and its two
    anchors, the lowest [(low, time)] pair and the highest candle after
    it. *)
Definition recent_anchors (lookback_hours : Q) (candles : list candle) (now : datetime)
    : option (list candle * (Q * datetime) * candle) :=
  let candles := sort_by_time candles in
  match cutoff_time now lookback_hours with
  | None => None
  | Some cutoff =>
      let recent_candles := window_candles candles cutoff in
      if (List.length recent_candles <? 4)%nat then None
      else
        let recent_lows := map (fun c => (c_low c, c_time c)) recent_candles in
        match py_min fst recent_lows with
        | None => None
        | Some absolute_low =>
            let low_time := snd absolute_low in
            match py_max c_high (candles_after recent_candles low_time) with
            | None => None
            | Some highest_after_low =>
                Some (recent_candles, absolute_low, highest_after_low)
            end
        end
  end.

(** Lines 380-454 of [analyze_pair]: the recent window, its thresholds and the
    record.  The result still waits for the clock reading of [scan_time]. *)
Definition recent_rebound (self : WebScanner) (symbol : string) (ticker : Ticker)
    (analysis_48h analysis_96h analysis_21d : WindowResult)
    (analysis_21d_drawdown : DrawdownResult)
    (candles : list candle) (now : datetime) : option (datetime -> ReboundResult) :=
  let current_price := lastPrice ticker in
  let volume_24h := quoteVolume ticker in
  match recent_anchors (lookback_hours self) candles now with
  | None => None
  | Some (recent_candles, absolute_low, highest_after_low) =>
      let low_price := fst absolute_low in
      let low_time := snd absolute_low in
      let high_price := c_high highest_after_low in
      let high_time := c_time highest_after_low in
      let time_diff_hours := hours_between low_time high_time in
      if Qltb (lookback_hours self) time_diff_hours then None
      else if Qle_bool low_price 0 then None
      else
        let rebound_pct :=
          float_mul (float_div (float_sub high_price low_price) low_price) 100 in
        if Qltb rebound_pct (min_price_change self) then None
        else if Qle_bool high_price 0 then None
        else
          let drawdown :=
            float_mul (float_div (float_sub high_price current_price) high_price) 100 in
          if Qltb (max_drawdown self) drawdown then None
          else
            Some (fun scan_time =>
              {| symbol := symbol;
                 current_price := current_price;
                 rebound_pct := rebound_pct;
                 rebound_hours := time_diff_hours;
                 drawdown_from_high := drawdown;
                 drawdown_21d := d_drawdown_21d analysis_21d_drawdown;
                 drawdown_flag := d_drawdown_flag analysis_21d_drawdown;
                 price_change_48h := w_price_change analysis_48h;
                 price_change_96h := w_price_change analysis_96h;
                 price_change_21d := w_price_change analysis_21d;
                 volume_24h := volume_24h;
                 low_price := low_price;
                 low_time := low_time;
                 high_price := high_price;
                 high_time := high_time;
                 low_48h_price := w_low_price analysis_48h;
                 low_48h_time := w_low_time analysis_48h;
                 high_48h_price := w_high_price analysis_48h;
                 high_48h_time := w_high_time analysis_48h;
                 low_96h_price := w_low_price analysis_96h;
                 low_96h_time := w_low_time analysis_96h;
                 high_96h_price := w_high_price analysis_96h;
                 high_96h_time := w_high_time analysis_96h;
                 low_21d_price := w_low_price analysis_21d;
                 low_21d_time := w_low_time analysis_21d;
                 high_21d_price := w_high_price analysis_21d;
                 high_21d_time := w_high_time analysis_21d;
                 high_21d_for_drawdown := d_high_21d_price analysis_21d_drawdown;
                 high_21d_time_for_drawdown := d_high_21d_time analysis_21d_drawdown;
                 candles_count := List.length recent_candles;
                 scan_time := scan_time |})
  end.

(** Lines 147-161 of [analyze_time_window]: the number of candles asked
    from the exchange.  It only sizes the request. *)
Definition window_limit (lookback_hours : Q) (interval : string) : Z :=
  let candles_per_hour :=
    if (interval =? "15m")%string then 4
    else if (interval =? "1h")%string then 1
    else if (interval =? "4h")%string then 1 # 4
    else if (interval =? "1d")%string then 1 # 24
    else 1 in
  let limit := (py_int (lookback_hours * candles_per_hour) + 10)%Z in
  if (1000 <? limit)%Z then 1000%Z else limit.

(** Lines 223-235 of [analyze_21d_with_drawdown]. *)
Definition drawdown_limit (self : WebScanner) : Z :=
  let candles_per_hour :=
    if (timeframe_21d self =? "1h")%string then 1
    else if (timeframe_21d self =? "4h")%string then 1 # 4
    else if (timeframe_21d self =? "1d")%string then 1 # 24
    else 1 in
  let limit := (py_int (lookback_21d_hours self * candles_per_hour) + 10)%Z in
  if (1000 <? limit)%Z then 1000%Z else limit.

(** ** The exchange, the clock and the worker pool *)

(** What the scanner reads from outside.  [get_all_usdt_pairs],
    [get_ticker_24hr] and [get_klines] are the three HTTP methods of
    [WebScanner]; they catch their own exceptions and answer [[]] or
    [None].  [as_completed] is the order in which the pool hands back the
    futures submitted for a list of symbols: every future exactly once. *)
Record Exchange : Type := mkExchange {
  World : Type;
  get_all_usdt_pairs : M World (list string);
  get_ticker_24hr : string -> M World (option Ticker);
  get_klines : string -> string -> Z -> M World (option (list candle));
  datetime_now : M World datetime;
  as_completed : list string -> list string;
  as_completed_perm : forall pairs, Permutation (as_completed pairs) pairs
}.

Local Open Scope monad_scope.

Section Scanner.
Variable E : Exchange.

(** [analyze_time_window], lines 144-218. *)
Definition analyze_time_window (symbol : string) (lookback_hours : Q)
    (interval : string) : M (World E) (option WindowResult) :=
  let limit := window_limit lookback_hours interval in
  klines <- get_klines E symbol interval limit ;;
  match klines with
  | None => ret None
  | Some klines =>
      if (List.length klines <? 10)%nat then ret None
      else
        now <- datetime_now E ;;
        ret (window_extrema klines now lookback_hours)
  end.

(** [analyze_21d_with_drawdown], lines 220-292. *)
Definition analyze_21d_with_drawdown (self : WebScanner) (symbol : string)
    (current_price : Q) : M (World E) (option DrawdownResult) :=
  let limit := drawdown_limit self in
  klines <- get_klines E symbol (timeframe_21d self) limit ;;
  match klines with
  | None => ret None
  | Some klines =>
      if (List.length klines <? 10)%nat then ret None
      else
        now <- datetime_now E ;;
        ret (drawdown_extrema klines now (lookback_21d_hours self) current_price)
  end.

(** [analyze_pair], lines 322-456. *)
Definition analyze_pair (self : WebScanner) (symbol : string)
    : M (World E) (option ReboundResult) :=
  ticker <- get_ticker_24hr E symbol ;;
  match ticker with
  | None => ret None
  | Some ticker =>
  let current_price := lastPrice ticker in
  let volume_24h := quoteVolume ticker in
  if Qltb volume_24h (min_volume_24h self) then ret None
  else
  analysis_48h <- analyze_time_window symbol (lookback_48h_hours self) (timeframe self) ;;
  match analysis_48h with
  | None => ret None
  | Some analysis_48h =>
  analysis_96h <- analyze_time_window symbol (lookback_96h_hours self) (timeframe self) ;;
  match analysis_96h with
  | None => ret None
  | Some analysis_96h =>
  analysis_21d <- analyze_time_window symbol (lookback_21d_hours self) (timeframe_21d self) ;;
  match analysis_21d with
  | None => ret None
  | Some analysis_21d =>
  analysis_21d_drawdown <- analyze_21d_with_drawdown self symbol current_price ;;
  match analysis_21d_drawdown with
  | None => ret None
  | Some analysis_21d_drawdown =>
  if filter_rejects self (Some analysis_48h) (Some analysis_96h) (Some analysis_21d)
  then ret None
  else
  klines <- get_klines E symbol (timeframe self) (candle_limit_recent self) ;;
  match klines with
  | None => ret None
  | Some klines =>
  if (List.length klines <? 4)%nat then ret None
  else
  now <- datetime_now E ;;
  match recent_rebound self symbol ticker analysis_48h analysis_96h analysis_21d
          analysis_21d_drawdown klines now with
  | None => ret None
  | Some result =>
      scan_time <- datetime_now E ;;
      ret (Some (result scan_time))
  end
  end end end end end end.

End Scanner.

(** ** Scan progress and the process-wide cells *)

(** The dict assigned to the global [scan_progress]. *)
Record ScanProgress : Type := mkScanProgress {
  current : Z;
  total : Z;
  status : string;
  percentage : Z
}.

(** The globals of lines 20-23.  [published] is the history of the values
    assigned to [scan_progress], oldest first; the cell holds the last. *)
Record Globals : Type := mkGlobals {
  scan_progress : ScanProgress;
  published : list ScanProgress;
  latest_results : list ReboundResult;
  last_scan_time : option datetime
}.

(** [scan_progress = p]. *)
Definition set_scan_progress (p : ScanProgress) (g : Globals) : Globals :=
  {| scan_progress := p;
     published := published g ++ [p];
     latest_results := latest_results g;
     last_scan_time := last_scan_time g |}.

(** A Python int as a binary64 float (exact below 2^53). *)
Definition float_of_int (z : Z) : float :=
  if (0 <=? z)%Z then of_uint63 (Uint63.of_Z z)
  else PrimFloat.opp (of_uint63 (Uint63.of_Z (- z))).

(** [int(x)] on a float: truncation toward zero.  Infinities and NaN
    raise in Python; they do not arise from [current / total * 100] with
    [0 <= current] and [0 < total], and are mapped to 0 here. *)
Definition int_of_float (x : float) : Z :=
  match Prim2SF x with
  | S754_finite s m e =>
      let v := if (0 <=? e)%Z then (Zpos m * 2 ^ e)%Z else (Zpos m / 2 ^ (- e))%Z in
      if s then (- v)%Z else v
  | _ => 0%Z
  end.

(** [int((current / total) * 100) if total > 0 else 0], line 520. *)
Definition percentage_of (current total : Z) : Z :=
  if (0 <? total)%Z
  then int_of_float (PrimFloat.mul (PrimFloat.div (float_of_int current) (float_of_int total))
                                   (float_of_int 100))
  else 0%Z.

(** [update_progress], lines 514-521. *)
Definition update_progress (current total : Z) (status : string) (g : Globals) : Globals :=
  set_scan_progress
    {| current := current; total := total; status := status;
       percentage := percentage_of current total |} g.

(** Decimal rendering of an int inside an f-string. *)
Definition str_of_int (z : Z) : string := NilZero.string_of_int (Z.to_int z).

(** [f"Scanning... {processed}/{total_pairs}"]. *)
Definition scanning_status (processed total_pairs : Z) : string :=
  ("Scanning... " ++ str_of_int processed ++ "/" ++ str_of_int total_pairs)%string.

(** ** WebScanner.scan *)

Section Scan.
Variable E : Exchange.

(** The state the callback writes to. *)
Variable G : Type.

Definition Callback : Type := Z -> Z -> string -> G -> G.

(** A call on the exchange or the clock leaves the callback's state alone. *)
Definition in_world {A : Type} (m : M (World E) A) : M (World E * G) A :=
  fun s => let (a, w') := m (fst s) in (a, (w', snd s)).

(** [if self.progress_callback: self.progress_callback(current, total, status)]. *)
Definition call_progress (progress_callback : option Callback)
    (current total : Z) (status : string) : M (World E * G) unit :=
  fun s =>
    match progress_callback with
    | Some f => (tt, (fst s, f current total status (snd s)))
    | None => (tt, s)
    end.

(** The loop over [as_completed], lines 477-484.  Each future's result is
    [analyze_pair] of its symbol; the futures are handed over one after
    the other in completion order. *)
Fixpoint scan_loop (self : WebScanner) (progress_callback : option Callback)
    (total_pairs : Z) (completed : list string)
    (results : list ReboundResult) (processed : Z)
    : M (World E * G) (list ReboundResult) :=
  match completed with
  | [] => ret results
  | future :: completed' =>
      result <- in_world (analyze_pair E self future) ;;
      let results :=
        match result with
        | Some r => results ++ [r]
        | None => results
        end in
      let processed := (processed + 1)%Z in
      (if (processed mod 10 =? 0)%Z
       then call_progress progress_callback processed total_pairs
              (scanning_status processed total_pairs)
       else ret tt) ;;;
      scan_loop self progress_callback total_pairs completed' results processed
  end.

(** [results.sort(key=lambda x: self.get_filter_price_change(x), reverse=True)]:
    stable, larger keys first. *)
Definition sort_results (self : WebScanner) (results : list ReboundResult)
    : list ReboundResult :=
  stable_sort
    (fun y x => Qltb (get_filter_price_change self x) (get_filter_price_change self y))
    results.

(** [scan], lines 458-493.  The assignment to [self.results] is not
    carried: nothing reads it. *)
Definition scan (self : WebScanner) (progress_callback : option Callback)
    : M (World E * G) (list ReboundResult) :=
  pairs <- in_world (get_all_usdt_pairs E) ;;
  match pairs with
  | [] => ret []
  | _ :: _ =>
      let total_pairs := Z.of_nat (List.length pairs) in
      call_progress progress_callback 0 total_pairs "Starting scan..." ;;;
      results <- scan_loop self progress_callback total_pairs (as_completed E pairs) [] 0 ;;
      call_progress progress_callback total_pairs total_pairs "Sorting results..." ;;;
      ret (sort_results self results)
  end.
End Scan.

Arguments scan_loop E {G}.
Arguments scan E {G}.
Arguments in_world {E G A}.
Arguments call_progress {E G}.

(** ** The route behind POST /scan *)

Section Route.
Variable E : Exchange.

(** A row of the JSON response: [asdict(r)] with its numbers rendered by
    the f-strings of lines 540-547. *)
Variable Row : Type.
Variable format_row : ReboundResult -> Row.

(** The JSON body: [success], [count], [results], [scan_time], or
    [success = False] with the error text. *)
Inductive Response : Type :=
| Success (count : nat) (results : list Row) (scan_time : datetime)
| Failure.

Definition write_progress (p : ScanProgress) : M (World E * Globals) unit :=
  fun s => (tt, (fst s, set_scan_progress p (snd s))).

(** [with scan_lock: latest_results = results; last_scan_time = datetime.now()];
    a single request takes and releases the lock around the two stores. *)
Definition store_results (results : list ReboundResult) : M (World E * Globals) datetime :=
  now <- in_world (datetime_now E) ;;
  fun s =>
    (now, (fst s, {| scan_progress := scan_progress (snd s);
                     published := published (snd s);
                     latest_results := results;
                     last_scan_time := Some now |})).

(** The route [scan], lines 507-558.  [config] is [None] when
    [WebScanner(config, ...)] raises on a form field that does not
    parse; the route then takes its [except] branch. *)
Definition scan_route (config : option WebScanner) : M (World E * Globals) Response :=
  write_progress {| current := 0; total := 0; status := "starting"; percentage := 0 |} ;;;
  match config with
  | None =>
      write_progress {| current := 0; total := 0; status := "error"; percentage := 0 |} ;;;
      ret Failure
  | Some scanner =>
      results <- scan E scanner (Some update_progress) ;;
      last_scan_time <- store_results results ;;
      write_progress {| current := 0; total := 0; status := "complete"; percentage := 100 |} ;;;
      ret (Success (List.length results) (map format_row (firstn 100 results)) last_scan_time)
  end.
End Route.

Arguments Success {Row}.
Arguments Failure {Row}.

(** ** Concurrent requests to POST /scan

    The server handles every request in a thread of its own; the threads
    share the globals and [scan_lock].  A request goes through the route
    in the steps below; [scan_lock] is taken only around the two stores
    of lines 530-531. *)

Inductive Phase : Type :=
| Absent                                   (* no such request yet *)
| Arrived                                  (* the route is entered, line 508 *)
| Scanning                                 (* lines 524-527: inside scanner.scan() *)
| Scanned (results : list ReboundResult)   (* scan returned; at [with scan_lock], line 529 *)
| Storing (results : list ReboundResult)   (* inside the with block, lines 530-531 *)
| Stored (results : list ReboundResult)    (* lock released; lines 533-555 ahead *)
| Responded (count : option nat).          (* the JSON body is returned; None: success = False *)

Record Server : Type := mkServer {
  threads : nat -> Phase;
  lock_held : bool;
  installed : list ReboundResult
}.

Definition set_thread (i : nat) (p : Phase) (f : nat -> Phase) : nat -> Phase :=
  fun j => if Nat.eqb j i then p else f j.

Definition idle_server : Server :=
  {| threads := fun _ => Absent; lock_held := false; installed := [] |}.

(** One atomic step of one request. *)
Inductive step : Server -> Server -> Prop :=
| step_arrive (s : Server) (i : nat) :
    threads s i = Absent ->
    step s {| threads := set_thread i Arrived (threads s);
              lock_held := lock_held s; installed := installed s |}
| step_start (s : Server) (i : nat) :
    threads s i = Arrived ->
    step s {| threads := set_thread i Scanning (threads s);
              lock_held := lock_held s; installed := installed s |}
| step_scan (s : Server) (i : nat) (results : list ReboundResult) :
    threads s i = Scanning ->
    step s {| threads := set_thread i (Scanned results) (threads s);
              lock_held := lock_held s; installed := installed s |}
| step_error (s : Server) (i : nat) :
    threads s i = Scanning ->
    step s {| threads := set_thread i (Responded None) (threads s);
              lock_held := lock_held s; installed := installed s |}
| step_acquire (s : Server) (i : nat) (results : list ReboundResult) :
    threads s i = Scanned results ->
    lock_held s = false ->
    step s {| threads := set_thread i (Storing results) (threads s);
              lock_held := true; installed := installed s |}
| step_store (s : Server) (i : nat) (results : list ReboundResult) :
    threads s i = Storing results ->
    step s {| threads := set_thread i (Stored results) (threads s);
              lock_held := false; installed := results |}
| step_respond (s : Server) (i : nat) (results : list ReboundResult) :
    threads s i = Stored results ->
    step s {| threads := set_thread i (Responded (Some (List.length results))) (threads s);
              lock_held := lock_held s; installed := installed s |}.

Inductive steps : Server -> Server -> Prop :=
| steps_refl (s : Server) : steps s s
| steps_step (s s' s'' : Server) : step s s' -> steps s' s'' -> steps s s''.

(** The states the server can be in. *)
Definition reachable (s : Server) : Prop := steps idle_server s.

(** The lock is held exactly by the one request that is inside the with
    block. *)
Definition lock_invariant (s : Server) : Prop :=
  (lock_held s = false /\ forall i results, threads s i <> Storing results) \/
  (lock_held s = true /\
   exists i results, threads s i = Storing results /\
     forall j results', threads s j = Storing results' -> j = i).

(** ** Vocabulary of the statements *)

(** [a] may stand before [b] in a list sorted with [precedes]: [b] does
    not have to come first. *)
Definition in_order {A : Type} (precedes : A -> A -> bool) (a b : A) : Prop :=
  precedes b a = false.

Definition time_le (a b : candle) : Prop := (c_time a <= c_time b)%Z.

(** [c] is a candle of the series at or after the cutoff. *)
Definition in_window (klines : list candle) (cutoff : datetime) (c : candle) : Prop :=
  In c klines /\ (cutoff <= c_time c)%Z.

(** The calls [analyze_pair] makes up to the recent window, all of them
    answered: the ticker, the three window analyses, the 21d drawdown, the
    recent klines and the clock. *)
Definition pair_run (E : Exchange) (self : WebScanner) (symbol : string) (w : World E)
    (ticker : Ticker) (analysis_48h analysis_96h analysis_21d : WindowResult)
    (analysis_21d_drawdown : DrawdownResult) (klines : list candle) (now : datetime)
    (w' : World E) : Prop :=
  exists w1 w2 w3 w4 w5 w6,
    get_ticker_24hr E symbol w = (Some ticker, w1) /\
    analyze_time_window E symbol (lookback_48h_hours self) (timeframe self) w1
      = (Some analysis_48h, w2) /\
    analyze_time_window E symbol (lookback_96h_hours self) (timeframe self) w2
      = (Some analysis_96h, w3) /\
    analyze_time_window E symbol (lookback_21d_hours self) (timeframe_21d self) w3
      = (Some analysis_21d, w4) /\
    analyze_21d_with_drawdown E self symbol (lastPrice ticker) w4
      = (Some analysis_21d_drawdown, w5) /\
    get_klines E symbol (timeframe self) (candle_limit_recent self) w5
      = (Some klines, w6) /\
    datetime_now E w6 = (now, w').

(** [lo] is the low anchor of the window: its low is the minimum over the
    window, and no candle of the window with that low is earlier. *)
Definition low_anchor (klines : list candle) (cutoff : datetime) (lo : candle) : Prop :=
  in_window klines cutoff lo /\
  (forall c, in_window klines cutoff c -> c_low lo <= c_low c) /\
  (forall c, in_window klines cutoff c -> c_low c <= c_low lo ->
             (c_time lo <= c_time c)%Z).

(** The results of the futures of a scan, in completion order: each is
    [analyze_pair] of its symbol, run on the world the previous one left. *)
Fixpoint futures_results (E : Exchange) (self : WebScanner) (completed : list string)
    (w : World E) : list (option ReboundResult) :=
  match completed with
  | [] => []
  | future :: completed' =>
      let (result, w') := analyze_pair E self future w in
      result :: futures_results E self completed' w'
  end.

(** The records among the results: the symbols that passed every filter,
    in completion order. *)
Definition passed (results : list (option ReboundResult)) : list ReboundResult :=
  flat_map (fun o => match o with Some r => [r] | None => [] end) results.

(** [a] may stand before [b] in the sorted results: its key is at least
    the key of [b]. *)
Definition key_ge (self : WebScanner) (a b : ReboundResult) : Prop :=
  get_filter_price_change self b <= get_filter_price_change self a.

(** The key the results are sorted by equals [v]. *)
Definition has_key (self : WebScanner) (v : Q) (r : ReboundResult) : bool :=
  Qeq_bool (get_filter_price_change self r) v.

(** What the loop of [scan] does to the callback's state over [n]
    completions, counted from [processed]. *)
Fixpoint loop_progress {G : Type} (progress_callback : option (Callback G))
    (total_pairs processed : Z) (n : nat) (g : G) : G :=
  match n with
  | O => g
  | S n' =>
      let processed := (processed + 1)%Z in
      loop_progress progress_callback total_pairs processed n'
        (if (processed mod 10 =? 0)%Z
         then match progress_callback with
              | Some f => f processed total_pairs (scanning_status processed total_pairs) g
              | None => g
              end
         else g)
  end.

(** The completions, out of [n], at which the loop reports progress. *)
Definition every_tenth (n : nat) : list Z :=
  filter (fun p => (p mod 10 =? 0)%Z) (map Z.of_nat (seq 1 n)).

(** What [update_progress current total status] assigns. *)
Definition progress_update (current total : Z) (status : string) : ScanProgress :=
  {| current := current; total := total; status := status;
     percentage := percentage_of current total |}.

(** The updates the callback publishes during a scan of [n] symbols. *)
Definition callback_updates (n : nat) : list ScanProgress :=
  match n with
  | O => []
  | S _ =>
      let total := Z.of_nat n in
      [progress_update 0 total "Starting scan..."]
      ++ map (fun p => progress_update p total (scanning_status p total))
             (every_tenth n)
      ++ [progress_update total total "Sorting results..."]
  end.

Definition starting_progress : ScanProgress :=
  {| current := 0; total := 0; status := "starting"; percentage := 0 |}.

Definition complete_progress : ScanProgress :=
  {| current := 0; total := 0; status := "complete"; percentage := 100 |}.

(** ** Sample data

    A series of thirteen 15-minute candles: the low of 100 is made by the
    first candle, the high of 112 three hours later by the last one. *)

Definition t0 : datetime := 1700000000000000%Z.
Definition quarter : Z := 900000000%Z.

Definition sample_candles : list candle :=
  map (fun x : Z * (Q * Q) =>
         let '(i, (lo, hi)) := x in
         {| c_time := (t0 + i * quarter)%Z; c_high := hi; c_low := lo; c_close := lo |})
      [ (0%Z, (100, 103)); (1%Z, (101, 104)); (2%Z, (102, 105)); (3%Z, (103, 106));
        (4%Z, (104, 107)); (5%Z, (105, 108)); (6%Z, (106, 109)); (7%Z, (107, 110));
        (8%Z, (108, 110)); (9%Z, (108, 110)); (10%Z, (109, 111)); (11%Z, (110, 111));
        (12%Z, (110, 112)) ].

(** The first six candles of the sample. *)
Definition short_series : list candle := firstn 6 sample_candles.

(** Five minutes after the last candle opened. *)
Definition sample_now : datetime := (t0 + 12 * quarter + 300000000)%Z.

(** An exchange with a frozen clock that lists [pairs], answers every
    ticker request with [ticker symbol] and every kline request with
    [klines symbol], and whose pool hands the futures back in the order
    [order]. *)
Definition table_exchange (pairs : list string)
    (ticker : string -> option Ticker) (klines : string -> option (list candle))
    (now : datetime) (order : list string -> list string)
    (order_perm : forall l, Permutation (order l) l) : Exchange :=
  {| World := unit;
     get_all_usdt_pairs := ret pairs;
     get_ticker_24hr := fun symbol => ret (ticker symbol);
     get_klines := fun symbol _ _ => ret (klines symbol);
     datetime_now := ret now;
     as_completed := order;
     as_completed_perm := order_perm |}.

Definition submission_order (l : list string) : list string := l.

Definition submission_order_perm (l : list string) :
  Permutation (submission_order l) l := Permutation_refl l.

(** One symbol trading at [price] with 24h volume [volume] over
    [candles]. *)
Definition one_symbol_exchange (price volume : Q) (candles : list candle) : Exchange :=
  table_exchange ["ABCUSDT"%string]
    (fun _ => Some {| lastPrice := price; quoteVolume := volume |})
    (fun _ => Some candles)
    sample_now submission_order submission_order_perm.

(** The same symbol on an exchange whose world is a running clock: every
    reading of [datetime.now()] advances it by one second. *)
Definition ticking_exchange (price volume : Q) (candles : list candle) : Exchange :=
  {| World := datetime;
     get_all_usdt_pairs := ret ["ABCUSDT"%string];
     get_ticker_24hr := fun _ => ret (Some {| lastPrice := price; quoteVolume := volume |});
     get_klines := fun _ _ _ => ret (Some candles);
     datetime_now := fun t => (t, (t + 1000000)%Z);
     as_completed := submission_order;
     as_completed_perm := submission_order_perm |}.

(** The scenario of the specification: recent lookback 12h, minimum
    rebound 5%, maximum pullback 10%. *)
Definition sample_scanner : WebScanner :=
  {| lookback_hours := 12;
     lookback_48h_hours := 48;
     lookback_96h_hours := 96;
     lookback_21d_hours := 720;
     min_price_change := 5;
     min_volume_24h := 1400000;
     max_drawdown := 10;
     timeframe := "15m";
     timeframe_21d := "1h";
     filter_timeframe := "21d";
     filter_enabled := false |}.

(** The same scenario with the three thresholds of the admission filters
    set by hand. *)
Definition scanner_with (min_change min_volume max_pullback : Q) : WebScanner :=
  {| lookback_hours := 12;
     lookback_48h_hours := 48;
     lookback_96h_hours := 96;
     lookback_21d_hours := 720;
     min_price_change := min_change;
     min_volume_24h := min_volume;
     max_drawdown := max_pullback;
     timeframe := "15m";
     timeframe_21d := "1h";
     filter_timeframe := "21d";
     filter_enabled := true |}.

(** Each threshold at the value the sample reaches at a price of 84:
    rebound 12.0, volume 2000000, pullback 25.0. *)
Definition boundary_scanner : WebScanner := scanner_with 12 2000000 25.

(** A one-hour recent lookback with a 2% minimum rebound. *)
Definition one_hour_scanner : WebScanner :=
  {| lookback_hours := 1;
     lookback_48h_hours := 48;
     lookback_96h_hours := 96;
     lookback_21d_hours := 720;
     min_price_change := 2;
     min_volume_24h := 1400000;
     max_drawdown := 10;
     timeframe := "15m";
     timeframe_21d := "1h";
     filter_timeframe := "21d";
     filter_enabled := false |}.

(** The sample series with the high of its last candle set to [h]: the
    rebound from the low of 100 is then [h - 100] percent at every horizon. *)
Definition series_with_high (h : Q) : list candle :=
  firstn 12 sample_candles
  ++ [{| c_time := (t0 + 12 * quarter)%Z; c_high := h; c_low := 110; c_close := 110 |}].

Definition market_pairs : list string :=
  ["AAAUSDT"; "BBBUSDT"; "CCCUSDT"; "DDDUSDT"; "EEEUSDT"]%string.

(** Five symbols at a price of 110: rebounds of 12, 15, 12 and 20 percent,
    and one symbol (CCCUSDT) whose volume is below the minimum. *)
Definition market_klines (symbol : string) : option (list candle) :=
  if (symbol =? "AAAUSDT")%string then Some (series_with_high 112)
  else if (symbol =? "BBBUSDT")%string then Some (series_with_high 115)
  else if (symbol =? "DDDUSDT")%string then Some (series_with_high 112)
  else if (symbol =? "EEEUSDT")%string then Some (series_with_high 120)
  else Some sample_candles.

Definition market_ticker (symbol : string) : option Ticker :=
  Some {| lastPrice := 110;
          quoteVolume := if (symbol =? "CCCUSDT")%string then 1000 else 2000000 |}.

Definition reverse_order (l : list string) : list string := rev l.

Definition reverse_order_perm (l : list string) : Permutation (reverse_order l) l :=
  Permutation_sym (Permutation_rev l).

(** The pool hands the futures back in the reverse of the submission
    order. *)
Definition market_exchange : Exchange :=
  table_exchange market_pairs market_ticker market_klines sample_now
    reverse_order reverse_order_perm.

(** The sample scenario sorted by the horizon [tf]. *)
Definition scanner_sorting_by (tf : string) : WebScanner :=
  {| lookback_hours := 12;
     lookback_48h_hours := 48;
     lookback_96h_hours := 96;
     lookback_21d_hours := 720;
     min_price_change := 5;
     min_volume_24h := 1400000;
     max_drawdown := 10;
     timeframe := "15m";
     timeframe_21d := "1h";
     filter_timeframe := tf;
     filter_enabled := true |}.

(** A candle [hours] hours before the sample series, with a low of [lo]. *)
Definition old_candle (hours : Z) (lo : Q) : candle :=
  {| c_time := (t0 - hours * 4 * quarter)%Z; c_high := lo + 1; c_low := lo; c_close := lo |}.

Definition horizon_pairs : list string := ["AAAUSDT"; "BBBUSDT"; "CCCUSDT"]%string.

(** Three symbols whose order differs from horizon to horizon.  AAAUSDT
    made a low of 50 three days ago, inside the 96h and 21d windows only;
    CCCUSDT made a low of 20 two hundred hours ago, inside the 21d window
    only.  The price changes are, at 48h, 96h and 21d: AAAUSDT 12, 124,
    124; BBBUSDT 15, 15, 15; CCCUSDT 13, 13, 465. *)
Definition horizon_klines (symbol : string) : option (list candle) :=
  if (symbol =? "AAAUSDT")%string then Some (old_candle 72 50 :: series_with_high 112)
  else if (symbol =? "BBBUSDT")%string then Some (series_with_high 115)
  else Some (old_candle 200 20 :: series_with_high 113).

Definition horizon_exchange : Exchange :=
  table_exchange horizon_pairs
    (fun _ => Some {| lastPrice := 110; quoteVolume := 2000000 |})
    horizon_klines sample_now submission_order submission_order_perm.

(** The records of a scan of the five-symbol market. *)
Definition market_results : list ReboundResult :=
  fst (scan market_exchange sample_scanner (@None (Callback unit)) (tt, tt)).

(** [n] symbols, S0USDT, S1USDT, ..., all with the sample series. *)
Definition many_pairs (n : nat) : list string :=
  map (fun i => ("S" ++ str_of_int (Z.of_nat i) ++ "USDT")%string) (seq 0 n).

Definition many_exchange (n : nat) : Exchange :=
  table_exchange (many_pairs n)
    (fun _ => Some {| lastPrice := 110; quoteVolume := 2000000 |})
    (fun _ => Some sample_candles)
    sample_now submission_order submission_order_perm.

Definition idle_globals : Globals :=
  {| scan_progress := {| current := 0; total := 0; status := "idle"; percentage := 0 |};
     published := [];
     latest_results := [];
     last_scan_time := None |}.

(** * More of the source

    ** The pair list of [get_all_usdt_pairs] *)

(** One entry of [data['symbols']] in the exchangeInfo answer, with the
    four keys the method reads; [None]: the key is absent. *)
Record SymbolEntry : Type := mkSymbolEntry {
  e_symbol : option string;
  e_quoteAsset : option string;
  e_status : option string;
  e_isSpotTradingAllowed : option bool
}.

(** The condition of lines 111-113, read left to right with [and]'s
    short circuit; [None] is the KeyError of an absent key. *)
Definition entry_is_tradable (s : SymbolEntry) : option bool :=
  match e_quoteAsset s with
  | None => None
  | Some quote =>
      if negb (quote =? "USDT")%string then Some false
      else
        match e_status s with
        | None => None
        | Some st =>
            if negb (st =? "TRADING")%string then Some false
            else e_isSpotTradingAllowed s
        end
  end.

(** The loop of lines 109-114; [None]: an exception left the loop. *)
Fixpoint collect_pairs (symbols : list SymbolEntry) (pairs : list string)
    : option (list string) :=
  match symbols with
  | [] => Some pairs
  | s :: symbols' =>
      match entry_is_tradable s with
      | None => None
      | Some false => collect_pairs symbols' pairs
      | Some true =>
          match e_symbol s with
          | None => None
          | Some name => collect_pairs symbols' (pairs ++ [name])
          end
      end
  end.

(** [get_all_usdt_pairs], lines 101-119, on the answer of the exchange.
    [answer] is [None] when the request fails, the status is an error or
    the body has no [symbols]: every exception ends in [return []]. *)
Definition usdt_pairs_of_answer (answer : option (list SymbolEntry)) : list string :=
  match answer with
  | None => []
  | Some symbols =>
      match collect_pairs symbols [] with
      | Some pairs => pairs
      | None => []
      end
  end.

(** An entry all of whose lookups succeed. *)
Definition entry_readable (s : SymbolEntry) : bool :=
  match entry_is_tradable s with
  | None => false
  | Some false => true
  | Some true => match e_symbol s with Some _ => true | None => false end
  end.

(** The name of a tradable USDT spot entry. *)
Definition tradable_name (s : SymbolEntry) : list string :=
  match entry_is_tradable s, e_symbol s with
  | Some true, Some name => [name]
  | _, _ => []
  end.

(** ** The download routes *)

(** A cell handed to [csv.writer]. *)
Inductive Cell : Type :=
| CStr (s : string)
| CNum (x : Q)
| CFlag (f : Severity)
| CTime (t : datetime).

(** The header row of lines 573-581. *)
Definition csv_header : list string :=
  [ "Symbol"; "Current_Price"; "Rebound_7h"; "Rebound_Hours";
    "Drawdown_7h"; "Drawdown_21d"; "Drawdown_Flag"; "Change_48h"; "Change_96h";
    "Change_21d"; "Volume_24h";
    "Low_7h"; "Low_Time_7h"; "High_7h"; "High_Time_7h";
    "Low_48h"; "Low_Time_48h"; "High_48h"; "High_Time_48h";
    "Low_96h"; "Low_Time_96h"; "High_96h"; "High_Time_96h";
    "Low_21d"; "Low_Time_21d"; "High_21d"; "High_Time_21d";
    "High_21d_Drawdown"; "High_21d_Time_Drawdown"; "Scan_Time" ]%string.

(** The row written for one result, lines 585-594. *)
Definition csv_row (r : ReboundResult) : list Cell :=
  [ CStr (symbol r); CNum (current_price r); CNum (rebound_pct r); CNum (rebound_hours r);
    CNum (drawdown_from_high r); CNum (drawdown_21d r); CFlag (drawdown_flag r);
    CNum (price_change_48h r); CNum (price_change_96h r); CNum (price_change_21d r);
    CNum (volume_24h r);
    CNum (low_price r); CTime (low_time r); CNum (high_price r); CTime (high_time r);
    CNum (low_48h_price r); CTime (low_48h_time r);
    CNum (high_48h_price r); CTime (high_48h_time r);
    CNum (low_96h_price r); CTime (low_96h_time r);
    CNum (high_96h_price r); CTime (high_96h_time r);
    CNum (low_21d_price r); CTime (low_21d_time r);
    CNum (high_21d_price r); CTime (high_21d_time r);
    CNum (high_21d_for_drawdown r); CTime (high_21d_time_for_drawdown r);
    CTime (scan_time r) ].

(** [download_csv], lines 560-602: the rows written, header first; [None]
    is the answer ["No results available", 404]. *)
Definition download_csv (g : Globals) : option (list string * list (list Cell)) :=
  match latest_results g with
  | [] => None
  | _ :: _ => Some (csv_header, map csv_row (latest_results g))
  end.

(** [download_json], lines 604-619: the records dumped; [None] is the
    404 answer. *)
Definition download_json (g : Globals) : option (list ReboundResult) :=
  match latest_results g with
  | [] => None
  | _ :: _ => Some (latest_results g)
  end.

(** ** Python float arithmetic of [format_time_display] *)

(** [int(x)] on a float: truncation toward zero; [None] is the ValueError
    or OverflowError raised on NaN and the infinities. *)
Definition py_int_of_float (x : float) : option Z :=
  match Prim2SF x with
  | S754_zero _ => Some 0%Z
  | S754_finite s m e =>
      let v := if (0 <=? e)%Z then (Zpos m * 2 ^ e)%Z else (Zpos m / 2 ^ (- e))%Z in
      Some (if s then (- v)%Z else v)
  | _ => None
  end.

(** The float [m * 2^e] for a magnitude that binary64 represents. *)
Definition exact_float (negative : bool) (m e : Z) : float :=
  let k := Z.max 0 (Z.log2 m - 52) in
  let f := Z.ldexp (float_of_int (m / 2 ^ k)) (e + k) in
  if negative then PrimFloat.opp f else f.

(** The rational a finite float stands for; [None] for NaN and the
    infinities. *)
Definition Q_of_float (x : float) : option Q :=
  match Prim2SF x with
  | S754_zero _ => Some 0
  | S754_finite s m e =>
      Some ((if s then - inject_Z (Zpos m) else inject_Z (Zpos m)) * 2 ^ e)
  | _ => None
  end.

(** The float of a rational [n / 2^k] that is the value of a double. *)
Definition float_of_Q (q : Q) : float :=
  exact_float (Qnum q <? 0)%Z (Z.abs (Qnum q)) (- Z.log2 (Zpos (Qden q))).

(** [((high - price) / high) * 100] with the primitive binary64
    operations, against the same expression with the rounded rational
    ones; [cents] lists the two prices in hundredths. *)
Definition rounding_agrees (cents : Z * Z) : bool :=
  let high := round_binary64 (fst cents # 100) in
  let price := round_binary64 (snd cents # 100) in
  match Q_of_float
          (PrimFloat.mul
             (PrimFloat.div (PrimFloat.sub (float_of_Q high) (float_of_Q price))
                            (float_of_Q high))
             (float_of_int 100)) with
  | Some v => Qeq_bool v (float_mul (float_div (float_sub high price) high) 100)
  | None => false
  end.

(** C's [fmod(x, y)]: the remainder of the exact division, with the sign
    of [x]; it is computed without rounding. *)
Definition fmod (x y : float) : float :=
  match Prim2SF x, Prim2SF y with
  | S754_nan, _ | _, S754_nan => nan
  | S754_infinity _, _ | _, S754_zero _ => nan
  | S754_zero _, _ | S754_finite _ _ _, S754_infinity _ => x
  | S754_finite sx mx ex, S754_finite _ my ey =>
      let e := Z.min ex ey in
      let r := ((Zpos mx * 2 ^ (ex - e)) mod (Zpos my * 2 ^ (ey - e)))%Z in
      if (r =? 0)%Z then (if sx then neg_zero else zero)
      else exact_float sx r e
  end.

(** C's [floor(x)]. *)
Definition float_floor (x : float) : float :=
  match Prim2SF x with
  | S754_finite s m e =>
      if (0 <=? e)%Z then x
      else
        let q := (Zpos m / 2 ^ (- e))%Z in
        if s then
          (if (Zpos m mod 2 ^ (- e) =? 0)%Z then x else float_of_int (- (q + 1)))
        else float_of_int q
  | _ => x
  end.

(** [copysign(0.0, x)]. *)
Definition zero_with_sign_of (x : float) : float :=
  if get_sign x then neg_zero else zero.

(** CPython's [float_divmod(vx, wx)] for [wx] other than zero: the pair
    [(vx // wx, vx % wx)]. *)
Definition float_divmod (vx wx : float) : float * float :=
  let rest := fmod vx wx in
  let quot := PrimFloat.div (PrimFloat.sub vx rest) wx in
  let '(rest, quot) :=
    if negb (PrimFloat.eqb rest zero) then
      if negb (Bool.eqb (PrimFloat.ltb wx zero) (PrimFloat.ltb rest zero))
      then (PrimFloat.add rest wx, PrimFloat.sub quot one)
      else (rest, quot)
    else (zero_with_sign_of wx, quot) in
  let floordiv :=
    if negb (PrimFloat.eqb quot zero) then
      let floordiv := float_floor quot in
      if PrimFloat.ltb (PrimFloat.div one two) (PrimFloat.sub quot floordiv)
      then PrimFloat.add floordiv one else floordiv
    else zero_with_sign_of (PrimFloat.div vx wx) in
  (floordiv, rest).

(** [(t2 - t1).total_seconds() / 3600] in binary64, for a difference
    below 2^53 microseconds. *)
Definition time_diff_hours (t1 t2 : datetime) : float :=
  PrimFloat.div (PrimFloat.div (float_of_int (t2 - t1)) (float_of_int 1000000))
                (float_of_int 3600).

(** [format_time_display], lines 294-310; [None]: [int] raises. *)
Definition format_time_display (hours : float) : option string :=
  if PrimFloat.leb (float_of_int 24) hours then
    match py_int_of_float (fst (float_divmod hours (float_of_int 24))),
          py_int_of_float (snd (float_divmod hours (float_of_int 24))) with
    | Some days, Some remaining_hours =>
        if (0 <? remaining_hours)%Z
        then Some (str_of_int days ++ "d" ++ str_of_int remaining_hours ++ "h")%string
        else Some (str_of_int days ++ "d")%string
    | _, _ => None
    end
  else if PrimFloat.leb (float_of_int 1) hours then
    match py_int_of_float (fst (float_divmod hours (float_of_int 1))),
          py_int_of_float
            (PrimFloat.mul (snd (float_divmod hours (float_of_int 1))) (float_of_int 60))
    with
    | Some whole_hours, Some minutes =>
        if (0 <? minutes)%Z
        then Some (str_of_int whole_hours ++ "h" ++ str_of_int minutes ++ "m")%string
        else Some (str_of_int whole_hours ++ "h")%string
    | _, _ => None
    end
  else
    match py_int_of_float (PrimFloat.mul hours (float_of_int 60)) with
    | Some minutes => Some (str_of_int minutes ++ "m")%string
    | None => None
    end.

(** The label of a duration of [m] whole minutes, in integer
    arithmetic: days and hours from one day on, hours and minutes from
    one hour on, minutes below. *)
Definition minutes_label (m : Z) : string :=
  if (1440 <=? m)%Z then
    if (0 <? (m mod 1440) / 60)%Z
    then (str_of_int (m / 1440) ++ "d" ++ str_of_int ((m mod 1440) / 60) ++ "h")%string
    else (str_of_int (m / 1440) ++ "d")%string
  else if (60 <=? m)%Z then
    if (0 <? m mod 60)%Z
    then (str_of_int (m / 60) ++ "h" ++ str_of_int (m mod 60) ++ "m")%string
    else (str_of_int (m / 60) ++ "h")%string
  else (str_of_int m ++ "m")%string.

(** ** Vocabulary of the further statements *)

(** The scanner with the two filter settings of the form replaced. *)
Definition with_filter (self : WebScanner) (enabled : bool) (tf : string) : WebScanner :=
  {| lookback_hours := lookback_hours self;
     lookback_48h_hours := lookback_48h_hours self;
     lookback_96h_hours := lookback_96h_hours self;
     lookback_21d_hours := lookback_21d_hours self;
     min_price_change := min_price_change self;
     min_volume_24h := min_volume_24h self;
     max_drawdown := max_drawdown self;
     timeframe := timeframe self;
     timeframe_21d := timeframe_21d self;
     filter_timeframe := tf;
     filter_enabled := enabled |}.

(** Candles whose high is not below their low. *)
Definition well_formed (c : candle) : Prop := c_low c <= c_high c.

(** Sample entries of an exchangeInfo answer. *)
Definition sample_entries : list SymbolEntry :=
  [ {| e_symbol := Some "BTCUSDT"; e_quoteAsset := Some "USDT";
       e_status := Some "TRADING"; e_isSpotTradingAllowed := Some true |};
    {| e_symbol := Some "ETHBTC"; e_quoteAsset := Some "BTC";
       e_status := None; e_isSpotTradingAllowed := None |};
    {| e_symbol := Some "OLDUSDT"; e_quoteAsset := Some "USDT";
       e_status := Some "BREAK"; e_isSpotTradingAllowed := None |};
    {| e_symbol := Some "ETHUSDT"; e_quoteAsset := Some "USDT";
       e_status := Some "TRADING"; e_isSpotTradingAllowed := Some true |} ]%string.



(** * Properties *)

Local Close Scope monad_scope.

(** ** Comparisons *)

Lemma Qltb_true_iff (a b : Q) : Qltb a b = true <-> a < b.
Proof.
  unfold Qltb. rewrite negb_true_iff. split; intro H.
  - apply Qnot_le_lt. intro Hle. apply Qle_bool_iff in Hle. congruence.
  - destruct (Qle_bool b a) eqn:Hb; [|reflexivity].
    apply Qle_bool_iff in Hb. exfalso. exact (Qlt_not_le _ _ H Hb).
Qed.

Lemma Qltb_false_iff (a b : Q) : Qltb a b = false <-> b <= a.
Proof.
  unfold Qltb. rewrite negb_false_iff. apply Qle_bool_iff.
Qed.

Lemma Qle_bool_false_iff (a b : Q) : Qle_bool a b = false <-> b < a.
Proof.
  rewrite <- Qltb_true_iff. unfold Qltb. now rewrite negb_true_iff.
Qed.

Lemma Qltb_opp (a b : Q) : Qltb (- a) (- b) = Qltb b a.
Proof.
  destruct (Qltb b a) eqn:H.
  - apply Qltb_true_iff. apply Qltb_true_iff in H. now apply Qopp_lt_compat.
  - apply Qltb_false_iff. apply Qltb_false_iff in H. now apply Qopp_le_compat.
Qed.

(** ** Rounding to binary64 *)

Lemma round_half_even_spec (x : Q) :
  x - (1 # 2) <= inject_Z (round_half_even x) <= x + (1 # 2).
Proof.
  destruct x as [n d]. unfold round_half_even. cbn [Qnum Qden].
  pose proof (Z.div_mod n (Zpos d) ltac:(lia)) as Hdm.
  pose proof (Z.mod_pos_bound n (Zpos d) ltac:(lia)) as Hr.
  set (f := (n / Zpos d)%Z) in *. set (r := (n mod Zpos d)%Z) in *.
  destruct (2 * r <? Zpos d)%Z eqn:H1;
    [apply Z.ltb_lt in H1|apply Z.ltb_ge in H1;
     destruct (Zpos d <? 2 * r)%Z eqn:H2;
       [apply Z.ltb_lt in H2|apply Z.ltb_ge in H2; destruct (Z.even f)]];
    unfold Qle, Qminus, Qplus, Qopp, inject_Z; cbn [Qnum Qden];
    split; nia.
Qed.

Lemma two_neq_0 : ~ 2 == 0.
Proof. discriminate. Qed.

Lemma pow2_pos (e : Z) : 0 < 2 ^ e.
Proof. apply Qpower_0_lt. reflexivity. Qed.

Lemma pow2_le (a b : Z) : (a <= b)%Z -> 2 ^ a <= 2 ^ b.
Proof. intro H. apply Qpower_le_compat_l; [exact H|discriminate]. Qed.

Lemma pow2_Z (a : Z) : (0 <= a)%Z -> 2 ^ a == inject_Z (2 ^ a).
Proof. intro H. symmetry. apply (Zpower_Qpower 2 a H). Qed.

Lemma pow2_succ (a : Z) : 2 ^ (a + 1) == 2 * 2 ^ a.
Proof. rewrite Qpower_plus by exact two_neq_0. rewrite Qpower_1_r. ring. Qed.

Lemma pow2_pred (a : Z) : 2 * 2 ^ (a - 1) == 2 ^ a.
Proof.
  rewrite <- pow2_succ. replace (a - 1 + 1)%Z with a by lia. reflexivity.
Qed.

(** The fraction [A/B] against [n/d], on integers. *)
Lemma Qabs_make (q : Q) : Qabs q == inject_Z (Z.abs (Qnum q)) / inject_Z (Zpos (Qden q)).
Proof.
  destruct q as [n d]. unfold Qabs, Qeq, Qdiv, Qmult, Qinv, inject_Z. cbn. lia.
Qed.

Lemma Qlog2_spec (q : Q) :
  ~ q == 0 -> 2 ^ Qlog2 q <= Qabs q /\ Qabs q < 2 ^ (Qlog2 q + 1).
Proof.
  intro Hq.
  assert (Hn : (0 < Z.abs (Qnum q))%Z).
  { destruct q as [n d]. unfold Qeq in Hq. cbn in *. lia. }
  unfold Qlog2.
  set (n := Z.abs (Qnum q)) in *. set (d := Zpos (Qden q)).
  assert (Hd : (0 < d)%Z) by (unfold d; lia).
  pose proof (Z.log2_spec n Hn) as Ha. pose proof (Z.log2_spec d Hd) as Hb.
  pose proof (Z.log2_nonneg n) as Ha0. pose proof (Z.log2_nonneg d) as Hb0.
  set (a := Z.log2 n) in *. set (b := Z.log2 d) in *.
  rewrite !Z.pow_succ_r in Ha, Hb by assumption.
  assert (HA : (0 < 2 ^ a)%Z) by (apply Z.pow_pos_nonneg; lia).
  assert (HB : (0 < 2 ^ b)%Z) by (apply Z.pow_pos_nonneg; lia).
  assert (Hpow : 2 ^ (a - b) == inject_Z (2 ^ a) / inject_Z (2 ^ b)).
  { rewrite Qpower_minus by exact two_neq_0. now rewrite !pow2_Z. }
  assert (Habs : Qabs q == inject_Z n / inject_Z d) by apply Qabs_make.
  assert (Hcmp : forall A B : Z, (0 < B)%Z ->
            (inject_Z A / inject_Z B <= inject_Z n / inject_Z d <-> (A * d <= n * B)%Z)).
  { intros A B HB'. unfold Qle, Qdiv, Qmult, Qinv, inject_Z.
    destruct B as [|B|B]; try lia. destruct d as [|d'|d'] eqn:Hd'; try lia.
    cbn. split; intro H; nia. }
  assert (Hcmp' : forall A B : Z, (0 < B)%Z ->
            (inject_Z n / inject_Z d < inject_Z A / inject_Z B <-> (n * B < A * d)%Z)).
  { intros A B HB'. unfold Qlt, Qdiv, Qmult, Qinv, inject_Z.
    destruct B as [|B|B]; try lia. destruct d as [|d'|d'] eqn:Hd'; try lia.
    cbn. split; intro H; nia. }
  destruct (d * 2 ^ a <=? n * 2 ^ b)%Z eqn:Ht;
    [apply Z.leb_le in Ht|apply Z.leb_gt in Ht].
  - split.
    + rewrite Hpow, Habs. apply Hcmp; [exact HB|]. lia.
    + rewrite pow2_succ, Hpow, Habs.
      setoid_replace (2 * (inject_Z (2 ^ a) / inject_Z (2 ^ b)))
        with (inject_Z (2 * 2 ^ a) / inject_Z (2 ^ b)).
      * apply Hcmp'; [exact HB|].
        apply Z.le_lt_trans with (n * d)%Z.
        -- apply Z.mul_le_mono_nonneg_l; lia.
        -- apply Z.mul_lt_mono_pos_r; lia.
      * rewrite inject_Z_mult. unfold Qdiv. ring.
  - split.
    + replace (a - b - 1)%Z with (a - (b + 1))%Z by lia.
      rewrite Qpower_minus by exact two_neq_0. rewrite !pow2_Z by lia. rewrite Habs.
      apply Hcmp; [apply Z.pow_pos_nonneg; lia|].
      rewrite Z.pow_add_r by lia. change (2 ^ 1)%Z with 2%Z.
      apply Z.le_trans with (n * d)%Z.
      * apply Z.mul_le_mono_nonneg_r; lia.
      * apply Z.mul_le_mono_nonneg_l; lia.
    + replace (a - b - 1 + 1)%Z with (a - b)%Z by lia. rewrite Hpow, Habs.
      apply Hcmp'; [exact HB|]. lia.
Qed.

Lemma inject_Z_half_nonneg (m : Z) : - (1 # 2) <= inject_Z m -> (0 <= m)%Z.
Proof. unfold Qle, inject_Z. cbn. lia. Qed.

Lemma inject_Z_half_nonpos (m : Z) : inject_Z m <= 1 # 2 -> (m <= 0)%Z.
Proof. unfold Qle, inject_Z. cbn. lia. Qed.

Lemma round_binary64_nonneg (q : Q) : 0 <= q -> 0 <= round_binary64 q.
Proof.
  intro Hq. unfold round_binary64.
  set (e := Z.max (Qlog2 q - 52) (-1074)).
  pose proof (pow2_pos e) as He.
  assert (Hy : 0 <= q / 2 ^ e) by (apply Qle_shift_div_l; [exact He|lra]).
  pose proof (round_half_even_spec (q / 2 ^ e)) as [Hlo _].
  assert (Hm : (0 <= round_half_even (q / 2 ^ e))%Z)
    by (apply inject_Z_half_nonneg; lra).
  apply Qmult_le_0_compat; [|lra].
  change 0 with (inject_Z 0). rewrite <- Zle_Qle. exact Hm.
Qed.

Lemma round_binary64_nonpos (q : Q) : q <= 0 -> round_binary64 q <= 0.
Proof.
  intro Hq. unfold round_binary64.
  set (e := Z.max (Qlog2 q - 52) (-1074)).
  pose proof (pow2_pos e) as He.
  assert (Hy : q / 2 ^ e <= 0) by (apply Qle_shift_div_r; [exact He|lra]).
  pose proof (round_half_even_spec (q / 2 ^ e)) as [_ Hhi].
  assert (Hm : (round_half_even (q / 2 ^ e) <= 0)%Z)
    by (apply inject_Z_half_nonpos; lra).
  assert (Hm' : inject_Z (round_half_even (q / 2 ^ e)) <= 0)
    by (change 0 with (inject_Z 0); rewrite <- Zle_Qle; exact Hm).
  nra.
Qed.

(** The exponent of the last place is at most the magnitude, from the
    smallest subnormal on. *)
Lemma ulp_le (q : Q) :
  2 ^ (-1074) <= Qabs q -> 2 ^ Z.max (Qlog2 q - 52) (-1074) <= Qabs q.
Proof.
  intro H.
  assert (Hq : ~ q == 0).
  { intro H0. rewrite H0 in H. pose proof (pow2_pos (-1074)). cbn in H. lra. }
  destruct (Qlog2_spec q Hq) as [Hlo _].
  destruct (Z.max_spec (Qlog2 q - 52) (-1074)) as [[_ ->]|[_ ->]]; [exact H|].
  apply Qle_trans with (2 ^ Qlog2 q); [apply pow2_le; lia|exact Hlo].
Qed.

Lemma round_binary64_half_pos (q : Q) :
  2 ^ (-1074) <= q -> q * (1 # 2) <= round_binary64 q.
Proof.
  intro H. pose proof (pow2_pos (-1074)) as Hmin.
  assert (Habs : Qabs q == q) by (apply Qabs_pos; lra).
  pose proof (ulp_le q) as Hulp. rewrite Habs in Hulp. specialize (Hulp H).
  unfold round_binary64. set (e := Z.max (Qlog2 q - 52) (-1074)) in *.
  pose proof (pow2_pos e) as He.
  assert (Hy : 1 <= q / 2 ^ e) by (apply Qle_shift_div_l; [exact He|lra]).
  pose proof (round_half_even_spec (q / 2 ^ e)) as [Hlo _].
  assert (Hq : q == (q / 2 ^ e) * 2 ^ e) by (field; lra).
  rewrite Hq at 1. revert Hy Hlo. generalize (q / 2 ^ e).
  generalize (inject_Z (round_half_even (q / 2 ^ e))). intros m y Hy Hlo. nra.
Qed.

Lemma round_binary64_half_neg (q : Q) :
  q <= - 2 ^ (-1074) -> round_binary64 q <= q * (1 # 2).
Proof.
  intro H. pose proof (pow2_pos (-1074)) as Hmin.
  assert (Habs : Qabs q == - q) by (apply Qabs_neg; lra).
  pose proof (ulp_le q) as Hulp. rewrite Habs in Hulp. specialize (Hulp ltac:(lra)).
  unfold round_binary64. set (e := Z.max (Qlog2 q - 52) (-1074)) in *.
  pose proof (pow2_pos e) as He.
  assert (Hy : q / 2 ^ e <= - (1)) by (apply Qle_shift_div_r; [exact He|lra]).
  pose proof (round_half_even_spec (q / 2 ^ e)) as [_ Hhi].
  assert (Hq : q == (q / 2 ^ e) * 2 ^ e) by (field; lra).
  rewrite Hq at 2. revert Hy Hhi. generalize (q / 2 ^ e).
  generalize (inject_Z (round_half_even (q / 2 ^ e))). intros m y Hy Hhi. nra.
Qed.

(** A value that rounding leaves unchanged is a mantissa below 2^53 times
    a power of two not below 2^-1074. *)
Lemma is_binary64_repr (q : Q) :
  is_binary64 q = true ->
  exists m e : Z, (Z.abs m < 2 ^ 53)%Z /\ (-1074 <= e)%Z /\ q == inject_Z m * 2 ^ e.
Proof.
  intro H. apply Qeq_bool_iff in H.
  destruct (Qeq_dec q 0) as [H0|H0].
  - exists 0%Z, (-1074)%Z. split; [reflexivity|]. split; [lia|]. rewrite H0. ring.
  - exists (round_half_even (q / 2 ^ Z.max (Qlog2 q - 52) (-1074))),
           (Z.max (Qlog2 q - 52) (-1074)).
    unfold round_binary64 in H.
    set (e := Z.max (Qlog2 q - 52) (-1074)) in *.
    set (m := round_half_even (q / 2 ^ e)) in *.
    split; [|split; [lia|symmetry; exact H]].
    destruct (Qlog2_spec q H0) as [_ Hup].
    pose proof (pow2_pos e) as He.
    assert (Hle : 2 ^ (Qlog2 q + 1) <= 2 ^ (e + 53)) by (apply pow2_le; lia).
    assert (Hsplit : 2 ^ (e + 53) == 2 ^ e * inject_Z (2 ^ 53)).
    { rewrite Qpower_plus by exact two_neq_0. rewrite (pow2_Z 53) by lia. reflexivity. }
    assert (Habs : Qabs q == inject_Z (Z.abs m) * 2 ^ e).
    { rewrite <- H at 1. rewrite Qabs_Qmult, (Qabs_pos (2 ^ e)) by lra.
      apply Qmult_comp; [|reflexivity]. unfold Qabs, inject_Z. reflexivity. }
    rewrite Zlt_Qlt.
    apply (Qmult_lt_r _ _ (2 ^ e)); [exact He|]. rewrite <- Habs. lra.
Qed.

(** Two distinct binary64 values are at least one unit of the smaller
    one's last place apart. *)
Lemma binary64_gap (h c : Q) :
  is_binary64 h = true -> is_binary64 c = true -> 0 < h -> h < c ->
  2 ^ (-1074) <= c - h /\ h <= (c - h) * inject_Z (2 ^ 53).
Proof.
  intros Hh Hc Hpos Hlt.
  destruct (is_binary64_repr h Hh) as (mh & eh & Hmh & Heh & Hhv).
  destruct (is_binary64_repr c Hc) as (mc & ec & Hmc & Hec & Hcv).
  pose proof (pow2_pos eh) as Hpeh. pose proof (pow2_pos ec) as Hpec.
  destruct (Z.le_gt_cases eh ec) as [Hle|Hgt].
  - (* both are multiples of 2^eh *)
    assert (Hec' : 2 ^ ec == inject_Z (2 ^ (ec - eh)) * 2 ^ eh).
    { rewrite <- pow2_Z by lia. rewrite <- Qpower_plus by exact two_neq_0.
      replace (ec - eh + eh)%Z with ec by lia. reflexivity. }
    set (k := (mc * 2 ^ (ec - eh) - mh)%Z).
    assert (Hdiff : c - h == inject_Z k * 2 ^ eh).
    { rewrite Hcv, Hhv, Hec'. unfold k, Z.sub. rewrite inject_Z_plus, inject_Z_opp, inject_Z_mult. ring. }
    assert (Hk : (1 <= k)%Z).
    { assert (Hk0 : 0 < inject_Z k * 2 ^ eh) by (rewrite <- Hdiff; lra).
      assert (Hk1 : 0 < inject_Z k) by nra.
      change 0 with (inject_Z 0) in Hk1. rewrite <- Zlt_Qlt in Hk1. lia. }
    assert (Hk' : 1 <= inject_Z k) by (change 1 with (inject_Z 1); rewrite <- Zle_Qle; exact Hk).
    assert (Hmh' : inject_Z mh < inject_Z (2 ^ 53)) by (rewrite <- Zlt_Qlt; lia).
    pose proof (pow2_le (-1074) eh Heh) as Hmin.
    rewrite Hdiff, Hhv. clear Hdiff Hhv Hcv Hec'.
    assert (HP53 : 0 < inject_Z (2 ^ 53)) by reflexivity.
    revert Hk' Hmh' Hmin Hpeh HP53.
    generalize (inject_Z (2 ^ 53)) (inject_Z k) (inject_Z mh) (2 ^ eh) (2 ^ (-1074)).
    intros P K M X N HK HM HN HX HP. split.
    + assert (0 <= (K - 1) * X) by nra. lra.
    + assert (M * X <= P * X) by nra.
      assert (0 <= (K - 1) * (X * P)) by (apply Qmult_le_0_compat; nra). nra.
  - (* both are multiples of 2^ec *)
    assert (Heh' : 2 ^ eh == inject_Z (2 ^ (eh - ec)) * 2 ^ ec).
    { rewrite <- pow2_Z by lia. rewrite <- Qpower_plus by exact two_neq_0.
      replace (eh - ec + ec)%Z with eh by lia. reflexivity. }
    set (k := (mc - mh * 2 ^ (eh - ec))%Z).
    assert (Hdiff : c - h == inject_Z k * 2 ^ ec).
    { rewrite Hcv, Hhv, Heh'. unfold k, Z.sub. rewrite inject_Z_plus, inject_Z_opp, inject_Z_mult. ring. }
    assert (Hk : (1 <= k)%Z).
    { assert (Hk0 : 0 < inject_Z k * 2 ^ ec) by (rewrite <- Hdiff; lra).
      assert (Hk1 : 0 < inject_Z k) by nra.
      change 0 with (inject_Z 0) in Hk1. rewrite <- Zlt_Qlt in Hk1. lia. }
    assert (Hk' : 1 <= inject_Z k) by (change 1 with (inject_Z 1); rewrite <- Zle_Qle; exact Hk).
    assert (Hmc' : inject_Z mc < inject_Z (2 ^ 53)) by (rewrite <- Zlt_Qlt; lia).
    pose proof (pow2_le (-1074) ec Hec) as Hmin.
    assert (Hhc : h <= inject_Z mc * 2 ^ ec) by (rewrite <- Hcv; lra).
    rewrite Hdiff. clear Hdiff Hhv Hcv Heh'.
    assert (HP53 : 0 < inject_Z (2 ^ 53)) by reflexivity.
    revert Hk' Hmc' Hmin Hpec Hhc HP53.
    generalize (inject_Z (2 ^ 53)) (inject_Z k) (inject_Z mc) (2 ^ ec) (2 ^ (-1074)).
    intros P K M X N HK HM HN HX Hhc HP. split.
    + assert (0 <= (K - 1) * X) by nra. lra.
    + assert (M * X <= P * X) by nra.
      assert (0 <= (K - 1) * (X * P)) by (apply Qmult_le_0_compat; nra). nra.
Qed.

(** The rounded rational operations compute what the primitive binary64
    operations compute: checked on the drawdown expression for every pair
    of prices from 0.01 to 0.30 in hundredths, for round prices, and at
    the prices 100/129, 100/93 and 3/2.1, where the rounding decides. *)
Lemma rounding_agrees_with_primitive_floats :
  forallb rounding_agrees
    (list_prod (map Z.of_nat (seq 1 30)) (map Z.of_nat (seq 1 30))) = true /\
  forallb rounding_agrees
    [(11200, 11000); (11200, 9500); (11200, 12000); (10000, 12900); (12900, 10000);
     (10000, 9300); (300, 210); (11200, 8400); (6543210, 6543209);
     (1, 99999999); (99999999, 1)]%Z = true.
Proof. split; vm_compute; reflexivity. Qed.

(** At a peak of 3 and a price of 2.1 (the double, which is above 21/10)
    the drawdown is rounded to 30.0 and flagged CRITICAL, as the source
    does, although the price is above 70 percent of the peak. *)
Example drawdown_rounded_onto_threshold :
  3 * (70 # 100) < round_binary64 (21 # 10) /\
  float_mul (float_div (float_sub 3 (round_binary64 (21 # 10))) 3) 100 == 30 /\
  flag_of_drawdown (float_mul (float_div (float_sub 3 (round_binary64 (21 # 10))) 3) 100)
    = CRITICAL.
Proof. repeat split; vm_compute; reflexivity. Qed.

(** The sign of [((high - price) / high) * 100] computed in binary64. *)
Lemma float_drawdown_nonneg (high price : Q) :
  0 < high -> price <= high ->
  0 <= float_mul (float_div (float_sub high price) high) 100.
Proof.
  intros Hh Hle. unfold float_mul, float_div, float_sub.
  apply round_binary64_nonneg.
  assert (H1 : 0 <= round_binary64 (high - price)) by (apply round_binary64_nonneg; lra).
  assert (H2 : 0 <= round_binary64 (round_binary64 (high - price) / high)).
  { apply round_binary64_nonneg. apply Qle_shift_div_l; [exact Hh|lra]. }
  nra.
Qed.

(** No rounding of the three takes a price above the high to a
    drawdown of zero: the difference of two doubles is at least 2^-53 of
    the smaller one. *)
Lemma float_drawdown_neg (high price : Q) :
  is_binary64 high = true -> is_binary64 price = true ->
  0 < high -> high < price ->
  float_mul (float_div (float_sub high price) high) 100 < 0.
Proof.
  intros Bh Bp Hh Hlt.
  destruct (binary64_gap high price Bh Bp Hh Hlt) as [Hmin Hrel].
  pose proof (pow2_pos (-1074)) as Hpmin.
  unfold float_mul, float_div, float_sub.
  pose proof (round_binary64_half_neg (high - price) ltac:(lra)) as H1.
  set (s := round_binary64 (high - price)) in *.
  assert (Hq : s / high <= - (1 # 2) / inject_Z (2 ^ 53)).
  { apply Qle_shift_div_r; [exact Hh|].
    assert (HP : 0 < inject_Z (2 ^ 53)) by reflexivity.
    assert (Hx : - (1 # 2) / inject_Z (2 ^ 53) * high
                 == - ((1 # 2) * (high / inject_Z (2 ^ 53))))
      by (field; lra).
    rewrite Hx.
    assert (Hy : high / inject_Z (2 ^ 53) <= price - high)
      by (apply Qle_shift_div_r; [exact HP|lra]).
    lra. }
  assert (Hsmall : - (1 # 2) / inject_Z (2 ^ 53) <= - 2 ^ (-1074))
    by (vm_compute; discriminate).
  pose proof (round_binary64_half_neg (s / high) ltac:(lra)) as H2.
  set (t := round_binary64 (s / high)) in *.
  assert (Ht : t * 100 <= - 2 ^ (-1074)).
  { assert (- (1 # 2) / inject_Z (2 ^ 53) * (1 # 2) * 100 <= - 2 ^ (-1074))
      by (vm_compute; discriminate).
    lra. }
  pose proof (round_binary64_half_neg (t * 100) Ht) as H3. lra.
Qed.

(** ** min and max pick the first extremal element *)

Section MinMax.
Context {A : Type}.
Variable key : A -> Q.

Lemma min_from_split (l : list A) : forall (best : A) (p1 p2 : list A),
  (forall c, In c p1 -> key best < key c) ->
  (forall c, In c p2 -> key best <= key c) ->
  exists l1 l2,
    p1 ++ best :: p2 ++ l = l1 ++ min_from key best l :: l2 /\
    (forall c, In c l1 -> key (min_from key best l) < key c) /\
    (forall c, In c l2 -> key (min_from key best l) <= key c).
Proof.
  induction l as [|x l IH]; intros best p1 p2 H1 H2; simpl.
  - exists p1, p2. rewrite app_nil_r. auto.
  - destruct (Qltb (key x) (key best)) eqn:Hx.
    + apply Qltb_true_iff in Hx.
      destruct (IH x (p1 ++ best :: p2) []) as (l1 & l2 & Heq & Hl1 & Hl2).
      * intros c Hc. apply in_app_or in Hc. destruct Hc as [Hc|[Hc|Hc]].
        -- eapply Qlt_trans; [exact Hx | auto].
        -- now subst c.
        -- eapply Qlt_le_trans; [exact Hx | auto].
      * intros c [].
      * exists l1, l2. split; [|auto].
        rewrite <- Heq. simpl. now rewrite <- app_assoc.
    + apply Qltb_false_iff in Hx.
      destruct (IH best p1 (p2 ++ [x])) as (l1 & l2 & Heq & Hl1 & Hl2); [assumption| |].
      * intros c Hc. apply in_app_or in Hc. destruct Hc as [Hc|[Hc|[]]]; [auto|now subst c].
      * exists l1, l2. split; [|auto].
        rewrite <- Heq. now rewrite <- app_assoc.
Qed.

(** [min(l, key)] is the first element of [l] whose key is minimal. *)
Lemma py_min_split (l : list A) (m : A) :
  py_min key l = Some m ->
  exists l1 l2,
    l = l1 ++ m :: l2 /\
    (forall c, In c l1 -> key m < key c) /\
    (forall c, In c l2 -> key m <= key c).
Proof.
  destruct l as [|x l]; simpl; [discriminate|].
  intros [= <-].
  destruct (min_from_split l x [] []) as (l1 & l2 & Heq & H); [intros c []..|].
  exists l1, l2. split; [exact Heq | exact H].
Qed.

Lemma py_min_In (l : list A) (m : A) : py_min key l = Some m -> In m l.
Proof.
  intro H. destruct (py_min_split l m H) as (l1 & l2 & -> & _).
  apply in_elt.
Qed.

Lemma py_min_le (l : list A) (m : A) :
  py_min key l = Some m -> forall c, In c l -> key m <= key c.
Proof.
  intros H c Hc. destruct (py_min_split l m H) as (l1 & l2 & -> & Hl1 & Hl2).
  apply in_app_or in Hc. destruct Hc as [Hc|[Hc|Hc]].
  - apply Qlt_le_weak; auto.
  - subst c. apply Qle_refl.
  - auto.
Qed.

Lemma py_min_nonempty (l : list A) : l <> [] -> exists m, py_min key l = Some m.
Proof.
  destruct l as [|x l]; [congruence|]. intros _. simpl. eauto.
Qed.
End MinMax.

Lemma max_from_as_min {A : Type} (key : A -> Q) (l : list A) : forall best,
  max_from key best l = min_from (fun a => - key a) best l.
Proof.
  induction l as [|x l IH]; intro best; simpl; [reflexivity|].
  rewrite Qltb_opp. apply IH.
Qed.

(** [max(l, key)] is the first element of [l] whose key is maximal. *)
Lemma py_max_split {A : Type} (key : A -> Q) (l : list A) (m : A) :
  py_max key l = Some m ->
  exists l1 l2,
    l = l1 ++ m :: l2 /\
    (forall c, In c l1 -> key c < key m) /\
    (forall c, In c l2 -> key c <= key m).
Proof.
  intro H.
  assert (Hmin : py_min (fun a => - key a) l = Some m).
  { destruct l as [|x l]; simpl in *; [discriminate|].
    now rewrite <- max_from_as_min. }
  destruct (py_min_split _ l m Hmin) as (l1 & l2 & Heq & Hl1 & Hl2).
  exists l1, l2. split; [exact Heq|]. split; intros c Hc.
  - specialize (Hl1 c Hc). apply Qopp_lt_compat in Hl1.
    now rewrite !Qopp_involutive in Hl1.
  - specialize (Hl2 c Hc). apply Qopp_le_compat in Hl2.
    now rewrite !Qopp_involutive in Hl2.
Qed.

Lemma py_max_In {A : Type} (key : A -> Q) (l : list A) (m : A) :
  py_max key l = Some m -> In m l.
Proof.
  intro H. destruct (py_max_split key l m H) as (l1 & l2 & -> & _).
  apply in_elt.
Qed.

Lemma py_max_ge {A : Type} (key : A -> Q) (l : list A) (m : A) :
  py_max key l = Some m -> forall c, In c l -> key c <= key m.
Proof.
  intros H c Hc. destruct (py_max_split key l m H) as (l1 & l2 & -> & Hl1 & Hl2).
  apply in_app_or in Hc. destruct Hc as [Hc|[Hc|Hc]].
  - apply Qlt_le_weak; auto.
  - subst c. apply Qle_refl.
  - auto.
Qed.

Lemma py_max_nonempty {A : Type} (key : A -> Q) (l : list A) :
  l <> [] -> exists m, py_max key l = Some m.
Proof.
  destruct l as [|x l]; [congruence|]. intros _. simpl. eauto.
Qed.

(** ** The stable sort *)

Section StableSort.
Context {A : Type}.
Variable precedes : A -> A -> bool.

Lemma insert_stable_perm (x : A) (l : list A) :
  Permutation (insert_stable precedes x l) (x :: l).
Proof.
  induction l as [|y l IH]; simpl; [reflexivity|].
  destruct (precedes y x); [|reflexivity].
  rewrite IH. apply perm_swap.
Qed.

Lemma stable_sort_perm (l : list A) : Permutation (stable_sort precedes l) l.
Proof.
  induction l as [|x l IH]; simpl; [reflexivity|].
  rewrite insert_stable_perm. now constructor.
Qed.

Lemma insert_stable_filter (p : A -> bool) (x : A) (l : list A) :
  (forall y, p x = true -> p y = true -> precedes y x = false) ->
  filter p (insert_stable precedes x l) = filter p (x :: l).
Proof.
  intro Hp. induction l as [|y l IH]; simpl; [reflexivity|].
  destruct (precedes y x) eqn:Hyx; [|reflexivity].
  simpl. rewrite IH. simpl.
  destruct (p x) eqn:Hx; [|reflexivity].
  destruct (p y) eqn:Hy; [|reflexivity].
  specialize (Hp y eq_refl Hy). congruence.
Qed.

(** Stability: the elements of a class of mutually unordered elements
    come out in the order they came in. *)
Lemma stable_sort_filter (p : A -> bool) (l : list A) :
  (forall x y, p x = true -> p y = true -> precedes y x = false) ->
  filter p (stable_sort precedes l) = filter p l.
Proof.
  intro Hp. induction l as [|x l IH]; simpl; [reflexivity|].
  rewrite insert_stable_filter by (intros y; apply Hp).
  simpl. now rewrite IH.
Qed.

Hypothesis precedes_asym : forall x y, precedes y x = true -> precedes x y = false.
Hypothesis precedes_negtrans : forall a b c,
  precedes b a = false -> precedes c b = false -> precedes c a = false.

Lemma insert_stable_sorted (x : A) (l : list A) :
  StronglySorted (in_order precedes) l -> StronglySorted (in_order precedes) (insert_stable precedes x l).
Proof.
  induction 1 as [|y l Hs IH Hall]; simpl.
  - constructor; constructor.
  - destruct (precedes y x) eqn:Hyx.
    + constructor; [exact IH|].
      eapply Permutation_Forall; [symmetry; apply insert_stable_perm|].
      constructor; [|exact Hall]. now apply precedes_asym.
    + constructor; [now constructor|].
      constructor; [exact Hyx|].
      eapply Forall_impl; [|exact Hall].
      intros z Hz. unfold in_order in *. eapply precedes_negtrans; eassumption.
Qed.

Lemma stable_sort_sorted (l : list A) : StronglySorted (in_order precedes) (stable_sort precedes l).
Proof.
  induction l as [|x l IH]; simpl; [constructor|].
  now apply insert_stable_sorted.
Qed.
End StableSort.

Lemma filter_perm {A : Type} (f : A -> bool) (l l' : list A) :
  Permutation l l' -> Permutation (filter f l) (filter f l').
Proof.
  induction 1 as [|x l l' _ IH|x y l|l l' l'' _ IH1 _ IH2]; simpl.
  - constructor.
  - destruct (f x); [now constructor | exact IH].
  - destruct (f x), (f y); try reflexivity. apply perm_swap.
  - now transitivity (filter f l').
Qed.

Lemma filter_sorted {A : Type} (R : A -> A -> Prop) (f : A -> bool) (l : list A) :
  StronglySorted R l -> StronglySorted R (filter f l).
Proof.
  induction 1 as [|x l Hs IH Hall]; simpl; [constructor|].
  destruct (f x); [|exact IH].
  constructor; [exact IH|].
  apply Forall_forall. intros y Hy. apply filter_In in Hy.
  rewrite Forall_forall in Hall. now apply Hall.
Qed.

(** ** The lookback window *)

Lemma sort_by_time_perm (candles : list candle) :
  Permutation (sort_by_time candles) candles.
Proof. apply stable_sort_perm. Qed.

Lemma strongly_sorted_impl {A : Type} (R R' : A -> A -> Prop) (l : list A) :
  (forall a b, R a b -> R' a b) -> StronglySorted R l -> StronglySorted R' l.
Proof.
  intros HR. induction 1 as [|x l Hs IH Hall]; constructor; [exact IH|].
  eapply Forall_impl; [|exact Hall]. intros; now apply HR.
Qed.

Lemma sort_by_time_sorted (candles : list candle) :
  StronglySorted time_le (sort_by_time candles).
Proof.
  eapply strongly_sorted_impl; [|apply stable_sort_sorted].
  - intros a b H. unfold in_order in H. apply Z.ltb_ge in H. exact H.
  - intros x y H. apply Z.ltb_lt in H. apply Z.ltb_ge. lia.
  - intros a b c H1 H2. apply Z.ltb_ge in H1, H2. apply Z.ltb_ge. lia.
Qed.

(** The window of the sorted series holds the candles of the series at or
    after the cutoff. *)
Lemma window_In (candles : list candle) (cutoff : datetime) (c : candle) :
  In c (window_candles (sort_by_time candles) cutoff) <->
  In c candles /\ (cutoff <= c_time c)%Z.
Proof.
  unfold window_candles. rewrite filter_In, Z.leb_le.
  split; intros [H1 H2]; (split; [|exact H2]).
  - eapply Permutation_in; [apply sort_by_time_perm | exact H1].
  - eapply Permutation_in; [symmetry; apply sort_by_time_perm | exact H1].
Qed.

Lemma window_length (candles : list candle) (cutoff : datetime) :
  List.length (window_candles (sort_by_time candles) cutoff) =
  List.length (window_candles candles cutoff).
Proof.
  apply Permutation_length, filter_perm, sort_by_time_perm.
Qed.

Lemma window_sorted (candles : list candle) (cutoff : datetime) :
  StronglySorted time_le (window_candles (sort_by_time candles) cutoff).
Proof. apply filter_sorted, sort_by_time_sorted. Qed.

Lemma candles_after_In (window : list candle) (t : datetime) (c : candle) :
  In c (candles_after window t) <-> In c window /\ (t < c_time c)%Z.
Proof. unfold candles_after. now rewrite filter_In, Z.ltb_lt. Qed.

(** ** Running the two window functions *)

Section Runs.
Variable E : Exchange.

(** [analyze_time_window] in terms of the fetch and the clock reading it
    makes. *)
Lemma analyze_time_window_run (symbol : string) (lookback_hours : Q)
    (interval : string) (w : World E) :
  analyze_time_window E symbol lookback_hours interval w =
  match get_klines E symbol interval (window_limit lookback_hours interval) w with
  | (None, w1) => (None, w1)
  | (Some klines, w1) =>
      if (List.length klines <? 10)%nat then (None, w1)
      else let (now, w2) := datetime_now E w1 in
           (window_extrema klines now lookback_hours, w2)
  end.
Proof.
  unfold analyze_time_window, bind, ret.
  destruct (get_klines E symbol interval _ w) as [[klines|] w1]; [|reflexivity].
  destruct (List.length klines <? 10)%nat; reflexivity.
Qed.

Lemma analyze_21d_with_drawdown_run (self : WebScanner) (symbol : string)
    (current_price : Q) (w : World E) :
  analyze_21d_with_drawdown E self symbol current_price w =
  match get_klines E symbol (timeframe_21d self) (drawdown_limit self) w with
  | (None, w1) => (None, w1)
  | (Some klines, w1) =>
      if (List.length klines <? 10)%nat then (None, w1)
      else let (now, w2) := datetime_now E w1 in
           (drawdown_extrema klines now (lookback_21d_hours self) current_price, w2)
  end.
Proof.
  unfold analyze_21d_with_drawdown, bind, ret.
  destruct (get_klines E _ _ _ w) as [[klines|] w1]; [|reflexivity].
  destruct (List.length klines <? 10)%nat; reflexivity.
Qed.
End Runs.

(** [window_extrema] answers exactly when the window holds five candles,
    a candle follows the first lowest low, and that low is positive. *)
Lemma window_extrema_Some_iff (candles : list candle) (now : datetime)
    (lookback_hours : Q) (r : WindowResult) :
  window_extrema candles now lookback_hours = Some r <->
  exists cutoff lo hi,
    cutoff_time now lookback_hours = Some cutoff /\
    (5 <= List.length (window_candles (sort_by_time candles) cutoff))%nat /\
    py_min c_low (window_candles (sort_by_time candles) cutoff) = Some lo /\
    py_max c_high
      (candles_after (window_candles (sort_by_time candles) cutoff) (c_time lo)) = Some hi /\
    0 < c_low lo /\
    r = {| w_low_price := c_low lo;
           w_low_time := c_time lo;
           w_high_price := c_high hi;
           w_high_time := c_time hi;
           w_price_change := ((c_high hi - c_low lo) / c_low lo) * 100 |}.
Proof.
  unfold window_extrema. split.
  - destruct (cutoff_time now lookback_hours) as [cutoff|]; [|discriminate].
    destruct (List.length _ <? 5)%nat eqn:Hlen; [discriminate|].
    destruct (py_min c_low _) as [lo|] eqn:Hlo; [|discriminate].
    destruct (py_max c_high _) as [hi|] eqn:Hhi; [|discriminate].
    destruct (Qle_bool (c_low lo) 0) eqn:Hpos; [discriminate|].
    intros [= <-]. exists cutoff, lo, hi.
    apply Nat.ltb_ge in Hlen. apply Qle_bool_false_iff in Hpos.
    repeat split; assumption.
  - intros (cutoff & lo & hi & -> & Hlen & -> & -> & Hpos & ->).
    apply Nat.ltb_ge in Hlen. rewrite Hlen.
    apply Qle_bool_false_iff in Hpos. now rewrite Hpos.
Qed.

(** ** C2: the severity thresholds *)

(** C2.  The flag chain maps a drawdown percentage to its severity by the
    thresholds 30, 20, 10 and 5, read from the top: each severity is
    assigned exactly on its interval, so every percentage has one bucket;
    the nine boundary values get the severities the specification lists;
    and the flag returned by [analyze_21d_with_drawdown] is the flag of
    the drawdown it returns. *)
Theorem drawdown_flag_thresholds :
  (forall d : Q,
     (flag_of_drawdown d = CRITICAL <-> 30 <= d) /\
     (flag_of_drawdown d = HIGH <-> 20 <= d /\ d < 30) /\
     (flag_of_drawdown d = MEDIUM <-> 10 <= d /\ d < 20) /\
     (flag_of_drawdown d = LOW <-> 5 <= d /\ d < 10) /\
     (flag_of_drawdown d = MINIMAL <-> d < 5)) /\
  map flag_of_drawdown [299 # 10; 30; 199 # 10; 20; 99 # 10; 10; 49 # 10; 5; 0] =
    [HIGH; CRITICAL; MEDIUM; HIGH; LOW; MEDIUM; MINIMAL; LOW; MINIMAL] /\
  (forall (E : Exchange) (self : WebScanner) (symbol : string) (current_price : Q)
          (w : World E),
     option_map d_drawdown_flag
       (fst (analyze_21d_with_drawdown E self symbol current_price w)) =
     option_map (fun r => flag_of_drawdown (d_drawdown_21d r))
       (fst (analyze_21d_with_drawdown E self symbol current_price w))).
Proof.
  split; [|split].
  - intro d. unfold flag_of_drawdown.
    destruct (Qle_bool 30 d) eqn:H30;
      [apply Qle_bool_iff in H30 | apply Qle_bool_false_iff in H30];
    (destruct (Qle_bool 20 d) eqn:H20;
      [apply Qle_bool_iff in H20 | apply Qle_bool_false_iff in H20]);
    (destruct (Qle_bool 10 d) eqn:H10;
      [apply Qle_bool_iff in H10 | apply Qle_bool_false_iff in H10]);
    (destruct (Qle_bool 5 d) eqn:H5;
      [apply Qle_bool_iff in H5 | apply Qle_bool_false_iff in H5]);
    repeat split; intros; try discriminate; try tauto;
    try (exfalso; lra).
  - reflexivity.
  - intros E self symbol current_price w.
    rewrite analyze_21d_with_drawdown_run.
    destruct (get_klines E _ _ _ w) as [[klines|] w1]; [|reflexivity].
    destruct (List.length klines <? 10)%nat; [reflexivity|].
    destruct (datetime_now E w1) as [now w2]. simpl.
    unfold drawdown_extrema.
    destruct (cutoff_time _ _); [|reflexivity].
    destruct (List.length _ <? 5)%nat; [reflexivity|].
    destruct (py_max _ _); [|reflexivity].
    destruct (Qle_bool _ 0); reflexivity.
Qed.

(** ** C1: the anchors of the window analysis *)

(** C1.  Whenever [analyze_time_window] returns a result, for the series
    it fetched and the window cut at [now - lookback_hours]: the low
    anchor is a candle of the window whose low is the minimum over the
    window; the high anchor is a candle of the window strictly after the
    low anchor's time whose high is the maximum over the candles strictly
    after that time, so the returned high time is after the returned low
    time; the low price is positive; and the percentage is
    [(high - low) / low * 100]. *)
Theorem analyze_time_window_anchors :
  forall (E : Exchange) (symbol : string) (lookback_hours : Q) (interval : string)
         (w w' : World E) (r : WindowResult),
    analyze_time_window E symbol lookback_hours interval w = (Some r, w') ->
    exists klines w1 now cutoff lo hi,
      get_klines E symbol interval (window_limit lookback_hours interval) w
        = (Some klines, w1) /\
      datetime_now E w1 = (now, w') /\
      cutoff_time now lookback_hours = Some cutoff /\
      (In lo klines /\ (cutoff <= c_time lo)%Z) /\
      (forall c, In c klines -> (cutoff <= c_time c)%Z -> c_low lo <= c_low c) /\
      w_low_price r = c_low lo /\ w_low_time r = c_time lo /\
      (In hi klines /\ (cutoff <= c_time hi)%Z /\ (c_time lo < c_time hi)%Z) /\
      (forall c, In c klines -> (cutoff <= c_time c)%Z -> (c_time lo < c_time c)%Z ->
                 c_high c <= c_high hi) /\
      w_high_price r = c_high hi /\ w_high_time r = c_time hi /\
      (w_low_time r < w_high_time r)%Z /\
      0 < w_low_price r /\
      w_price_change r = ((w_high_price r - w_low_price r) / w_low_price r) * 100.
Proof.
  intros E symbol lookback_hours interval w w' r Hrun.
  rewrite analyze_time_window_run in Hrun.
  destruct (get_klines E symbol interval _ w) as [[klines|] w1] eqn:Hfetch;
    [|discriminate].
  destruct (List.length klines <? 10)%nat; [discriminate|].
  destruct (datetime_now E w1) as [now w2] eqn:Hnow.
  injection Hrun as Hext <-.
  apply window_extrema_Some_iff in Hext.
  destruct Hext as (cutoff & lo & hi & Hcut & _ & Hlo & Hhi & Hpos & ->).
  exists klines, w1, now, cutoff, lo, hi. simpl.
  pose proof (py_min_In _ _ _ Hlo) as Hlo_in. apply window_In in Hlo_in.
  pose proof (py_max_In _ _ _ Hhi) as Hhi_in.
  apply candles_after_In in Hhi_in. destruct Hhi_in as [Hhi_in Hafter].
  apply window_In in Hhi_in.
  repeat match goal with |- _ /\ _ => split end;
    try reflexivity; try tauto.
  - intros c Hc Hcw. apply (py_min_le _ _ _ Hlo). apply window_In. tauto.
  - intros c Hc Hcw Hct. apply (py_max_ge _ _ _ Hhi).
    apply candles_after_In. split; [apply window_In; tauto | exact Hct].
Qed.

Lemma analyze_time_window_anchors_witness :
  exists r,
    analyze_time_window (one_symbol_exchange 110 2000000 sample_candles)
      "ABCUSDT" 48 "15m" tt = (Some r, tt) /\
    (w_low_time r < w_high_time r)%Z /\
    w_price_change r = ((w_high_price r - w_low_price r) / w_low_price r) * 100.
Proof.
  eassert (Hrun : analyze_time_window (one_symbol_exchange 110 2000000 sample_candles)
                    "ABCUSDT" 48 "15m" tt = (Some _, tt))
    by (vm_compute; reflexivity).
  eexists. split; [exact Hrun|].
  destruct (analyze_time_window_anchors _ _ _ _ _ _ _ Hrun)
    as (_ & _ & _ & _ & _ & _ & _ & _ & _ & _ & _ & _ & _ & _ & _ & _ & _ & Ht & _ & Hp).
  split; [exact Ht | exact Hp].
Defined.

(** ** C3: when the window analysis answers *)

Lemma strongly_sorted_after {A : Type} (R : A -> A -> Prop) (l1 l2 : list A) (x : A) :
  StronglySorted R (l1 ++ x :: l2) -> Forall (R x) l2.
Proof.
  induction l1 as [|y l1 IH]; simpl; intro H; inversion H; subst; auto.
Qed.

(** On a window sorted by time, [min] by low returns the earliest of the
    candles with the lowest low. *)
Lemma py_min_earliest (window : list candle) (lo : candle) :
  StronglySorted time_le window ->
  py_min c_low window = Some lo ->
  forall c, In c window -> c_low c <= c_low lo -> (c_time lo <= c_time c)%Z.
Proof.
  intros Hs Hlo c Hc Hle.
  destruct (py_min_split _ _ _ Hlo) as (l1 & l2 & -> & Hl1 & _).
  apply in_app_or in Hc. destruct Hc as [Hc|[Hc|Hc]].
  - exfalso. specialize (Hl1 c Hc). exact (Qlt_not_le _ _ Hl1 Hle).
  - subst c. lia.
  - apply strongly_sorted_after in Hs. rewrite Forall_forall in Hs. now apply Hs.
Qed.

Lemma in_window_sorted (klines : list candle) (cutoff : datetime) (c : candle) :
  In c (window_candles (sort_by_time klines) cutoff) <-> in_window klines cutoff c.
Proof. apply window_In. Qed.

(** The candle [min] picks in the sorted window is a low anchor, and any
    low anchor has its time and a low equal to its low. *)
Lemma py_min_low_anchor (klines : list candle) (cutoff : datetime) (lo : candle) :
  py_min c_low (window_candles (sort_by_time klines) cutoff) = Some lo ->
  low_anchor klines cutoff lo.
Proof.
  intro Hlo. split; [|split].
  - apply in_window_sorted. eapply py_min_In; eassumption.
  - intros c Hc. apply (py_min_le _ _ _ Hlo). now apply in_window_sorted.
  - intros c Hc. apply (py_min_earliest _ _ (window_sorted klines cutoff) Hlo).
    now apply in_window_sorted.
Qed.

Lemma low_anchor_unique (klines : list candle) (cutoff : datetime) (lo lo' : candle) :
  low_anchor klines cutoff lo -> low_anchor klines cutoff lo' ->
  c_time lo = c_time lo' /\ c_low lo == c_low lo'.
Proof.
  intros (Hin & Hmin & Hfirst) (Hin' & Hmin' & Hfirst').
  pose proof (Hmin lo' Hin') as H1. pose proof (Hmin' lo Hin) as H2.
  split.
  - pose proof (Hfirst lo' Hin' H2). pose proof (Hfirst' lo Hin H1). lia.
  - now apply Qle_antisym.
Qed.

(** C3 (amended).  Given the series the call fetched, the clock reading
    and a representable cutoff [now - lookback_hours]: fewer than five
    candles at or after the cutoff make [analyze_time_window] return
    [None], whatever the length of the series; and it returns a result
    exactly when the fetched series has at least ten rows, the window
    holds at least five candles, some candle of the window is strictly
    after the low anchor, and the low anchor's low is positive. *)
Theorem analyze_time_window_answers_iff :
  forall (E : Exchange) (symbol : string) (lookback_hours : Q) (interval : string)
         (w w1 w2 : World E) (klines : list candle) (now cutoff : datetime),
    get_klines E symbol interval (window_limit lookback_hours interval) w
      = (Some klines, w1) ->
    datetime_now E w1 = (now, w2) ->
    cutoff_time now lookback_hours = Some cutoff ->
    ((List.length (window_candles klines cutoff) < 5)%nat ->
     fst (analyze_time_window E symbol lookback_hours interval w) = None) /\
    ((exists r, fst (analyze_time_window E symbol lookback_hours interval w) = Some r) <->
     (10 <= List.length klines)%nat /\
     (5 <= List.length (window_candles klines cutoff))%nat /\
     exists lo,
       low_anchor klines cutoff lo /\
       (exists c, in_window klines cutoff c /\ (c_time lo < c_time c)%Z) /\
       0 < c_low lo).
Proof.
  intros E symbol lookback_hours interval w w1 w2 klines now cutoff Hfetch Hnow Hcut.
  rewrite analyze_time_window_run, Hfetch.
  destruct (List.length klines <? 10)%nat eqn:Hten.
  - apply Nat.ltb_lt in Hten. simpl. split; [reflexivity|].
    split; [intros [r Hr]; discriminate | intros [H _]; lia].
  - apply Nat.ltb_ge in Hten. rewrite Hnow. simpl. split.
    + intro Hfew. unfold window_extrema. rewrite Hcut, window_length.
      apply Nat.ltb_lt in Hfew. now rewrite Hfew.
    + split.
      * intros [r Hr]. apply window_extrema_Some_iff in Hr.
        destruct Hr as (cutoff' & lo & hi & Hcut' & Hlen & Hlo & Hhi & Hpos & _).
        assert (cutoff' = cutoff) by congruence. subst cutoff'.
        rewrite window_length in Hlen.
        split; [exact Hten|]. split; [exact Hlen|].
        exists lo. split; [now apply py_min_low_anchor|]. split; [|exact Hpos].
        exists hi. apply py_max_In in Hhi. apply candles_after_In in Hhi.
        destruct Hhi as [Hhi Hafter]. apply in_window_sorted in Hhi. now split.
      * intros (_ & Hlen & lo & Hanchor & (c & Hc & Hafter) & Hpos).
        destruct (py_min_nonempty c_low (window_candles (sort_by_time klines) cutoff))
          as [lo' Hlo'].
        { intro Hnil. rewrite <- window_length, Hnil in Hlen. simpl in Hlen. lia. }
        destruct (low_anchor_unique _ _ _ _ Hanchor (py_min_low_anchor _ _ _ Hlo'))
          as [Htime Hlow].
        destruct (py_max_nonempty c_high
                    (candles_after (window_candles (sort_by_time klines) cutoff)
                                   (c_time lo'))) as [hi Hhi].
        { intro Hnil.
          assert (Hin : In c (candles_after (window_candles (sort_by_time klines) cutoff)
                                            (c_time lo'))).
          { apply candles_after_In. split; [now apply in_window_sorted | lia]. }
          rewrite Hnil in Hin. exact Hin. }
        eexists. apply window_extrema_Some_iff.
        exists cutoff, lo', hi. rewrite window_length.
        repeat split; try assumption.
        now rewrite <- Hlow.
Qed.

Lemma analyze_time_window_answers_iff_witness :
  exists r,
    fst (analyze_time_window (one_symbol_exchange 110 2000000 sample_candles)
           "ABCUSDT" 48 "15m" tt) = Some r.
Proof.
  eassert (Hcut : cutoff_time sample_now 48 = Some _) by (vm_compute; reflexivity).
  apply (analyze_time_window_answers_iff
           (one_symbol_exchange 110 2000000 sample_candles)
           "ABCUSDT" 48 "15m" tt tt tt sample_candles sample_now _
           eq_refl eq_refl Hcut).
  split; [vm_compute; lia|]. split; [vm_compute; lia|].
  exists (mkCandle t0 103 100 100). split; [|split].
  - split; [|split].
    + split; [left; reflexivity | vm_compute; discriminate].
    + intros c [Hc _].
      repeat (destruct Hc as [<-|Hc]; [vm_compute; discriminate|]). destruct Hc.
    + intros c [Hc _] _.
      repeat (destruct Hc as [<-|Hc]; [vm_compute; discriminate|]). destruct Hc.
  - exists (mkCandle (t0 + 12 * quarter)%Z 112 110 110).
    split; [split; [|vm_compute; discriminate] | vm_compute; reflexivity].
    do 12 right. left. reflexivity.
  - reflexivity.
Defined.

(** C3, as stated, fails: six candles, all inside the 48h window, with the
    lowest low on the first candle, later candles after it and a positive
    low, and the analysis still returns [None], because the fetch answered
    fewer than ten rows. *)
Lemma analyze_time_window_short_series :
  exists cutoff lo,
    cutoff_time sample_now 48 = Some cutoff /\
    (5 <= List.length (window_candles short_series cutoff))%nat /\
    low_anchor short_series cutoff lo /\
    (exists c, in_window short_series cutoff c /\ (c_time lo < c_time c)%Z) /\
    0 < c_low lo /\
    fst (analyze_time_window (one_symbol_exchange 110 2000000 short_series)
           "ABCUSDT" 48 "15m" tt) = None.
Proof.
  eexists. exists (mkCandle t0 103 100 100).
  split; [vm_compute; reflexivity|].
  split; [vm_compute; lia|].
  split; [|split; [|split]].
  - split; [|split].
    + split; [left; reflexivity | vm_compute; discriminate].
    + intros c [Hc _].
      repeat (destruct Hc as [<-|Hc]; [vm_compute; discriminate|]). destruct Hc.
    + intros c [Hc _] _.
      repeat (destruct Hc as [<-|Hc]; [vm_compute; discriminate|]). destruct Hc.
  - exists (mkCandle (t0 + 5 * quarter)%Z 108 105 105).
    split; [split; [|vm_compute; discriminate] | vm_compute; reflexivity].
    do 5 right. left. reflexivity.
  - reflexivity.
  - vm_compute. reflexivity.
Qed.

(** ** C4: the sign of the drawdown *)

Lemma flag_of_drawdown_below_5 (d : Q) : d < 5 -> flag_of_drawdown d = MINIMAL.
Proof.
  intro H. unfold flag_of_drawdown.
  destruct (Qle_bool 30 d) eqn:H30; [apply Qle_bool_iff in H30; lra|].
  destruct (Qle_bool 20 d) eqn:H20; [apply Qle_bool_iff in H20; lra|].
  destruct (Qle_bool 10 d) eqn:H10; [apply Qle_bool_iff in H10; lra|].
  destruct (Qle_bool 5 d) eqn:H5; [apply Qle_bool_iff in H5; lra|].
  reflexivity.
Qed.

Lemma drawdown_extrema_Some_iff (candles : list candle) (now : datetime)
    (lookback_21d_hours current_price : Q) (r : DrawdownResult) :
  drawdown_extrema candles now lookback_21d_hours current_price = Some r <->
  exists cutoff hi,
    cutoff_time now lookback_21d_hours = Some cutoff /\
    (5 <= List.length (window_candles (sort_by_time candles) cutoff))%nat /\
    py_max c_high (window_candles (sort_by_time candles) cutoff) = Some hi /\
    0 < c_high hi /\
    r = {| d_high_21d_price := c_high hi;
           d_high_21d_time := c_time hi;
           d_drawdown_21d :=
             float_mul (float_div (float_sub (c_high hi) current_price) (c_high hi)) 100;
           d_drawdown_flag :=
             flag_of_drawdown
               (float_mul (float_div (float_sub (c_high hi) current_price) (c_high hi))
                          100) |}.
Proof.
  unfold drawdown_extrema. split.
  - destruct (cutoff_time now lookback_21d_hours) as [cutoff|]; [|discriminate].
    destruct (List.length _ <? 5)%nat eqn:Hlen; [discriminate|].
    destruct (py_max c_high _) as [hi|] eqn:Hhi; [|discriminate].
    destruct (Qle_bool (c_high hi) 0) eqn:Hpos; [discriminate|].
    intros [= <-]. exists cutoff, hi.
    apply Nat.ltb_ge in Hlen. apply Qle_bool_false_iff in Hpos.
    repeat split; assumption.
  - intros (cutoff & hi & -> & Hlen & -> & Hpos & ->).
    apply Nat.ltb_ge in Hlen. rewrite Hlen.
    apply Qle_bool_false_iff in Hpos. now rewrite Hpos.
Qed.

(** C4 (amended).  Whenever [analyze_21d_with_drawdown] returns a result,
    the period high it reports is positive and is the maximum high over
    the window of the series it fetched, attained by a candle of that
    window, whose time is the one reported; the drawdown is the binary64
    value of [((high - current) / high) * 100] for the current price passed
    in, which the peak does not bound.  A current price at most the period
    high gives a drawdown that is not negative.  When the current price
    and the period high are doubles, as [float(...)] makes them, the
    drawdown is non-negative exactly when the current price is at most the
    period high, negative exactly when it is above, and then the flag is
    MINIMAL. *)
Theorem drawdown_nonneg_iff_price_below_peak :
  forall (E : Exchange) (self : WebScanner) (symbol : string) (current_price : Q)
         (w w' : World E) (r : DrawdownResult),
    analyze_21d_with_drawdown E self symbol current_price w = (Some r, w') ->
    (exists klines w1 now cutoff hi,
       get_klines E symbol (timeframe_21d self) (drawdown_limit self) w
         = (Some klines, w1) /\
       datetime_now E w1 = (now, w') /\
       cutoff_time now (lookback_21d_hours self) = Some cutoff /\
       in_window klines cutoff hi /\
       c_high hi = d_high_21d_price r /\
       c_time hi = d_high_21d_time r /\
       forall c, in_window klines cutoff c -> c_high c <= d_high_21d_price r) /\
    0 < d_high_21d_price r /\
    d_drawdown_21d r =
      float_mul (float_div (float_sub (d_high_21d_price r) current_price)
                           (d_high_21d_price r)) 100 /\
    (current_price <= d_high_21d_price r -> 0 <= d_drawdown_21d r) /\
    (is_binary64 current_price = true -> is_binary64 (d_high_21d_price r) = true ->
     (0 <= d_drawdown_21d r <-> current_price <= d_high_21d_price r) /\
     (d_drawdown_21d r < 0 <-> d_high_21d_price r < current_price) /\
     (d_high_21d_price r < current_price -> d_drawdown_flag r = MINIMAL)).
Proof.
  intros E self symbol current_price w w' r Hrun.
  rewrite analyze_21d_with_drawdown_run in Hrun.
  destruct (get_klines E symbol _ _ w) as [[klines|] w1] eqn:Hfetch; [|discriminate].
  destruct (List.length klines <? 10)%nat; [discriminate|].
  destruct (datetime_now E w1) as [now w2] eqn:Hnow.
  injection Hrun as Hext <-.
  apply drawdown_extrema_Some_iff in Hext.
  destruct Hext as (cutoff & hi & Hcut & _ & Hhi & Hpos & ->).
  cbn [d_high_21d_price d_high_21d_time d_drawdown_21d d_drawdown_flag].
  pose proof (float_drawdown_nonneg (c_high hi) current_price Hpos) as Hnonneg.
  split; [|split; [exact Hpos|split; [reflexivity|split; [exact Hnonneg|]]]].
  - exists klines, w1, now, cutoff, hi.
    split; [reflexivity|]. split; [exact Hnow|]. split; [exact Hcut|].
    split; [apply in_window_sorted; exact (py_max_In _ _ _ Hhi)|].
    split; [reflexivity|]. split; [reflexivity|].
    intros c Hc. apply (py_max_ge _ _ _ Hhi). now apply in_window_sorted.
  - intros Bc Bh.
    pose proof (float_drawdown_neg (c_high hi) current_price Bh Bc Hpos) as Hneg.
    split; [|split].
    + split; [|exact Hnonneg].
      intro H. apply Qnot_lt_le. intro Hlt. apply Hneg in Hlt. lra.
    + split; [|exact Hneg].
      intro H. apply Qnot_le_lt. intro Hle. apply Hnonneg in Hle. lra.
    + intro Hlt. apply flag_of_drawdown_below_5. apply Hneg in Hlt. lra.
Qed.

Lemma drawdown_nonneg_iff_price_below_peak_witness :
  exists r,
    analyze_21d_with_drawdown (one_symbol_exchange 110 2000000 sample_candles)
      sample_scanner "ABCUSDT" 110 tt = (Some r, tt) /\
    d_high_21d_price r == 112 /\
    (exists hi, In hi sample_candles /\ c_high hi = d_high_21d_price r) /\
    0 <= d_drawdown_21d r /\
    (0 <= d_drawdown_21d r <-> 110 <= d_high_21d_price r).
Proof.
  eassert (Hrun : analyze_21d_with_drawdown
                    (one_symbol_exchange 110 2000000 sample_candles)
                    sample_scanner "ABCUSDT" 110 tt = (Some _, tt))
    by (vm_compute; reflexivity).
  eexists. split; [exact Hrun|].
  destruct (drawdown_nonneg_iff_price_below_peak _ _ _ _ _ _ _ Hrun)
    as (Hpeak & _ & _ & Hnonneg & Hsign).
  split; [vm_compute; reflexivity|].
  split.
  - destruct Hpeak as (klines & w1 & now & cutoff & hi & Hfetch & _ & _ & Hin & Hhi & _).
    injection Hfetch as <- _. exists hi. split; [exact (proj1 Hin)|exact Hhi].
  - split; [apply Hnonneg; vm_compute; discriminate|].
    exact (proj1 (Hsign ltac:(vm_compute; reflexivity) ltac:(vm_compute; reflexivity))).
Defined.

(** C4, as stated, fails: the current price is an argument of its own,
    read from the ticker; at 120 against a window whose highest high is
    112 the analysis returns a drawdown below zero, flagged MINIMAL. *)
Lemma drawdown_negative_above_peak :
  exists r,
    fst (analyze_21d_with_drawdown (one_symbol_exchange 120 2000000 sample_candles)
           sample_scanner "ABCUSDT" 120 tt) = Some r /\
    d_high_21d_price r == 112 /\
    d_drawdown_21d r < 0 /\
    d_drawdown_flag r = MINIMAL.
Proof.
  eexists. split; [vm_compute; reflexivity|].
  split; [vm_compute; reflexivity|]. split; vm_compute; reflexivity.
Qed.

(** ** Running [analyze_pair] *)

Lemma filter_rejects_Some (self : WebScanner) (a b c : WindowResult) :
  filter_rejects self (Some a) (Some b) (Some c) = false.
Proof.
  unfold filter_rejects.
  destruct (filter_enabled self), (filter_timeframe self =? "48h")%string,
    (filter_timeframe self =? "96h")%string, (filter_timeframe self =? "21d")%string;
    reflexivity.
Qed.

Section PairRuns.
Variable E : Exchange.
Variable self : WebScanner.
Variable symbol : string.

(** Once every call up to the recent window is answered, the outcome is
    decided by the volume filter, the count of fetched rows and
    [recent_rebound]. *)
Lemma analyze_pair_of_run (w w' : World E) (ticker : Ticker)
    (a48 a96 a21 : WindowResult) (dd : DrawdownResult)
    (klines : list candle) (now : datetime) :
  pair_run E self symbol w ticker a48 a96 a21 dd klines now w' ->
  fst (analyze_pair E self symbol w) =
    if Qltb (quoteVolume ticker) (min_volume_24h self) then None
    else if (List.length klines <? 4)%nat then None
    else match recent_rebound self symbol ticker a48 a96 a21 dd klines now with
         | None => None
         | Some result => Some (result (fst (datetime_now E w')))
         end.
Proof.
  intros (w1 & w2 & w3 & w4 & w5 & w6 & Ht & H48 & H96 & H21 & Hdd & Hk & Hnow).
  unfold analyze_pair, bind. rewrite Ht.
  destruct (Qltb (quoteVolume ticker) (min_volume_24h self)); [reflexivity|].
  rewrite H48, H96, H21, Hdd, filter_rejects_Some, Hk.
  destruct (List.length klines <? 4)%nat; [reflexivity|].
  rewrite Hnow.
  destruct (recent_rebound self symbol ticker a48 a96 a21 dd klines now);
    [|reflexivity].
  destruct (datetime_now E w') as [t w'']. reflexivity.
Qed.

(** A record can only come out of a run in which every call was
    answered and every filter passed. *)
Lemma analyze_pair_Some_inv (w : World E) (r : ReboundResult) :
  fst (analyze_pair E self symbol w) = Some r ->
  exists ticker a48 a96 a21 dd klines now w' result,
    pair_run E self symbol w ticker a48 a96 a21 dd klines now w' /\
    min_volume_24h self <= quoteVolume ticker /\
    (4 <= List.length klines)%nat /\
    recent_rebound self symbol ticker a48 a96 a21 dd klines now = Some result /\
    r = result (fst (datetime_now E w')).
Proof.
  unfold analyze_pair, bind, ret.
  destruct (get_ticker_24hr E symbol w) as [[ticker|] w1] eqn:Ht; [|discriminate].
  destruct (Qltb (quoteVolume ticker) (min_volume_24h self)) eqn:Hvol; [discriminate|].
  destruct (analyze_time_window E symbol (lookback_48h_hours self) _ w1)
    as [[a48|] w2] eqn:H48; [|discriminate].
  destruct (analyze_time_window E symbol (lookback_96h_hours self) _ w2)
    as [[a96|] w3] eqn:H96; [|discriminate].
  destruct (analyze_time_window E symbol (lookback_21d_hours self) _ w3)
    as [[a21|] w4] eqn:H21; [|discriminate].
  destruct (analyze_21d_with_drawdown E self symbol (lastPrice ticker) w4)
    as [[dd|] w5] eqn:Hdd; [|discriminate].
  rewrite filter_rejects_Some.
  destruct (get_klines E symbol (timeframe self) _ w5) as [[klines|] w6] eqn:Hk;
    [|discriminate].
  destruct (List.length klines <? 4)%nat eqn:Hlen; [discriminate|].
  destruct (datetime_now E w6) as [now w7] eqn:Hnow.
  destruct (recent_rebound self symbol ticker a48 a96 a21 dd klines now)
    as [result|] eqn:Hrec; [|discriminate].
  destruct (datetime_now E w7) as [t w8] eqn:Ht8. simpl. intros [= <-].
  exists ticker, a48, a96, a21, dd, klines, now, w7, result.
  split; [exists w1, w2, w3, w4, w5, w6; repeat split; assumption|].
  apply Qltb_false_iff in Hvol. apply Nat.ltb_ge in Hlen.
  rewrite Ht8. repeat split; assumption.
Qed.
End PairRuns.

(** ** The anchors of the recent window *)

Lemma min_from_map {A B : Type} (f : A -> B) (key : B -> Q) (l : list A) : forall best,
  min_from key (f best) (map f l) = f (min_from (fun a => key (f a)) best l).
Proof.
  induction l as [|x l IH]; intro best; simpl; [reflexivity|].
  rewrite <- IH. now destruct (Qltb (key (f x)) (key (f best))).
Qed.

Lemma py_min_map {A B : Type} (f : A -> B) (key : B -> Q) (l : list A) :
  py_min key (map f l) = option_map f (py_min (fun a => key (f a)) l).
Proof.
  destruct l as [|x l]; simpl; [reflexivity|]. now rewrite min_from_map.
Qed.

Lemma window_length_le (klines : list candle) (cutoff : datetime) :
  (List.length (window_candles (sort_by_time klines) cutoff) <= List.length klines)%nat.
Proof.
  rewrite window_length. apply filter_length_le.
Qed.

(** What [recent_anchors] returns: the window at or after
    [now - lookback_hours], of at least four candles; the low and time of
    its low anchor; and a candle strictly after it whose high is the
    maximum over the candles strictly after it. *)
Lemma recent_anchors_spec (lookback : Q) (klines : list candle) (now : datetime)
    (recent : list candle) (low : Q) (low_t : datetime) (hi : candle) :
  recent_anchors lookback klines now = Some (recent, (low, low_t), hi) ->
  exists cutoff lo,
    cutoff_time now lookback = Some cutoff /\
    recent = window_candles (sort_by_time klines) cutoff /\
    (4 <= List.length (window_candles klines cutoff))%nat /\
    low_anchor klines cutoff lo /\ low = c_low lo /\ low_t = c_time lo /\
    in_window klines cutoff hi /\ (low_t < c_time hi)%Z /\
    (forall c, in_window klines cutoff c -> (low_t < c_time c)%Z ->
               c_high c <= c_high hi).
Proof.
  unfold recent_anchors.
  destruct (cutoff_time now lookback) as [cutoff|]; [|discriminate].
  destruct (List.length _ <? 4)%nat eqn:Hlen; [discriminate|].
  rewrite py_min_map.
  change (fun a : candle => fst (c_low a, c_time a)) with c_low.
  destruct (py_min c_low _) as [lo|] eqn:Hlo; [|discriminate]. simpl.
  destruct (py_max c_high _) as [h|] eqn:Hhi; [|discriminate].
  intros [= <- <- <- <-].
  exists cutoff, lo. apply Nat.ltb_ge in Hlen. rewrite window_length in Hlen.
  pose proof (py_max_In _ _ _ Hhi) as Hin. apply candles_after_In in Hin.
  destruct Hin as [Hin Hafter]. apply in_window_sorted in Hin.
  split; [reflexivity|]. split; [reflexivity|]. split; [exact Hlen|].
  split; [exact (py_min_low_anchor _ _ _ Hlo)|].
  split; [reflexivity|]. split; [reflexivity|].
  split; [exact Hin|]. split; [exact Hafter|].
  intros c Hc Ht. apply (py_max_ge _ _ _ Hhi). apply candles_after_In.
  split; [now apply in_window_sorted | exact Ht].
Qed.

Lemma recent_anchors_few (lookback : Q) (klines : list candle) (now cutoff : datetime) :
  cutoff_time now lookback = Some cutoff ->
  (List.length (window_candles klines cutoff) < 4)%nat ->
  recent_anchors lookback klines now = None.
Proof.
  intros Hcut Hfew. unfold recent_anchors. rewrite Hcut, window_length.
  apply Nat.ltb_lt in Hfew. now rewrite Hfew.
Qed.


(** ** C5: the three numeric thresholds of [analyze_pair] *)



(** The two scenarios of the specification: low 100, high 112 three hours
    later, recent lookback 12h, minimum rebound 5%, maximum pullback 10%.
    At a current price of 110 the rebound is 12.0 and the pullback the
    double 1.7857142857142856: accepted.  At 95 the pullback is
    15.178571428571427: rejected. *)
Example scenario_accepted :
  exists r,
    fst (analyze_pair (one_symbol_exchange 110 2000000 sample_candles)
           sample_scanner "ABCUSDT" tt) = Some r /\
    rebound_pct r == 12 /\
    drawdown_from_high r == 2010535547933257 # 1125899906842624.
Proof. eexists. split; [vm_compute; reflexivity|]. split; vm_compute; reflexivity. Qed.

(** On the running clock the record is stamped with the sixth reading:
    the three window analyses, the drawdown analysis and the recent window
    read it before. *)
Example scan_time_is_sixth_reading :
  option_map scan_time
    (fst (analyze_pair (ticking_exchange 110 2000000 sample_candles)
            sample_scanner "ABCUSDT" sample_now))
  = Some (sample_now + 5 * 1000000)%Z /\
  snd (analyze_pair (ticking_exchange 110 2000000 sample_candles)
         sample_scanner "ABCUSDT" sample_now)
  = (sample_now + 6 * 1000000)%Z.
Proof. split; vm_compute; reflexivity. Qed.

(** One unit past each boundary is rejected: a volume one below the
    minimum, a minimum rebound of 12.01 against the 12.0 reached, a
    maximum pullback of 24.99 against the 25.0 reached. *)
Example thresholds_reject_past_boundary :
  fst (analyze_pair (one_symbol_exchange 84 1999999 sample_candles)
         boundary_scanner "ABCUSDT" tt) = None /\
  fst (analyze_pair (one_symbol_exchange 84 2000000 sample_candles)
         (scanner_with (round_binary64 (1201 # 100)) 2000000 25) "ABCUSDT" tt) = None /\
  fst (analyze_pair (one_symbol_exchange 84 2000000 sample_candles)
         (scanner_with 12 2000000 (round_binary64 (2499 # 100))) "ABCUSDT" tt) = None.
Proof. repeat split; vm_compute; reflexivity. Qed.

(** The thresholds are met on the rounded numbers, as in the source: a
    low of 100 and a high of 129 give a rebound of 28.999999999999996,
    which a minimum of 29 rejects; a high of 100 and a price of 93 give a
    pullback of 7.000000000000001, above a maximum of 7. *)
Example thresholds_on_rounded_values :
  float_mul (float_div (float_sub 129 100) 100) 100 < 29 /\
  fst (analyze_pair (one_symbol_exchange 129 2000000 (series_with_high 129))
         (scanner_with 29 2000000 10) "ABCUSDT" tt) = None /\
  (exists r,
     fst (analyze_pair (one_symbol_exchange 129 2000000 (series_with_high 129))
            (scanner_with 28 2000000 10) "ABCUSDT" tt) = Some r /\
     rebound_pct r == 8162774324609023 # 281474976710656) /\
  7 < float_mul (float_div (float_sub 100 93) 100) 100.
Proof.
  split; [vm_compute; reflexivity|]. split; [vm_compute; reflexivity|].
  split; [|vm_compute; reflexivity].
  eexists. split; vm_compute; reflexivity.
Qed.

Example scenario_rejected :
  fst (analyze_pair (one_symbol_exchange 95 2000000 sample_candles)
         sample_scanner "ABCUSDT" tt) = None /\
  10 < float_mul (float_div (float_sub 112 95) 112) 100.
Proof. split; vm_compute; reflexivity. Qed.

(** ** C6: the minimum of the recent window *)

(** C6 (amended).  In a run of [analyze_pair] where every call is
    answered, fewer than four candles in the recent window give [None];
    and every record returned counts the candles of the recent window,
    at least four of them. *)
Theorem analyze_pair_recent_minimum :
  forall (E : Exchange) (self : WebScanner) (symbol : string) (w w' : World E)
         (ticker : Ticker) (a48 a96 a21 : WindowResult) (dd : DrawdownResult)
         (klines : list candle) (now cutoff : datetime),
    pair_run E self symbol w ticker a48 a96 a21 dd klines now w' ->
    cutoff_time now (lookback_hours self) = Some cutoff ->
    ((List.length (window_candles klines cutoff) < 4)%nat ->
     fst (analyze_pair E self symbol w) = None) /\
    (forall r, fst (analyze_pair E self symbol w) = Some r ->
               candles_count r = List.length (window_candles klines cutoff) /\
               (4 <= candles_count r)%nat).
Proof.
  intros E self symbol w w' ticker a48 a96 a21 dd klines now cutoff Hrun Hcut.
  rewrite (analyze_pair_of_run E self symbol w w' ticker a48 a96 a21 dd klines now Hrun).
  split.
  - intro Hfew. destruct (Qltb _ _); [reflexivity|].
    destruct (List.length klines <? 4)%nat; [reflexivity|].
    unfold recent_rebound. now rewrite (recent_anchors_few _ _ _ _ Hcut Hfew).
  - intros r. destruct (Qltb _ _); [discriminate|].
    destruct (List.length klines <? 4)%nat; [discriminate|].
    unfold recent_rebound.
    destruct (recent_anchors (lookback_hours self) klines now)
      as [[[recent [low low_t]] hi]|] eqn:Hanchors; [|discriminate].
    destruct (recent_anchors_spec _ _ _ _ _ _ _ Hanchors)
      as (cutoff' & lo & Hcut' & -> & Hfour & _).
    assert (cutoff' = cutoff) by congruence. subst cutoff'.
    simpl.
    destruct (Qltb (lookback_hours self) _); [discriminate|].
    destruct (Qle_bool low 0); [discriminate|].
    destruct (Qltb _ (min_price_change self)); [discriminate|].
    destruct (Qle_bool (c_high hi) 0); [discriminate|].
    destruct (Qltb (max_drawdown self) _); [discriminate|].
    intros [= <-]. simpl. rewrite window_length. split; [reflexivity | exact Hfour].
Qed.

Lemma analyze_pair_recent_minimum_witness :
  fst (analyze_pair (one_symbol_exchange 110 2000000 (firstn 10 sample_candles))
         one_hour_scanner "ABCUSDT" tt) = None.
Proof.
  eassert (Hrun : pair_run (one_symbol_exchange 110 2000000 (firstn 10 sample_candles))
                    one_hour_scanner "ABCUSDT" tt _ _ _ _ _
                    (firstn 10 sample_candles) sample_now tt).
  { exists tt, tt, tt, tt, tt, tt.
    do 6 (split; [vm_compute; reflexivity|]). vm_compute; reflexivity. }
  eassert (Hcut : cutoff_time sample_now (lookback_hours one_hour_scanner) = Some _)
    by (vm_compute; reflexivity).
  apply (proj1 (analyze_pair_recent_minimum _ _ _ _ _ _ _ _ _ _ _ _ _ Hrun Hcut)).
  vm_compute. lia.
Defined.

(** C6, as stated, fails: with a one-hour recent lookback the window
    holds exactly four 15-minute candles and [analyze_pair] returns a
    record. *)
Lemma analyze_pair_four_recent_candles :
  exists cutoff r,
    cutoff_time sample_now (lookback_hours one_hour_scanner) = Some cutoff /\
    List.length (window_candles sample_candles cutoff) = 4%nat /\
    fst (analyze_pair (one_symbol_exchange 110 2000000 sample_candles)
           one_hour_scanner "ABCUSDT" tt) = Some r /\
    candles_count r = 4%nat.
Proof.
  eexists. eexists.
  split; [vm_compute; reflexivity|].
  split; [vm_compute; reflexivity|].
  split; [vm_compute; reflexivity|].
  reflexivity.
Qed.

(** ** Running [scan] *)

Lemma analyze_pair_symbol (E : Exchange) (self : WebScanner) (symbol0 : string)
    (w : World E) (r : ReboundResult) :
  fst (analyze_pair E self symbol0 w) = Some r -> symbol r = symbol0.
Proof.
  intro H. apply analyze_pair_Some_inv in H.
  destruct H as (ticker & a48 & a96 & a21 & dd & klines & now & w' & result
                 & _ & _ & _ & Hrec & ->).
  unfold recent_rebound in Hrec.
  destruct (recent_anchors _ _ _) as [[[recent [low low_t]] hi]|]; [|discriminate].
  simpl in Hrec.
  destruct (Qltb (lookback_hours self) _); [discriminate|].
  destruct (Qle_bool low 0); [discriminate|].
  destruct (Qltb _ (min_price_change self)); [discriminate|].
  destruct (Qle_bool (c_high hi) 0); [discriminate|].
  destruct (Qltb (max_drawdown self) _); [discriminate|].
  injection Hrec as <-. reflexivity.
Qed.

(** The symbols of the records are among the completed futures, and are
    distinct when the futures' symbols are. *)
Lemma passed_symbols_incl (E : Exchange) (self : WebScanner) (completed : list string) :
  forall (w : World E) (s : string),
    In s (map symbol (passed (futures_results E self completed w))) -> In s completed.
Proof.
  induction completed as [|future completed IH]; intros w s; simpl; [tauto|].
  destruct (analyze_pair E self future w) as [result w'] eqn:Hrun.
  unfold passed. simpl. rewrite map_app, in_app_iff. intros [H|H].
  - destruct result as [r|]; [|destruct H]. destruct H as [H|[]].
    left. rewrite <- H. symmetry. apply (analyze_pair_symbol E self future w).
    now rewrite Hrun.
  - right. exact (IH w' s H).
Qed.

Lemma passed_symbols_NoDup (E : Exchange) (self : WebScanner) (completed : list string) :
  NoDup completed ->
  forall w : World E, NoDup (map symbol (passed (futures_results E self completed w))).
Proof.
  induction 1 as [|future completed Hnotin Hnodup IH]; intro w; simpl; [constructor|].
  destruct (analyze_pair E self future w) as [result w'] eqn:Hrun.
  unfold passed. simpl. rewrite map_app.
  destruct result as [r|]; simpl; [|apply IH].
  constructor; [|apply IH].
  intro Hin. apply passed_symbols_incl in Hin. apply Hnotin.
  rewrite <- (analyze_pair_symbol E self future w r); [exact Hin|].
  now rewrite Hrun.
Qed.

Section ScanRuns.
Variable E : Exchange.
Variable G : Type.
Variable self : WebScanner.
Variable progress_callback : option (Callback G).

(** One turn of the loop. *)
Lemma scan_loop_cons (total_pairs : Z) (future : string) (completed : list string)
    (results : list ReboundResult) (processed : Z) (w : World E) (g : G) :
  scan_loop E self progress_callback total_pairs (future :: completed)
    results processed (w, g) =
  scan_loop E self progress_callback total_pairs completed
    (match fst (analyze_pair E self future w) with
     | Some r => results ++ [r]
     | None => results
     end)
    (processed + 1)
    (snd (analyze_pair E self future w),
     if ((processed + 1) mod 10 =? 0)%Z
     then match progress_callback with
          | Some f => f (processed + 1)%Z total_pairs
                        (scanning_status (processed + 1) total_pairs) g
          | None => g
          end
     else g).
Proof.
  cbn [scan_loop]. unfold bind at 1. unfold in_world at 1. cbn [fst snd].
  destruct (analyze_pair E self future w) as [result w1]. cbn [fst snd].
  unfold bind at 1.
  destruct ((processed + 1) mod 10 =? 0)%Z.
  - unfold call_progress. destruct progress_callback; reflexivity.
  - reflexivity.
Qed.

Lemma scan_loop_run (total_pairs : Z) (completed : list string) :
  forall (results : list ReboundResult) (processed : Z) (w : World E) (g : G),
  exists w',
    scan_loop E self progress_callback total_pairs completed results processed (w, g) =
    (results ++ passed (futures_results E self completed w),
     (w', loop_progress progress_callback total_pairs processed
            (List.length completed) g)).
Proof.
  induction completed as [|future completed IH]; intros results processed w g.
  - exists w. cbn. unfold ret. now rewrite app_nil_r.
  - rewrite scan_loop_cons.
    destruct (IH (match fst (analyze_pair E self future w) with
                  | Some r => results ++ [r]
                  | None => results
                  end) (processed + 1)%Z (snd (analyze_pair E self future w))
                 (if ((processed + 1) mod 10 =? 0)%Z
                  then match progress_callback with
                       | Some f => f (processed + 1)%Z total_pairs
                                     (scanning_status (processed + 1) total_pairs) g
                       | None => g
                       end
                  else g)) as [w' Hw'].
    exists w'. rewrite Hw'. cbn [futures_results List.length loop_progress].
    destruct (analyze_pair E self future w) as [[r|] w1]; cbn [fst snd passed flat_map];
      [rewrite <- app_assoc|]; reflexivity.
Qed.

(** The whole scan: the pairs are listed, the futures complete in the
    pool's order, the records are sorted. *)
Lemma scan_run (w : World E) (g : G) :
  let pairs := fst (get_all_usdt_pairs E w) in
  let w1 := snd (get_all_usdt_pairs E w) in
  let total_pairs := Z.of_nat (List.length pairs) in
  let call (c t : Z) (s : string) (g : G) :=
    match progress_callback with Some f => f c t s g | None => g end in
  exists w',
    scan E self progress_callback (w, g) =
    match pairs with
    | [] => ([], (w1, g))
    | _ :: _ =>
        (sort_results self (passed (futures_results E self (as_completed E pairs) w1)),
         (w', call total_pairs total_pairs "Sorting results..."%string
                (loop_progress progress_callback total_pairs 0
                   (List.length pairs)
                   (call 0%Z total_pairs "Starting scan..."%string g))))
    end.
Proof.
  intros pairs w1 total_pairs call. unfold scan.
  unfold bind at 1. unfold in_world at 1. cbn [fst snd].
  subst pairs w1 total_pairs.
  destruct (get_all_usdt_pairs E w) as [pairs w1]. cbn [fst snd].
  destruct pairs as [|p pairs]; [exists w1; reflexivity|].
  set (ps := p :: pairs).
  unfold bind at 1. unfold call_progress at 1. cbn [fst snd].
  unfold bind at 1.
  destruct (scan_loop_run (Z.of_nat (List.length ps)) (as_completed E ps) [] 0 w1
              (call 0%Z (Z.of_nat (List.length ps)) "Starting scan..."%string g))
    as [w' Hw'].
  exists w'.
  assert (Hlen : List.length (as_completed E ps) = List.length ps)
    by apply Permutation_length, as_completed_perm.
  rewrite Hlen in Hw'. subst call.
  destruct progress_callback as [f|]; cbn [fst snd] in *; rewrite Hw';
    unfold bind, call_progress, ret; reflexivity.
Qed.
End ScanRuns.

(** ** C7: the result list of a scan *)

Lemma sort_results_sorted (self : WebScanner) (results : list ReboundResult) :
  StronglySorted (key_ge self) (sort_results self results).
Proof.
  eapply strongly_sorted_impl; [|apply stable_sort_sorted].
  - intros a b H. unfold in_order in H. now apply Qltb_false_iff in H.
  - intros x y H. apply Qltb_true_iff in H. apply Qltb_false_iff. lra.
  - intros a b c H1 H2. apply Qltb_false_iff in H1, H2. apply Qltb_false_iff. lra.
Qed.

Lemma sort_results_stable (self : WebScanner) (v : Q) (results : list ReboundResult) :
  filter (has_key self v) (sort_results self results) = filter (has_key self v) results.
Proof.
  apply stable_sort_filter. intros x y Hx Hy.
  unfold has_key in Hx, Hy. apply Qeq_bool_iff in Hx, Hy.
  apply Qltb_false_iff. rewrite Hx, Hy. apply Qle_refl.
Qed.

(** The field [get_filter_price_change] reads, by the value of
    [filter_timeframe]. *)
Lemma get_filter_price_change_field (self : WebScanner) :
  (filter_timeframe self = "48h"%string ->
   forall r, get_filter_price_change self r = price_change_48h r) /\
  (filter_timeframe self = "96h"%string ->
   forall r, get_filter_price_change self r = price_change_96h r) /\
  (filter_timeframe self = "21d"%string ->
   forall r, get_filter_price_change self r = price_change_21d r) /\
  (filter_timeframe self <> "48h"%string -> filter_timeframe self <> "96h"%string ->
   filter_timeframe self <> "21d"%string ->
   forall r, get_filter_price_change self r = price_change_48h r).
Proof.
  unfold get_filter_price_change.
  split; [|split; [|split]].
  - intros -> r. reflexivity.
  - intros -> r. reflexivity.
  - intros -> r. reflexivity.
  - intros H48 H96 H21 r.
    apply String.eqb_neq in H48, H96, H21. now rewrite H48, H96, H21.
Qed.

(** A list sorted and tie-stable for the key of the scanner is so for
    the field the key reads. *)
Lemma sorted_by_field (self : WebScanner) (field : ReboundResult -> Q)
    (out records : list ReboundResult) :
  (forall r, get_filter_price_change self r = field r) ->
  StronglySorted (key_ge self) out ->
  (forall v, filter (has_key self v) out = filter (has_key self v) records) ->
  StronglySorted (fun a b => field b <= field a) out /\
  (forall v, filter (fun r => Qeq_bool (field r) v) out
             = filter (fun r => Qeq_bool (field r) v) records).
Proof.
  intros Hfield Hsorted Hties. split.
  - eapply strongly_sorted_impl; [|exact Hsorted].
    intros a b H. unfold key_ge in H. now rewrite !Hfield in H.
  - intro v. specialize (Hties v).
    assert (Hext : forall r, has_key self v r = Qeq_bool (field r) v)
      by (intro r; unfold has_key; now rewrite Hfield).
    now rewrite !(filter_ext _ _ Hext) in Hties.
Qed.

(** C7.  The list [scan] returns holds exactly the records of the symbols
    whose analysis returned one: as many as passed, a permutation of them,
    without a repeated symbol when the listed pairs are distinct; it is in
    descending order of the price change [get_filter_price_change] reads,
    and records with equal price change stay in completion order.  The
    price change read is that of the configured horizon: with
    [filter_timeframe] 48h the list is in descending order of
    [price_change_48h], with 96h of [price_change_96h], with 21d of
    [price_change_21d], each with its ties in completion order, and with
    any other value it is again [price_change_48h]. *)
Theorem scan_results_sorted :
  forall (E : Exchange) (G : Type) (self : WebScanner)
         (progress_callback : option (Callback G)) (w : World E) (g : G),
    let pairs := fst (get_all_usdt_pairs E w) in
    let records :=
      passed (futures_results E self (as_completed E pairs)
                (snd (get_all_usdt_pairs E w))) in
    let out := fst (scan E self progress_callback (w, g)) in
    let sorted_by (field : ReboundResult -> Q) :=
      StronglySorted (fun a b => field b <= field a) out /\
      (forall v, filter (fun r => Qeq_bool (field r) v) out
                 = filter (fun r => Qeq_bool (field r) v) records) in
    List.length out = List.length records /\
    Permutation out records /\
    (NoDup pairs -> NoDup (map symbol out)) /\
    StronglySorted (key_ge self) out /\
    (forall v, filter (has_key self v) out = filter (has_key self v) records) /\
    (filter_timeframe self = "48h"%string -> sorted_by price_change_48h) /\
    (filter_timeframe self = "96h"%string -> sorted_by price_change_96h) /\
    (filter_timeframe self = "21d"%string -> sorted_by price_change_21d) /\
    (filter_timeframe self <> "48h"%string -> filter_timeframe self <> "96h"%string ->
     filter_timeframe self <> "21d"%string -> sorted_by price_change_48h).
Proof.
  intros E G self progress_callback w g pairs records out sorted_by.
  assert (Hout : out = sort_results self records).
  { subst out records pairs.
    destruct (scan_run E G self progress_callback w g) as [w' ->].
    destruct (fst (get_all_usdt_pairs E w)) as [|p ps] eqn:Hpairs; [|reflexivity].
    pose proof (as_completed_perm E []) as Hperm.
    apply Permutation_sym, Permutation_nil in Hperm. rewrite Hperm. reflexivity. }
  assert (Hperm : Permutation out records).
  { rewrite Hout. apply stable_sort_perm. }
  assert (Hsorted : StronglySorted (key_ge self) out)
    by (rewrite Hout; apply sort_results_sorted).
  assert (Hties : forall v, filter (has_key self v) out = filter (has_key self v) records)
    by (intro v; rewrite Hout; apply sort_results_stable).
  destruct (get_filter_price_change_field self) as (F48 & F96 & F21 & Fother).
  split; [now apply Permutation_length|]. split; [exact Hperm|].
  split; [|split; [exact Hsorted|split; [exact Hties|]]].
  - intro Hnodup.
    apply (Permutation_NoDup (Permutation_map symbol (Permutation_sym Hperm))).
    apply passed_symbols_NoDup.
    exact (Permutation_NoDup (Permutation_sym (as_completed_perm E pairs)) Hnodup).
  - subst sorted_by. cbv beta.
    split; [|split; [|split]]; intros;
      apply (sorted_by_field self); auto.
Qed.

(** Three symbols that come out in three different orders, one for each
    horizon; and, on the market of five symbols, AAAUSDT and DDDUSDT, which
    tie at 12 percent, in the order in which they completed. *)
Lemma scan_results_sorted_witness :
  map symbol (fst (scan horizon_exchange (scanner_sorting_by "48h")
                     (@None (Callback unit)) (tt, tt)))
    = ["BBBUSDT"; "CCCUSDT"; "AAAUSDT"]%string /\
  map symbol (fst (scan horizon_exchange (scanner_sorting_by "96h")
                     (@None (Callback unit)) (tt, tt)))
    = ["AAAUSDT"; "BBBUSDT"; "CCCUSDT"]%string /\
  map symbol (fst (scan horizon_exchange (scanner_sorting_by "21d")
                     (@None (Callback unit)) (tt, tt)))
    = ["CCCUSDT"; "AAAUSDT"; "BBBUSDT"]%string /\
  Forall2 Qeq
    (map price_change_96h (fst (scan horizon_exchange (scanner_sorting_by "96h")
                                 (@None (Callback unit)) (tt, tt))))
    [124; 15; 13] /\
  StronglySorted (fun a b => price_change_96h b <= price_change_96h a)
    (fst (scan horizon_exchange (scanner_sorting_by "96h")
            (@None (Callback unit)) (tt, tt))) /\
  map symbol (fst (scan market_exchange sample_scanner (@None (Callback unit)) (tt, tt)))
    = ["EEEUSDT"; "BBBUSDT"; "DDDUSDT"; "AAAUSDT"]%string /\
  NoDup (map symbol
           (fst (scan market_exchange sample_scanner (@None (Callback unit)) (tt, tt)))).
Proof.
  split; [vm_compute; reflexivity|]. split; [vm_compute; reflexivity|].
  split; [vm_compute; reflexivity|].
  split; [vm_compute; repeat constructor|].
  split; [|split; [vm_compute; reflexivity|]].
  - pose proof (scan_results_sorted horizon_exchange unit (scanner_sorting_by "96h")
                  None tt tt) as H.
    cbv zeta in H. destruct H as (_ & _ & _ & _ & _ & _ & H96 & _).
    exact (proj1 (H96 eq_refl)).
  - pose proof (scan_results_sorted market_exchange unit sample_scanner None tt tt) as H.
    cbv zeta in H. destruct H as (_ & _ & Hnodup & _).
    apply Hnodup. repeat constructor; simpl; intuition discriminate.
Defined.

(** ** Running the route *)

Section RouteRuns.
Variable E : Exchange.
Variable Row : Type.
Variable format_row : ReboundResult -> Row.

Lemma scan_route_run (scanner : WebScanner) (w : World E) (g : Globals) :
  scan_route E Row format_row (Some scanner) (w, g) =
  let (results, s1) :=
    scan E scanner (Some update_progress) (w, set_scan_progress starting_progress g) in
  let (now, w2) := datetime_now E (fst s1) in
  (Success (List.length results) (map format_row (firstn 100 results)) now,
   (w2, set_scan_progress complete_progress
          {| scan_progress := scan_progress (snd s1);
             published := published (snd s1);
             latest_results := results;
             last_scan_time := Some now |})).
Proof.
  unfold scan_route. unfold bind at 1. unfold write_progress at 1. cbn [fst snd].
  fold starting_progress. unfold bind at 1.
  destruct (scan E scanner (Some update_progress)
              (w, set_scan_progress starting_progress g)) as [results s1].
  unfold bind at 1. unfold store_results. unfold bind at 1.
  unfold in_world. destruct (datetime_now E (fst s1)) as [now w2]. cbn [fst snd].
  unfold bind, write_progress, ret. reflexivity.
Qed.
End RouteRuns.

(** ** C8: the progress updates of a scan *)

Lemma loop_progress_published (total_pairs : Z) (n : nat) :
  forall (processed : Z) (g : Globals),
    published (loop_progress (Some update_progress) total_pairs processed n g) =
    published g ++
    map (fun p => progress_update p total_pairs (scanning_status p total_pairs))
        (filter (fun p => (p mod 10 =? 0)%Z)
                (map (fun i => (processed + Z.of_nat i)%Z) (seq 1 n))).
Proof.
  induction n as [|n IH]; intros processed g.
  - simpl. now rewrite app_nil_r.
  - cbn [loop_progress]. rewrite IH.
    cbn [seq map filter].
    rewrite <- (seq_shift n 1), (map_map S).
    rewrite (map_ext (fun i => (processed + Z.of_nat (S i))%Z)
                     (fun i => (processed + 1 + Z.of_nat i)%Z)) by (intros; lia).
    replace (processed + Z.of_nat 1)%Z with (processed + 1)%Z by lia.
    destruct ((processed + 1) mod 10 =? 0)%Z.
    + unfold update_progress, set_scan_progress. cbn [published map].
      now rewrite <- app_assoc.
    + reflexivity.
Qed.

Lemma strongly_sorted_snoc {A : Type} (R : A -> A -> Prop) (l : list A) (x : A) :
  StronglySorted R l -> Forall (fun y => R y x) l -> StronglySorted R (l ++ [x]).
Proof.
  induction 1 as [|y l Hs IH Hall]; intro Hx; simpl.
  - constructor; constructor.
  - inversion Hx; subst. constructor; [now apply IH|].
    apply Forall_app. split; [exact Hall | now constructor].
Qed.

Lemma seq_of_nat_sorted (n : nat) : forall a : nat,
  StronglySorted Z.le (map Z.of_nat (seq a n)).
Proof.
  induction n as [|n IH]; intro a; simpl; constructor; [apply IH|].
  apply Forall_forall. intros z Hz. apply in_map_iff in Hz.
  destruct Hz as (i & <- & Hi). apply in_seq in Hi. lia.
Qed.

Lemma every_tenth_In (n : nat) (p : Z) :
  In p (every_tenth n) <-> (1 <= p <= Z.of_nat n)%Z /\ (p mod 10 = 0)%Z.
Proof.
  unfold every_tenth. rewrite filter_In, in_map_iff, Z.eqb_eq. split.
  - intros [(i & <- & Hi) Hmod]. apply in_seq in Hi. split; [lia | exact Hmod].
  - intros [Hp Hmod]. split; [|exact Hmod].
    exists (Z.to_nat p). split; [lia|]. apply in_seq. lia.
Qed.

Lemma callback_updates_current (n : nat) :
  map current (callback_updates (S n)) = 0%Z :: every_tenth (S n) ++ [Z.of_nat (S n)].
Proof.
  unfold callback_updates. cbn [app map]. f_equal.
  rewrite map_app, map_map. cbn [map current progress_update]. f_equal.
  apply map_id.
Qed.

(** C8 (amended).  The updates the route publishes for a scan of [n]
    listed pairs are: "starting" with 0 of 0; then, when [n] is not 0, the
    callback's updates, 0 of [n], then one update at every completion
    whose count is a multiple of 10, then [n] of [n]; and last "complete",
    again with 0 of 0.  Up to the callback's last update the processed
    counts never decrease, and that update has processed = total = [n];
    the final "complete" update sets processed and total back to 0.  Every
    callback update carries [int((current / total) * 100)] as its
    percentage. *)
Theorem scan_route_progress :
  forall (E : Exchange) (Row : Type) (format_row : ReboundResult -> Row)
         (scanner : WebScanner) (w : World E) (g : Globals),
    let n := List.length (fst (get_all_usdt_pairs E w)) in
    let final := snd (snd (scan_route E Row format_row (Some scanner) (w, g))) in
    published final =
      published g ++ [starting_progress] ++ callback_updates n ++ [complete_progress] /\
    scan_progress final = complete_progress /\
    map current (callback_updates n) =
      match n with
      | O => []
      | S _ => 0%Z :: every_tenth n ++ [Z.of_nat n]
      end /\
    (forall p, In p (every_tenth n) <-> (1 <= p <= Z.of_nat n)%Z /\ (p mod 10 = 0)%Z) /\
    StronglySorted Z.le (map current (starting_progress :: callback_updates n)) /\
    (n = O \/
     exists s, last (callback_updates n) starting_progress
               = progress_update (Z.of_nat n) (Z.of_nat n) s) /\
    Forall (fun p => total p = Z.of_nat n /\
                     percentage p = percentage_of (current p) (total p))
           (callback_updates n).
Proof.
  intros E Row format_row scanner w g n final.
  assert (Hpub : published final =
            published g ++ [starting_progress] ++ callback_updates n ++ [complete_progress]
            /\ scan_progress final = complete_progress).
  { subst final. rewrite scan_route_run.
    destruct (scan_run E Globals scanner (Some update_progress) w
                (set_scan_progress starting_progress g)) as [w' Hscan].
    rewrite Hscan. clear Hscan. subst n.
    destruct (fst (get_all_usdt_pairs E w)) as [|p ps].
    - cbn [fst snd]. destruct (datetime_now E _) as [now w2]. cbn.
      now rewrite <- app_assoc.
    - cbn [fst snd]. destruct (datetime_now E w') as [now w2].
      cbn [fst snd set_scan_progress published scan_progress].
      split; [|reflexivity].
      unfold update_progress at 1. cbn [set_scan_progress published].
      rewrite loop_progress_published.
      unfold update_progress. cbn [set_scan_progress published].
      unfold callback_updates, every_tenth.
      rewrite (map_ext (fun i => (0 + Z.of_nat i)%Z) Z.of_nat) by (intros; lia).
      fold (progress_update 0 (Z.of_nat (List.length (p :: ps))) "Starting scan...").
      fold (progress_update (Z.of_nat (List.length (p :: ps)))
              (Z.of_nat (List.length (p :: ps))) "Sorting results...").
      cbn [List.length]. rewrite <- !app_assoc. reflexivity. }
  destruct Hpub as [Hpub Hfinal].
  split; [exact Hpub|]. split; [exact Hfinal|].
  split; [destruct n; [reflexivity | apply callback_updates_current]|].
  split; [apply every_tenth_In|].
  split; [|split].
  - cbn [map current starting_progress]. destruct n as [|m].
    + repeat constructor.
    + rewrite callback_updates_current.
      constructor.
      * constructor.
        -- apply strongly_sorted_snoc.
           ++ apply filter_sorted, seq_of_nat_sorted.
           ++ apply Forall_forall. intros p Hp. apply every_tenth_In in Hp. lia.
        -- apply Forall_forall. intros p Hp. apply in_app_or in Hp.
           destruct Hp as [Hp|[<-|[]]]; [apply every_tenth_In in Hp|]; lia.
      * apply Forall_forall. intros p Hp. destruct Hp as [<-|Hp]; [lia|].
        apply in_app_or in Hp.
        destruct Hp as [Hp|[<-|[]]]; [apply every_tenth_In in Hp|]; lia.
  - destruct n as [|m]; [now left|]. right.
    exists "Sorting results..."%string.
    unfold callback_updates. rewrite app_assoc. apply last_last.
  - destruct n as [|m]; [constructor|].
    apply Forall_forall. intros p Hp. unfold callback_updates in Hp.
    apply in_app_or in Hp. destruct Hp as [[<-|[]]|Hp]; [now split|].
    apply in_app_or in Hp. destruct Hp as [Hp|[<-|[]]]; [|now split].
    apply in_map_iff in Hp. destruct Hp as (q & <- & _). now split.
Qed.

(** C8, as stated, fails: for a scan of one pair the processed counts of
    the published updates are 0, 0, 1, 0; the last update, "complete",
    goes back from 1 to 0. *)
Lemma scan_route_progress_resets :
  map current
    (published (snd (snd (scan_route (one_symbol_exchange 110 2000000 sample_candles)
                            string symbol (Some sample_scanner) (tt, idle_globals)))))
    = [0; 0; 1; 0]%Z /\
  ~ Sorted Z.le [0; 0; 1; 0]%Z.
Proof.
  split; [vm_compute; reflexivity|].
  intro H. inversion H as [|a l Hs Hh]; subst.
  inversion Hs as [|a' l' Hs' Hh']; subst.
  inversion Hs' as [|a'' l'' Hs'' Hh'']; subst.
  inversion Hh'' as [|b l0 Hle]; subst. lia.
Qed.

(** The percentage is the truncated binary64 product: at 570 of 1000 the
    quotient 0.57 times 100 rounds below 57. *)
Example percentage_of_570_1000 :
  percentage_of 570 1000 = 56%Z /\ percentage_of 500 1000 = 50%Z /\
  percentage_of 10 30 = 33%Z /\ percentage_of 7 7 = 100%Z /\ percentage_of 0 0 = 0%Z.
Proof. repeat split; vm_compute; reflexivity. Qed.

(** ** C10: the response of the route *)

(** C10.  The response of a scan that ran to its end reports as [count]
    the length of the whole sorted result list, and carries as [results]
    the rows of its first 100 records: at most 100 rows, and fewer rows
    than [count] as soon as more than 100 symbols passed. *)
Theorem scan_route_response_limit :
  forall (E : Exchange) (Row : Type) (format_row : ReboundResult -> Row)
         (scanner : WebScanner) (w : World E) (g : Globals),
    let results :=
      fst (scan E scanner (Some update_progress)
             (w, set_scan_progress starting_progress g)) in
    let records :=
      passed (futures_results E scanner
                (as_completed E (fst (get_all_usdt_pairs E w)))
                (snd (get_all_usdt_pairs E w))) in
    exists rows t,
      fst (scan_route E Row format_row (Some scanner) (w, g))
        = Success (List.length results) rows t /\
      rows = map format_row (firstn 100 results) /\
      List.length results = List.length records /\
      List.length rows = Nat.min 100 (List.length results) /\
      ((100 < List.length records)%nat -> (List.length rows < List.length results)%nat).
Proof.
  intros E Row format_row scanner w g results records.
  assert (Hlen : List.length results = List.length records).
  { subst results records.
    destruct (scan_run E Globals scanner (Some update_progress) w
                (set_scan_progress starting_progress g)) as [w' ->].
    destruct (fst (get_all_usdt_pairs E w)) as [|p ps].
    - pose proof (as_completed_perm E []) as Hperm.
      apply Permutation_sym, Permutation_nil in Hperm. now rewrite Hperm.
    - cbn [fst]. apply Permutation_length, stable_sort_perm. }
  rewrite scan_route_run. subst results.
  destruct (scan E scanner (Some update_progress)
              (w, set_scan_progress starting_progress g)) as [results s1].
  cbn [fst] in *.
  destruct (datetime_now E (fst s1)) as [now w2]. cbn [fst].
  exists (map format_row (firstn 100 results)), now.
  split; [reflexivity|]. split; [reflexivity|]. split; [exact Hlen|].
  rewrite length_map, length_firstn. split; [reflexivity | lia].
Qed.

Lemma scan_route_response_limit_witness :
  exists count rows t,
    fst (scan_route (many_exchange 101) string symbol (Some sample_scanner)
           (tt, idle_globals)) = Success count rows t /\
    count = 101%nat /\ List.length rows = 100%nat.
Proof.
  destruct (scan_route_response_limit (many_exchange 101) string symbol
              sample_scanner tt idle_globals)
    as (rows & t & Hresp & _ & Hcount & Hrows & Hlt).
  exists (List.length
            (fst (scan (many_exchange 101) sample_scanner (Some update_progress)
                    (tt, set_scan_progress starting_progress idle_globals)))), rows, t.
  split; [exact Hresp|].
  assert (Hall : List.length
                   (passed (futures_results (many_exchange 101) sample_scanner
                              (as_completed (many_exchange 101)
                                 (fst (get_all_usdt_pairs (many_exchange 101) tt)))
                              (snd (get_all_usdt_pairs (many_exchange 101) tt))))
                 = 101%nat) by (vm_compute; reflexivity).
  rewrite Hall in Hcount, Hlt. split; [exact Hcount|].
  assert (H := Hlt ltac:(lia)). rewrite Hcount in Hrows, H. 
  rewrite Hrows. reflexivity.
Defined.

(** ** C9: what [scan_lock] excludes *)

Lemma set_thread_same (i : nat) (p : Phase) (f : nat -> Phase) :
  set_thread i p f i = p.
Proof. unfold set_thread. now rewrite Nat.eqb_refl. Qed.

Lemma set_thread_other (i j : nat) (p : Phase) (f : nat -> Phase) :
  j <> i -> set_thread i p f j = f j.
Proof.
  intro H. unfold set_thread. apply Nat.eqb_neq in H. now rewrite H.
Qed.


Lemma steps_one (s s' : Server) : step s s' -> steps s s'.
Proof. intro H. eapply steps_step; [exact H | apply steps_refl]. Qed.

(** A request that moves between two phases outside the with block
    leaves the lock and its holder as they are. *)
Lemma lock_invariant_outside (s : Server) (i : nat) (p : Phase) :
  lock_invariant s ->
  (forall results, threads s i <> Storing results) ->
  (forall results, p <> Storing results) ->
  lock_invariant {| threads := set_thread i p (threads s);
                    lock_held := lock_held s; installed := installed s |}.
Proof.
  intros [[Hfree Hnone]|[Hheld (k & rk & Hk & Huniq)]] Hold Hnew.
  - left. split; [exact Hfree|]. intros j results. cbn [threads].
    destruct (Nat.eq_dec j i) as [->|Hji].
    + rewrite set_thread_same. apply Hnew.
    + rewrite set_thread_other by exact Hji. apply Hnone.
  - right. split; [exact Hheld|]. exists k, rk. cbn [threads].
    assert (Hki : k <> i) by (intros ->; exact (Hold rk Hk)).
    split; [now rewrite set_thread_other|].
    intros j results Hj. destruct (Nat.eq_dec j i) as [->|Hji].
    + rewrite set_thread_same in Hj. exfalso. exact (Hnew results Hj).
    + rewrite set_thread_other in Hj by exact Hji. eapply Huniq; eassumption.
Qed.

Lemma step_lock_invariant (s s' : Server) :
  step s s' -> lock_invariant s -> lock_invariant s'.
Proof.
  intros Hstep Hinv.
  destruct Hstep as [s i Hi|s i Hi|s i results Hi|s i Hi|s i results Hi Hfree
                    |s i results Hi|s i results Hi];
    try (apply lock_invariant_outside;
         [exact Hinv | intros r; rewrite Hi; discriminate | intros r; discriminate]).
  - right. split; [reflexivity|]. exists i, results. cbn [threads].
    split; [apply set_thread_same|].
    intros j results' Hj. destruct (Nat.eq_dec j i) as [->|Hji]; [reflexivity|].
    rewrite set_thread_other in Hj by exact Hji.
    destruct Hinv as [[_ Hnone]|[Hheld _]]; [|congruence].
    exfalso. exact (Hnone j results' Hj).
  - left. split; [reflexivity|]. intros j results'. cbn [threads].
    destruct (Nat.eq_dec j i) as [->|Hji].
    + rewrite set_thread_same. discriminate.
    + rewrite set_thread_other by exact Hji. intro Hj.
      destruct Hinv as [[_ Hnone]|[_ (k & rk & Hk & Huniq)]].
      * exact (Hnone i results Hi).
      * apply Hji. rewrite (Huniq j results' Hj). symmetry. exact (Huniq i results Hi).
Qed.

Lemma steps_lock_invariant (s s' : Server) :
  steps s s' -> lock_invariant s -> lock_invariant s'.
Proof.
  induction 1 as [|a b c Hab Hbc IH]; [auto|].
  intro Hinv. apply IH. eapply step_lock_invariant; eassumption.
Qed.

Lemma reachable_lock_invariant (s : Server) : reachable s -> lock_invariant s.
Proof.
  intro H. apply (steps_lock_invariant idle_server s H).
  left. split; [reflexivity|]. intros i results. discriminate.
Qed.

(** Every phase leads to the response. *)
Lemma stored_responds (s : Server) (i : nat) (results : list ReboundResult) :
  threads s i = Stored results ->
  exists s', steps s s' /\ threads s' i = Responded (Some (List.length results)).
Proof.
  intro Hi. eexists. split; [apply steps_one, (step_respond s i results Hi)|].
  apply set_thread_same.
Qed.

Lemma storing_responds (s : Server) (i : nat) (results : list ReboundResult) :
  threads s i = Storing results ->
  exists s', steps s s' /\ threads s' i = Responded (Some (List.length results)).
Proof.
  intro Hi.
  destruct (stored_responds
              {| threads := set_thread i (Stored results) (threads s);
                 lock_held := false; installed := results |} i results)
    as (s' & Hsteps & Hs'); [apply set_thread_same|].
  exists s'. split; [|exact Hs'].
  eapply steps_step; [apply (step_store s i results Hi) | exact Hsteps].
Qed.

Lemma scanned_responds (s : Server) (i : nat) (results : list ReboundResult) :
  lock_invariant s ->
  threads s i = Scanned results ->
  exists s', steps s s' /\ threads s' i = Responded (Some (List.length results)).
Proof.
  intros Hinv Hi.
  assert (Hfree : forall t : Server,
            threads t i = Scanned results -> lock_held t = false ->
            exists s', steps t s' /\ threads s' i = Responded (Some (List.length results))).
  { intros t Hti Hlock.
    destruct (storing_responds
                {| threads := set_thread i (Storing results) (threads t);
                   lock_held := true; installed := installed t |} i results)
      as (s' & Hsteps & Hs'); [apply set_thread_same|].
    exists s'. split; [|exact Hs'].
    eapply steps_step; [apply (step_acquire t i results Hti Hlock) | exact Hsteps]. }
  destruct Hinv as [[Hlock _]|[_ (k & rk & Hk & _)]]; [now apply Hfree|].
  assert (Hki : i <> k) by (intros ->; congruence).
  destruct (Hfree {| threads := set_thread k (Stored rk) (threads s);
                     lock_held := false; installed := rk |})
    as (s' & Hsteps & Hs'); [|reflexivity|].
  - cbn [threads]. now rewrite set_thread_other.
  - exists s'. split; [|exact Hs'].
    eapply steps_step; [apply (step_store s k rk Hk) | exact Hsteps].
Qed.

Lemma scanning_responds (s : Server) (i : nat) :
  lock_invariant s ->
  threads s i = Scanning ->
  exists s' count, steps s s' /\ threads s' i = Responded count.
Proof.
  intros Hinv Hi.
  pose proof (step_scan s i [] Hi) as Hstep.
  destruct (scanned_responds _ i [] (step_lock_invariant _ _ Hstep Hinv))
    as (s' & Hsteps & Hs'); [apply set_thread_same|].
  exists s', (Some (List.length (@nil ReboundResult))).
  split; [eapply steps_step; eassumption | exact Hs'].
Qed.

(** C9 (amended).  In every state the server can reach, at most one
    request is inside the with block, and [scan_lock] is held exactly
    when one is: the lock serialises the installation of the results.
    It does not keep a second request from scanning.  And no request is
    turned away or lost: every request that has arrived can be run to its
    response. *)
Theorem scan_lock_guards_store_only :
  forall s : Server,
    reachable s ->
    (forall i j ri rj,
       threads s i = Storing ri -> threads s j = Storing rj -> i = j) /\
    (lock_held s = true <-> exists i r, threads s i = Storing r) /\
    (forall i, threads s i <> Absent ->
               exists s' count, steps s s' /\ threads s' i = Responded count).
Proof.
  intros s Hreach. pose proof (reachable_lock_invariant s Hreach) as Hinv.
  split; [|split].
  - intros i j ri rj Hi Hj.
    destruct Hinv as [[_ Hnone]|[_ (k & rk & _ & Huniq)]].
    + exfalso. exact (Hnone i ri Hi).
    + rewrite (Huniq i ri Hi). symmetry. exact (Huniq j rj Hj).
  - destruct Hinv as [[Hfree Hnone]|[Hheld (k & rk & Hk & _)]].
    + split; [congruence|]. intros (i & r & Hi). exfalso. exact (Hnone i r Hi).
    + split; [eauto | auto].
  - intros i Hi. destruct (threads s i) as [| | |r|r|r|count] eqn:Hphase.
    + congruence.
    + pose proof (step_start s i Hphase) as Hstep.
      destruct (scanning_responds _ i (step_lock_invariant _ _ Hstep Hinv))
        as (s' & count & Hsteps & Hs'); [apply set_thread_same|].
      exists s', count. split; [eapply steps_step; eassumption | exact Hs'].
    + now apply scanning_responds.
    + destruct (scanned_responds s i r Hinv Hphase) as (s' & Hsteps & Hs'). eauto.
    + destruct (storing_responds s i r Hphase) as (s' & Hsteps & Hs'). eauto.
    + destruct (stored_responds s i r Hphase) as (s' & Hsteps & Hs'). eauto.
    + exists s, count. split; [apply steps_refl | exact Hphase].
Qed.

(** Request 0 is inside the with block with the records of the market
    scan, request 1 has finished its own scan and waits for the lock,
    request 2 is scanning: the lock is held, by request 0 alone, and each
    of the three can still be run to its response. *)
Lemma scan_lock_guards_store_only_witness :
  exists s : Server,
    reachable s /\
    threads s 0%nat = Storing market_results /\
    threads s 1%nat = Scanned [] /\
    threads s 2%nat = Scanning /\
    lock_held s = true /\
    (forall i r, threads s i = Storing r -> i = 0%nat) /\
    (lock_held s = true <-> exists i r, threads s i = Storing r) /\
    (exists s' count, steps s s' /\ threads s' 1%nat = Responded count).
Proof.
  eassert (Hreach : reachable _).
  { unfold reachable.
    eapply steps_step; [apply (step_arrive _ 0%nat); reflexivity|].
    eapply steps_step; [apply (step_start _ 0%nat); reflexivity|].
    eapply steps_step; [apply (step_arrive _ 1%nat); reflexivity|].
    eapply steps_step; [apply (step_start _ 1%nat); reflexivity|].
    eapply steps_step; [apply (step_arrive _ 2%nat); reflexivity|].
    eapply steps_step; [apply (step_start _ 2%nat); reflexivity|].
    eapply steps_step; [apply (step_scan _ 1%nat []); reflexivity|].
    eapply steps_step; [apply (step_scan _ 0%nat market_results); reflexivity|].
    eapply steps_step; [apply (step_acquire _ 0%nat market_results); reflexivity|].
    apply steps_refl. }
  eexists. split; [exact Hreach|].
  destruct (scan_lock_guards_store_only _ Hreach) as (Hone & Hlock & Hlive).
  split; [reflexivity|]. split; [reflexivity|]. split; [reflexivity|].
  split; [reflexivity|].
  split; [intros i r Hi; exact (Hone i 0%nat r market_results Hi eq_refl)|].
  split; [exact Hlock|].
  apply Hlive. discriminate.
Defined.

(** C9, as stated, fails: a second request that arrives while the first
    is scanning starts its own scan; both are inside [scanner.scan()] at
    once, and the lock is free. *)
Lemma two_requests_scan_together :
  exists s : Server,
    reachable s /\
    threads s 0%nat = Scanning /\ threads s 1%nat = Scanning /\ lock_held s = false.
Proof.
  eexists. split; [|split; [|split]].
  - unfold reachable.
    eapply steps_step; [apply (step_arrive _ 0%nat); reflexivity|].
    eapply steps_step; [apply (step_start _ 0%nat); reflexivity|].
    eapply steps_step; [apply (step_arrive _ 1%nat); reflexivity|].
    eapply steps_step; [apply (step_start _ 1%nat); reflexivity|].
    apply steps_refl.
  - reflexivity.
  - reflexivity.
  - reflexivity.
Qed.

(** * Further properties of the source

    ** X1: the filter settings *)

Lemma analyze_pair_ignores_filter (E : Exchange) (self : WebScanner)
    (enabled : bool) (tf : string) (symbol0 : string) (w : World E) :
  analyze_pair E (with_filter self enabled tf) symbol0 w = analyze_pair E self symbol0 w.
Proof.
  assert (Hdd : forall price w', analyze_21d_with_drawdown E (with_filter self enabled tf)
                                   symbol0 price w'
                                 = analyze_21d_with_drawdown E self symbol0 price w')
    by reflexivity.
  assert (Hrec : forall t a b c d k n,
            recent_rebound (with_filter self enabled tf) symbol0 t a b c d k n
            = recent_rebound self symbol0 t a b c d k n) by reflexivity.
  unfold analyze_pair, bind.
  change (min_volume_24h (with_filter self enabled tf)) with (min_volume_24h self).
  change (lookback_48h_hours (with_filter self enabled tf)) with (lookback_48h_hours self).
  change (lookback_96h_hours (with_filter self enabled tf)) with (lookback_96h_hours self).
  change (lookback_21d_hours (with_filter self enabled tf)) with (lookback_21d_hours self).
  change (timeframe (with_filter self enabled tf)) with (timeframe self).
  change (timeframe_21d (with_filter self enabled tf)) with (timeframe_21d self).
  change (candle_limit_recent (with_filter self enabled tf)) with (candle_limit_recent self).
  destruct (get_ticker_24hr E symbol0 w) as [[ticker|] w1]; [|reflexivity].
  destruct (Qltb (quoteVolume ticker) (min_volume_24h self)); [reflexivity|].
  destruct (analyze_time_window E symbol0 (lookback_48h_hours self) _ w1)
    as [[a48|] w2]; [|reflexivity].
  destruct (analyze_time_window E symbol0 (lookback_96h_hours self) _ w2)
    as [[a96|] w3]; [|reflexivity].
  destruct (analyze_time_window E symbol0 (lookback_21d_hours self) _ w3)
    as [[a21|] w4]; [|reflexivity].
  rewrite Hdd.
  destruct (analyze_21d_with_drawdown E self symbol0 (lastPrice ticker) w4)
    as [[dd|] w5]; [|reflexivity].
  rewrite !filter_rejects_Some.
  destruct (get_klines E symbol0 (timeframe self) _ w5) as [[klines|] w6]; [|reflexivity].
  destruct (List.length klines <? 4)%nat; [reflexivity|].
  destruct (datetime_now E w6) as [now w7].
  rewrite Hrec. reflexivity.
Qed.

Lemma futures_results_ignore_filter (E : Exchange) (self : WebScanner)
    (enabled : bool) (tf : string) (completed : list string) :
  forall w : World E,
    futures_results E (with_filter self enabled tf) completed w
    = futures_results E self completed w.
Proof.
  induction completed as [|future completed IH]; intro w; simpl; [reflexivity|].
  rewrite analyze_pair_ignores_filter.
  destruct (analyze_pair E self future w) as [result w']. now rewrite IH.
Qed.

(** The records a scan returns, before they are named by [scan_run]. *)
Lemma scan_records (E : Exchange) (G : Type) (self : WebScanner)
    (progress_callback : option (Callback G)) (w : World E) (g : G) :
  fst (scan E self progress_callback (w, g)) =
  sort_results self
    (passed (futures_results E self (as_completed E (fst (get_all_usdt_pairs E w)))
               (snd (get_all_usdt_pairs E w)))).
Proof.
  destruct (scan_run E G self progress_callback w g) as [w' ->].
  destruct (fst (get_all_usdt_pairs E w)) as [|p ps] eqn:Hpairs; [|reflexivity].
  pose proof (as_completed_perm E []) as Hperm.
  apply Permutation_sym, Permutation_nil in Hperm. rewrite Hperm. reflexivity.
Qed.

(** X1.  Neither [filter_enabled] nor [filter_timeframe] changes what
    [analyze_pair] returns for a symbol or does to the world: the filter
    block of lines 357-363 tests analyses that are already known to be
    there.  A scan run with other filter settings returns the same
    records; only their order, set by [filter_timeframe], can differ. *)
Theorem filter_settings_only_order :
  forall (E : Exchange) (G : Type) (self : WebScanner)
         (progress_callback : option (Callback G))
         (enabled : bool) (tf : string) (symbol0 : string) (w : World E) (g : G),
    analyze_pair E (with_filter self enabled tf) symbol0 w
      = analyze_pair E self symbol0 w /\
    Permutation (fst (scan E (with_filter self enabled tf) progress_callback (w, g)))
                (fst (scan E self progress_callback (w, g))) /\
    StronglySorted (key_ge (with_filter self enabled tf))
      (fst (scan E (with_filter self enabled tf) progress_callback (w, g))).
Proof.
  intros E G self progress_callback enabled tf symbol0 w g.
  split; [apply analyze_pair_ignores_filter|].
  rewrite !scan_records, futures_results_ignore_filter.
  split; [|apply sort_results_sorted].
  etransitivity; [apply stable_sort_perm | symmetry; apply stable_sort_perm].
Qed.

(** ** X2: the pair list *)

Lemma collect_pairs_spec (symbols : list SymbolEntry) : forall pairs : list string,
  collect_pairs symbols pairs =
  if forallb entry_readable symbols
  then Some (pairs ++ flat_map tradable_name symbols)
  else None.
Proof.
  induction symbols as [|s symbols IH]; intro pairs.
  - simpl. now rewrite app_nil_r.
  - cbn [collect_pairs forallb flat_map].
    unfold entry_readable at 1, tradable_name at 1.
    destruct (entry_is_tradable s) as [[|]|]; cbn [andb app].
    + destruct (e_symbol s) as [name|]; cbn [andb app]; [|reflexivity].
      rewrite IH. destruct (forallb entry_readable symbols); [|reflexivity].
      now rewrite <- app_assoc.
    + apply IH.
    + reflexivity.
Qed.

Lemma tradable_name_In (s : SymbolEntry) (name : string) :
  In name (tradable_name s) <->
  e_symbol s = Some name /\ e_quoteAsset s = Some "USDT"%string /\
  e_status s = Some "TRADING"%string /\ e_isSpotTradingAllowed s = Some true.
Proof.
  unfold tradable_name, entry_is_tradable.
  destruct (e_quoteAsset s) as [quote|]; [|simpl; intuition discriminate].
  destruct (quote =? "USDT")%string eqn:Hq; simpl.
  - apply String.eqb_eq in Hq. subst quote.
    destruct (e_status s) as [st|]; [|simpl; intuition discriminate].
    destruct (st =? "TRADING")%string eqn:Hs; simpl.
    + apply String.eqb_eq in Hs. subst st.
      destruct (e_isSpotTradingAllowed s) as [[|]|]; [|simpl; intuition discriminate..].
      destruct (e_symbol s) as [n|]; simpl; [|intuition discriminate].
      split; [intros [<-|[]]; auto | intros ([= ->] & _); now left].
    + apply String.eqb_neq in Hs. split; [intros []|].
      intros (_ & _ & [= Hst] & _). congruence.
  - apply String.eqb_neq in Hq. split; [intros []|].
    intros (_ & [= Hquote] & _). congruence.
Qed.

(** X2.  On an answer all of whose entries can be read,
    [get_all_usdt_pairs] returns, in the exchange's order, the names of
    exactly the entries with quote asset USDT, status TRADING and spot
    trading allowed; an entry that is filtered out on an earlier key may
    lack the later ones.  One entry that raises a KeyError empties the
    whole list, names collected before it included, as does a failed
    request. *)
Theorem usdt_pairs_selection :
  forall symbols : list SymbolEntry,
    usdt_pairs_of_answer (Some symbols) =
      (if forallb entry_readable symbols then flat_map tradable_name symbols else []) /\
    (forall name,
       In name (usdt_pairs_of_answer (Some symbols)) ->
       exists s, In s symbols /\ e_symbol s = Some name /\
                 e_quoteAsset s = Some "USDT"%string /\
                 e_status s = Some "TRADING"%string /\
                 e_isSpotTradingAllowed s = Some true) /\
    (forall s name,
       forallb entry_readable symbols = true ->
       In s symbols -> e_symbol s = Some name ->
       e_quoteAsset s = Some "USDT"%string -> e_status s = Some "TRADING"%string ->
       e_isSpotTradingAllowed s = Some true ->
       In name (usdt_pairs_of_answer (Some symbols))) /\
    (forall s, e_quoteAsset s = Some "USDT"%string -> e_status s = None ->
               usdt_pairs_of_answer (Some (symbols ++ [s])) = []) /\
    usdt_pairs_of_answer None = [].
Proof.
  intro symbols.
  assert (Heq : forall l, usdt_pairs_of_answer (Some l) =
            (if forallb entry_readable l then flat_map tradable_name l else [])).
  { intro l. unfold usdt_pairs_of_answer. rewrite collect_pairs_spec.
    now destruct (forallb entry_readable l). }
  split; [apply Heq|]. split; [|split; [|split; [|reflexivity]]].
  - intros name. rewrite Heq.
    destruct (forallb entry_readable symbols); [|intros []].
    intro Hin. apply in_flat_map in Hin. destruct Hin as (s & Hs & Hname).
    exists s. split; [exact Hs|]. now apply tradable_name_In.
  - intros s name Hall Hs H1 H2 H3 H4. rewrite Heq, Hall.
    apply in_flat_map. exists s. split; [exact Hs|]. now apply tradable_name_In.
  - intros s Hq Hst. rewrite Heq, forallb_app. simpl.
    unfold entry_readable at 2. unfold entry_is_tradable. rewrite Hq, Hst. simpl.
    now rewrite andb_false_r.
Qed.

Example usdt_pairs_of_sample :
  usdt_pairs_of_answer (Some sample_entries) = ["BTCUSDT"; "ETHUSDT"]%string.
Proof. reflexivity. Qed.

(** ** X3, X4: what every returned record satisfies *)

Lemma hours_between_pos (t1 t2 : datetime) : (t1 < t2)%Z -> 0 < hours_between t1 t2.
Proof.
  intro H. unfold hours_between. apply Qlt_shift_div_l; [reflexivity|].
  rewrite Qmult_0_l. change 0 with (inject_Z 0). rewrite <- Zlt_Qlt. lia.
Qed.

(** What a dict returned by [analyze_time_window] satisfies. *)
Lemma analyze_time_window_result (E : Exchange) (symbol0 : string) (lookback : Q)
    (interval : string) (w : World E) (a : WindowResult) :
  fst (analyze_time_window E symbol0 lookback interval w) = Some a ->
  0 < w_low_price a /\ (w_low_time a < w_high_time a)%Z /\
  w_price_change a = ((w_high_price a - w_low_price a) / w_low_price a) * 100.
Proof.
  rewrite analyze_time_window_run.
  destruct (get_klines E symbol0 interval _ w) as [[klines|] w1]; [|discriminate].
  destruct (List.length klines <? 10)%nat; [discriminate|].
  destruct (datetime_now E w1) as [now w2]. cbn [fst]. intro H.
  apply window_extrema_Some_iff in H.
  destruct H as (cutoff & lo & hi & _ & _ & _ & Hhi & Hpos & ->). cbn.
  apply py_max_In, candles_after_In in Hhi. tauto.
Qed.

Lemma analyze_21d_with_drawdown_result (E : Exchange) (self : WebScanner)
    (symbol0 : string) (price : Q) (w : World E) (d : DrawdownResult) :
  fst (analyze_21d_with_drawdown E self symbol0 price w) = Some d ->
  0 < d_high_21d_price d /\
  d_drawdown_21d d =
    float_mul (float_div (float_sub (d_high_21d_price d) price) (d_high_21d_price d)) 100 /\
  d_drawdown_flag d = flag_of_drawdown (d_drawdown_21d d).
Proof.
  rewrite analyze_21d_with_drawdown_run.
  destruct (get_klines E symbol0 _ _ w) as [[klines|] w1]; [|discriminate].
  destruct (List.length klines <? 10)%nat; [discriminate|].
  destruct (datetime_now E w1) as [now w2]. cbn [fst]. intro H.
  apply drawdown_extrema_Some_iff in H.
  destruct H as (cutoff & hi & _ & _ & _ & Hpos & ->). cbn. tauto.
Qed.

(** X3.  Every record [analyze_pair] returns carries the symbol it was
    asked for, a volume of at least [min_volume_24h], positive low and
    high prices with the high strictly later than the low, a rebound
    percentage that is the binary64 value of [((high - low) / low) * 100]
    and at least [min_price_change], a pullback that is the binary64 value
    of [((high - current) / high) * 100] and at most [max_drawdown], and a
    rebound time that is positive and at most [lookback_hours]. *)
Theorem analyze_pair_record_within_thresholds :
  forall (E : Exchange) (self : WebScanner) (symbol0 : string) (w : World E)
         (r : ReboundResult),
    fst (analyze_pair E self symbol0 w) = Some r ->
    symbol r = symbol0 /\
    min_volume_24h self <= volume_24h r /\
    0 < low_price r /\ 0 < high_price r /\ (low_time r < high_time r)%Z /\
    rebound_pct r =
      float_mul (float_div (float_sub (high_price r) (low_price r)) (low_price r)) 100 /\
    min_price_change self <= rebound_pct r /\
    drawdown_from_high r =
      float_mul (float_div (float_sub (high_price r) (current_price r)) (high_price r))
                100 /\
    drawdown_from_high r <= max_drawdown self /\
    rebound_hours r = hours_between (low_time r) (high_time r) /\
    0 < rebound_hours r /\ rebound_hours r <= lookback_hours self.
Proof.
  intros E self symbol0 w r H. apply analyze_pair_Some_inv in H.
  destruct H as (ticker & a48 & a96 & a21 & dd & klines & now & w' & result
                 & _ & Hvol & _ & Hrec & ->).
  unfold recent_rebound in Hrec.
  destruct (recent_anchors _ _ _) as [[[recent [low low_t]] hi]|] eqn:Hanchors;
    [|discriminate].
  destruct (recent_anchors_spec _ _ _ _ _ _ _ Hanchors)
    as (cutoff & lo & _ & _ & _ & _ & _ & _ & _ & Hafter & _).
  cbn [fst snd] in Hrec.
  destruct (Qltb (lookback_hours self) _) eqn:H1; [discriminate|].
  destruct (Qle_bool low 0) eqn:H2; [discriminate|].
  destruct (Qltb _ (min_price_change self)) eqn:H3; [discriminate|].
  destruct (Qle_bool (c_high hi) 0) eqn:H4; [discriminate|].
  destruct (Qltb (max_drawdown self) _) eqn:H5; [discriminate|].
  injection Hrec as <-. cbn.
  apply Qltb_false_iff in H1, H3, H5. apply Qle_bool_false_iff in H2, H4.
  pose proof (hours_between_pos _ _ Hafter).
  repeat match goal with |- _ /\ _ => split end;
    try reflexivity; assumption.
Qed.

Lemma analyze_pair_record_within_thresholds_witness :
  exists r,
    fst (analyze_pair (one_symbol_exchange 110 2000000 sample_candles)
           sample_scanner "ABCUSDT" tt) = Some r /\
    min_price_change sample_scanner <= rebound_pct r /\
    drawdown_from_high r <= max_drawdown sample_scanner.
Proof.
  eassert (Hrun : fst (analyze_pair (one_symbol_exchange 110 2000000 sample_candles)
                         sample_scanner "ABCUSDT" tt) = Some _)
    by (vm_compute; reflexivity).
  eexists. split; [exact Hrun|].
  destruct (analyze_pair_record_within_thresholds _ _ _ _ _ Hrun)
    as (_ & _ & _ & _ & _ & _ & Hmin & _ & Hmax & _).
  split; [exact Hmin | exact Hmax].
Defined.

(** X4.  In every record [analyze_pair] returns, each of the three
    horizons has a positive low, a high strictly later than the low and a
    price change equal to [(high - low) / low * 100]; the 21d drawdown is
    the binary64 value of [((peak - current) / peak) * 100] for the
    positive peak stored beside it, and the flag is the one of that
    drawdown. *)
Theorem analyze_pair_record_horizons :
  forall (E : Exchange) (self : WebScanner) (symbol0 : string) (w : World E)
         (r : ReboundResult),
    fst (analyze_pair E self symbol0 w) = Some r ->
    (0 < low_48h_price r /\ (low_48h_time r < high_48h_time r)%Z /\
     price_change_48h r = ((high_48h_price r - low_48h_price r) / low_48h_price r) * 100) /\
    (0 < low_96h_price r /\ (low_96h_time r < high_96h_time r)%Z /\
     price_change_96h r = ((high_96h_price r - low_96h_price r) / low_96h_price r) * 100) /\
    (0 < low_21d_price r /\ (low_21d_time r < high_21d_time r)%Z /\
     price_change_21d r = ((high_21d_price r - low_21d_price r) / low_21d_price r) * 100) /\
    0 < high_21d_for_drawdown r /\
    drawdown_21d r =
      float_mul (float_div (float_sub (high_21d_for_drawdown r) (current_price r))
                           (high_21d_for_drawdown r)) 100 /\
    drawdown_flag r = flag_of_drawdown (drawdown_21d r).
Proof.
  intros E self symbol0 w r H. apply analyze_pair_Some_inv in H.
  destruct H as (ticker & a48 & a96 & a21 & dd & klines & now & w' & result
                 & Hrun & _ & _ & Hrec & ->).
  destruct Hrun as (w1 & w2 & w3 & w4 & w5 & w6 & _ & H48 & H96 & H21 & Hdd & _).
  assert (P48 := analyze_time_window_result E symbol0 (lookback_48h_hours self)
                   (timeframe self) w1 a48 ltac:(now rewrite H48)).
  assert (P96 := analyze_time_window_result E symbol0 (lookback_96h_hours self)
                   (timeframe self) w2 a96 ltac:(now rewrite H96)).
  assert (P21 := analyze_time_window_result E symbol0 (lookback_21d_hours self)
                   (timeframe_21d self) w3 a21 ltac:(now rewrite H21)).
  assert (Pdd := analyze_21d_with_drawdown_result E self symbol0 (lastPrice ticker)
                   w4 dd ltac:(now rewrite Hdd)).
  unfold recent_rebound in Hrec.
  destruct (recent_anchors _ _ _) as [[[recent [low low_t]] hi]|]; [|discriminate].
  cbn [fst snd] in Hrec.
  destruct (Qltb (lookback_hours self) _); [discriminate|].
  destruct (Qle_bool low 0); [discriminate|].
  destruct (Qltb _ (min_price_change self)); [discriminate|].
  destruct (Qle_bool (c_high hi) 0); [discriminate|].
  destruct (Qltb (max_drawdown self) _); [discriminate|].
  injection Hrec as <-. cbn. tauto.
Qed.

Lemma analyze_pair_record_horizons_witness :
  exists r,
    fst (analyze_pair (one_symbol_exchange 110 2000000 sample_candles)
           sample_scanner "ABCUSDT" tt) = Some r /\
    drawdown_flag r = flag_of_drawdown (drawdown_21d r).
Proof.
  eassert (Hrun : fst (analyze_pair (one_symbol_exchange 110 2000000 sample_candles)
                         sample_scanner "ABCUSDT" tt) = Some _)
    by (vm_compute; reflexivity).
  eexists. split; [exact Hrun|].
  exact (proj2 (proj2 (proj2 (proj2 (proj2
           (analyze_pair_record_horizons _ _ _ _ _ Hrun)))))).
Defined.

(** ** X5: ties between candles *)

Lemma py_max_earliest (window : list candle) (hi : candle) :
  StronglySorted time_le window ->
  py_max c_high window = Some hi ->
  forall c, In c window -> c_high hi <= c_high c -> (c_time hi <= c_time c)%Z.
Proof.
  intros Hs Hhi c Hc Hle.
  destruct (py_max_split _ _ _ Hhi) as (l1 & l2 & -> & Hl1 & _).
  apply in_app_or in Hc. destruct Hc as [Hc|[Hc|Hc]].
  - exfalso. specialize (Hl1 c Hc). exact (Qlt_not_le _ _ Hl1 Hle).
  - subst c. lia.
  - apply strongly_sorted_after in Hs. rewrite Forall_forall in Hs. now apply Hs.
Qed.

(** X5.  When several candles of the window share the lowest low,
    [analyze_time_window] anchors the low on the earliest of them; when
    several candles after it share the highest high, it anchors the high
    on the earliest of those. *)
Theorem analyze_time_window_earliest_wins :
  forall (E : Exchange) (symbol0 : string) (lookback_hours : Q) (interval : string)
         (w w' : World E) (r : WindowResult),
    analyze_time_window E symbol0 lookback_hours interval w = (Some r, w') ->
    exists klines w1 now cutoff,
      get_klines E symbol0 interval (window_limit lookback_hours interval) w
        = (Some klines, w1) /\
      datetime_now E w1 = (now, w') /\
      cutoff_time now lookback_hours = Some cutoff /\
      (forall c, in_window klines cutoff c -> c_low c <= w_low_price r ->
                 (w_low_time r <= c_time c)%Z) /\
      (forall c, in_window klines cutoff c -> (w_low_time r < c_time c)%Z ->
                 w_high_price r <= c_high c -> (w_high_time r <= c_time c)%Z).
Proof.
  intros E symbol0 lookback_hours interval w w' r Hrun.
  rewrite analyze_time_window_run in Hrun.
  destruct (get_klines E symbol0 interval _ w) as [[klines|] w1] eqn:Hfetch;
    [|discriminate].
  destruct (List.length klines <? 10)%nat; [discriminate|].
  destruct (datetime_now E w1) as [now w2] eqn:Hnow.
  injection Hrun as Hext <-.
  apply window_extrema_Some_iff in Hext.
  destruct Hext as (cutoff & lo & hi & Hcut & _ & Hlo & Hhi & _ & ->).
  exists klines, w1, now, cutoff. cbn.
  split; [reflexivity|]. split; [exact Hnow|]. split; [exact Hcut|]. split.
  - intros c Hc Hle.
    apply (py_min_earliest _ _ (window_sorted klines cutoff) Hlo); [|exact Hle].
    now apply in_window_sorted.
  - intros c Hc Hafter Hle.
    apply (py_max_earliest _ _ (filter_sorted _ _ _ (window_sorted klines cutoff)) Hhi);
      [|exact Hle].
    apply candles_after_In. split; [now apply in_window_sorted | exact Hafter].
Qed.

Lemma analyze_time_window_earliest_wins_witness :
  exists r,
    analyze_time_window (one_symbol_exchange 110 2000000 sample_candles)
      "ABCUSDT" 48 "15m" tt = (Some r, tt) /\
    w_low_time r = t0.
Proof.
  eassert (Hrun : analyze_time_window (one_symbol_exchange 110 2000000 sample_candles)
                    "ABCUSDT" 48 "15m" tt = (Some _, tt))
    by (vm_compute; reflexivity).
  eexists. split; [exact Hrun|].
  destruct (analyze_time_window_earliest_wins _ _ _ _ _ _ _ Hrun)
    as (klines & w1 & now & cutoff & Hfetch & Hnow & Hcut & Hlow & _).
  injection Hfetch as <- _. injection Hnow as <-.
  vm_compute in Hcut. injection Hcut as <-.
  apply Z.le_antisymm.
  - apply (Hlow (mkCandle t0 103 100 100)).
    + split; [left; reflexivity | vm_compute; discriminate].
    + vm_compute. discriminate.
  - vm_compute. discriminate.
Defined.

(** ** X6: the order of the fetched rows *)

Lemma sorted_by_time_unique (l1 : list candle) : forall l2 : list candle,
  StronglySorted time_le l1 -> StronglySorted time_le l2 ->
  Permutation l1 l2 -> NoDup (map c_time l1) -> l1 = l2.
Proof.
  induction l1 as [|a l1 IH]; intros l2 Hs1 Hs2 Hperm Hnd.
  - now apply Permutation_nil in Hperm.
  - destruct l2 as [|b l2].
    { apply Permutation_sym, Permutation_nil in Hperm. discriminate. }
    inversion Hs1 as [|? ? Hs1' Ha]; subst. inversion Hs2 as [|? ? Hs2' Hb]; subst.
    inversion Hnd as [|? ? Hnotin Hnd']; subst.
    rewrite Forall_forall in Ha, Hb.
    assert (Hab : a = b).
    { assert (Hina : In a (b :: l2)) by (eapply Permutation_in; [exact Hperm | now left]).
      assert (Hinb : In b (a :: l1))
        by (eapply Permutation_in; [symmetry; exact Hperm | now left]).
      destruct Hina as [Hina|Hina]; [now symmetry|].
      destruct Hinb as [Hinb|Hinb]; [exact Hinb|].
      exfalso. apply Hnotin.
      pose proof (Ha b Hinb) as H1. pose proof (Hb a Hina) as H2.
      unfold time_le in H1, H2.
      replace (c_time a) with (c_time b) by lia. now apply in_map. }
    subst b. f_equal. apply IH; try assumption.
    eapply Permutation_cons_inv. exact Hperm.
Qed.

(** X6.  The analysis of lines 177-216 depends only on which candles lie
    in the window, not on the order of the fetched rows nor on the rows
    before the cutoff: two series whose windows hold the same candles, at
    distinct times, give the same result. *)
Theorem window_extrema_ignores_order :
  forall (klines1 klines2 : list candle) (now : datetime) (lookback_hours : Q)
         (cutoff : datetime),
    cutoff_time now lookback_hours = Some cutoff ->
    Permutation (window_candles klines1 cutoff) (window_candles klines2 cutoff) ->
    NoDup (map c_time (window_candles klines1 cutoff)) ->
    window_extrema klines1 now lookback_hours = window_extrema klines2 now lookback_hours.
Proof.
  intros klines1 klines2 now lookback_hours cutoff Hcut Hperm Hnd.
  assert (Hwin : window_candles (sort_by_time klines1) cutoff
                 = window_candles (sort_by_time klines2) cutoff).
  { apply sorted_by_time_unique; try apply window_sorted.
    - etransitivity; [apply filter_perm, sort_by_time_perm|].
      etransitivity; [exact Hperm|].
      symmetry. apply filter_perm, sort_by_time_perm.
    - eapply Permutation_NoDup; [|exact Hnd].
      apply Permutation_map. symmetry. apply filter_perm, sort_by_time_perm. }
  unfold window_extrema. rewrite Hcut, Hwin. reflexivity.
Qed.

Lemma window_extrema_ignores_order_witness :
  window_extrema sample_candles sample_now 48
  = window_extrema (rev sample_candles) sample_now 48.
Proof.
  eassert (Hcut : cutoff_time sample_now 48 = Some _) by (vm_compute; reflexivity).
  apply (window_extrema_ignores_order sample_candles (rev sample_candles)
           sample_now 48 _ Hcut).
  - apply filter_perm, Permutation_rev.
  - vm_compute. repeat constructor; simpl; intuition lia.
Defined.

(** ** X7: the sign of the price change *)

Lemma pct_change_nonneg (l h : Q) : 0 < l -> l <= h -> 0 <= ((h - l) / l) * 100.
Proof.
  intros Hl Hh. unfold Qdiv.
  pose proof (Qinv_lt_0_compat l Hl) as Hx.
  revert Hx. generalize (/ l). intros x Hx. nra.
Qed.

(** X7.  When every fetched candle has a high at least its low, the dict
    [analyze_time_window] returns has a high price at least its low price
    and a price change that is not negative. *)
Theorem analyze_time_window_change_nonneg :
  forall (E : Exchange) (symbol0 : string) (lookback_hours : Q) (interval : string)
         (w w1 : World E) (klines : list candle) (r : WindowResult),
    get_klines E symbol0 interval (window_limit lookback_hours interval) w
      = (Some klines, w1) ->
    Forall well_formed klines ->
    fst (analyze_time_window E symbol0 lookback_hours interval w) = Some r ->
    w_low_price r <= w_high_price r /\ 0 <= w_price_change r.
Proof.
  intros E symbol0 lookback_hours interval w w1 klines r Hfetch Hwf.
  rewrite analyze_time_window_run, Hfetch.
  destruct (List.length klines <? 10)%nat; [discriminate|].
  destruct (datetime_now E w1) as [now w2]. cbn [fst]. intro H.
  apply window_extrema_Some_iff in H.
  destruct H as (cutoff & lo & hi & _ & _ & Hlo & Hhi & Hpos & ->). cbn.
  apply py_max_In, candles_after_In in Hhi. destruct Hhi as [Hhi _].
  pose proof (py_min_le _ _ _ Hlo hi Hhi) as Hmin.
  apply in_window_sorted in Hhi. destruct Hhi as [Hhi _].
  rewrite Forall_forall in Hwf. pose proof (Hwf hi Hhi) as Hhl. unfold well_formed in Hhl.
  assert (Hle : c_low lo <= c_high hi) by (eapply Qle_trans; eassumption).
  split; [exact Hle | now apply pct_change_nonneg].
Qed.

Lemma analyze_time_window_change_nonneg_witness :
  exists r,
    fst (analyze_time_window (one_symbol_exchange 110 2000000 sample_candles)
           "ABCUSDT" 48 "15m" tt) = Some r /\
    0 <= w_price_change r.
Proof.
  eassert (Hrun : fst (analyze_time_window (one_symbol_exchange 110 2000000 sample_candles)
                         "ABCUSDT" 48 "15m" tt) = Some _)
    by (vm_compute; reflexivity).
  eexists. split; [exact Hrun|].
  refine (proj2 (analyze_time_window_change_nonneg
                   (one_symbol_exchange 110 2000000 sample_candles)
                   "ABCUSDT" 48 "15m" tt tt sample_candles _ eq_refl _ Hrun)).
  repeat constructor; vm_compute; discriminate.
Defined.

(** ** X10: the progress callback does not steer the scan *)

Lemma scan_loop_world (E : Exchange) (self : WebScanner) (total_pairs : Z)
    (completed : list string) :
  forall (G G' : Type) (cb : option (Callback G)) (cb' : option (Callback G'))
         (results results' : list ReboundResult) (processed : Z)
         (w : World E) (g : G) (g' : G'),
    fst (snd (scan_loop E self cb total_pairs completed results processed (w, g)))
    = fst (snd (scan_loop E self cb' total_pairs completed results' processed (w, g'))).
Proof.
  induction completed as [|future completed IH]; intros; [reflexivity|].
  rewrite !scan_loop_cons. apply IH.
Qed.

Lemma loop_progress_None {G : Type} (total_pairs : Z) (n : nat) :
  forall (processed : Z) (g : G), loop_progress None total_pairs processed n g = g.
Proof.
  induction n as [|n IH]; intros processed g; [reflexivity|].
  cbn [loop_progress]. rewrite IH. now destruct ((processed + 1) mod 10 =? 0)%Z.
Qed.

Lemma scan_unfold (E : Exchange) (G : Type) (self : WebScanner)
    (cb : option (Callback G)) (w : World E) (g : G) :
  scan E self cb (w, g) =
  match fst (get_all_usdt_pairs E w) with
  | [] => ([], (snd (get_all_usdt_pairs E w), g))
  | _ :: _ =>
      let total_pairs := Z.of_nat (List.length (fst (get_all_usdt_pairs E w))) in
      let call c t s g := match cb with Some f => f c t s g | None => g end in
      let run :=
        scan_loop E self cb total_pairs (as_completed E (fst (get_all_usdt_pairs E w)))
          [] 0 (snd (get_all_usdt_pairs E w),
                call 0%Z total_pairs "Starting scan..."%string g) in
      (sort_results self (fst run),
       (fst (snd run),
        call total_pairs total_pairs "Sorting results..."%string (snd (snd run))))
  end.
Proof.
  unfold scan. unfold bind at 1. unfold in_world at 1. cbn [fst snd].
  destruct (get_all_usdt_pairs E w) as [pairs w1]. cbn [fst snd].
  destruct pairs as [|p ps]; [reflexivity|].
  cbv zeta. unfold bind at 1. unfold call_progress at 1. cbn [fst snd].
  unfold bind at 1.
  replace (match cb with
           | Some f => (tt, (w1, f 0%Z (Z.of_nat (List.length (p :: ps)))
                                   "Starting scan..."%string g))
           | None => (tt, (w1, g))
           end)
    with (tt, (w1, match cb with
                   | Some f => f 0%Z (Z.of_nat (List.length (p :: ps)))
                                 "Starting scan..."%string g
                   | None => g
                   end)) by (now destruct cb).
  destruct (scan_loop E self cb _ _ [] 0 _) as [rs [wa ga]]. cbn [fst snd].
  unfold bind, call_progress, ret. now destruct cb.
Qed.

(** X10.  The records a scan returns and what it does to the world do not
    depend on the progress callback nor on the state the callback writes
    to; without a callback that state is left as it was. *)
Theorem scan_ignores_progress_callback :
  forall (E : Exchange) (G G' : Type) (self : WebScanner)
         (cb : option (Callback G)) (cb' : option (Callback G'))
         (w : World E) (g : G) (g' : G'),
    fst (scan E self cb (w, g)) = fst (scan E self cb' (w, g')) /\
    fst (snd (scan E self cb (w, g))) = fst (snd (scan E self cb' (w, g'))) /\
    snd (snd (scan E self None (w, g))) = g.
Proof.
  intros E G G' self cb cb' w g g'.
  split; [now rewrite !scan_records|]. split.
  - rewrite !scan_unfold.
    destruct (fst (get_all_usdt_pairs E w)) as [|p ps]; [reflexivity|].
    cbv zeta. cbn [fst snd]. apply scan_loop_world.
  - destruct (scan_run E G self None w g) as [w' ->].
    destruct (fst (get_all_usdt_pairs E w)); [reflexivity|].
    cbn [fst snd]. apply loop_progress_None.
Qed.

(** ** X11: the distance between the recent anchors *)

Lemma cutoff_time_whole_hours (now : datetime) (n : Z) (cutoff : datetime) :
  cutoff_time now (inject_Z n) = Some cutoff -> cutoff = (now - n * us_per_hour)%Z.
Proof.
  unfold cutoff_time, timedelta_hours, round_half_even.
  cbn [Qnum Qden Qmult inject_Z Pos.mul].
  rewrite Z.div_1_r, Z.mod_1_r. cbn [Z.mul Z.ltb Z.compare].
  destruct (_ && _); [|discriminate].
  unfold datetime_sub. destruct (_ && _); [|discriminate]. now intros [= <-].
Qed.

(** X11.  When the recent lookback is a whole number of hours and no
    fetched candle opens after the clock reading, the two anchors of the
    recent window are never further apart than the lookback: the test of
    line 402 rejects nothing then. *)
Theorem recent_anchors_within_lookback :
  forall (n : Z) (klines : list candle) (now : datetime)
         (recent : list candle) (low : Q) (low_t : datetime) (hi : candle),
    (forall c, In c klines -> (c_time c <= now)%Z) ->
    recent_anchors (inject_Z n) klines now = Some (recent, (low, low_t), hi) ->
    hours_between low_t (c_time hi) <= inject_Z n /\
    Qltb (inject_Z n) (hours_between low_t (c_time hi)) = false.
Proof.
  intros n klines now recent low low_t hi Hpast Hanchors.
  destruct (recent_anchors_spec _ _ _ _ _ _ _ Hanchors)
    as (cutoff & lo & Hcut & _ & _ & Hlo & _ & -> & Hhi & _).
  apply cutoff_time_whole_hours in Hcut.
  destruct Hlo as ((_ & Hlo) & _). destruct Hhi as (Hhi & _).
  specialize (Hpast hi Hhi).
  assert (Hle : hours_between (c_time lo) (c_time hi) <= inject_Z n).
  { unfold hours_between. apply Qle_shift_div_r; [reflexivity|].
    rewrite <- inject_Z_mult, <- Zle_Qle. lia. }
  split; [exact Hle | now apply Qltb_false_iff].
Qed.

Lemma recent_anchors_within_lookback_witness :
  exists low_t hi,
    hours_between low_t (c_time hi) <= 12 /\
    Qltb 12 (hours_between low_t (c_time hi)) = false.
Proof.
  eassert (Hanchors : recent_anchors (inject_Z 12) sample_candles sample_now
                      = Some (_, (_, _), _)) by (vm_compute; reflexivity).
  eexists. eexists.
  refine (recent_anchors_within_lookback 12 sample_candles sample_now _ _ _ _ _ Hanchors).
  intros c Hc.
  repeat (destruct Hc as [<-|Hc]; [vm_compute; discriminate|]). destruct Hc.
Defined.

(** ** X12: the downloads after a scan *)

(** X12.  After a request to the scan route, the downloads serve what
    that request installed.  A scan that ran to its end replaces the
    installed results by its whole sorted list, also when the list is
    empty: the CSV then has one row per record counted in the response,
    not only the 100 the response carries, each row as long as the
    header, and the JSON dump is that list; with a count of zero both
    downloads answer 404.  A request that fails leaves the installed
    results, their time and both downloads as they were. *)
Theorem downloads_after_scan_route :
  forall (E : Exchange) (Row : Type) (format_row : ReboundResult -> Row)
         (config : option WebScanner) (w : World E) (g : Globals),
    let g' := snd (snd (scan_route E Row format_row config (w, g))) in
    match fst (scan_route E Row format_row config (w, g)) with
    | Failure =>
        latest_results g' = latest_results g /\
        last_scan_time g' = last_scan_time g /\
        download_csv g' = download_csv g /\
        download_json g' = download_json g
    | Success count rows t =>
        last_scan_time g' = Some t /\
        List.length (latest_results g') = count /\
        (List.length rows <= count)%nat /\
        match count with
        | O => download_csv g' = None /\ download_json g' = None
        | S _ =>
            download_json g' = Some (latest_results g') /\
            exists body,
              download_csv g' = Some (csv_header, body) /\
              List.length body = count /\
              Forall (fun row => List.length row = List.length csv_header) body
        end
    end.
Proof.
  intros E Row format_row config w g g'. subst g'.
  destruct config as [scanner|].
  - rewrite scan_route_run.
    destruct (scan E scanner (Some update_progress)
                (w, set_scan_progress starting_progress g)) as [results s1].
    destruct (datetime_now E (fst s1)) as [now w2]. cbn [fst snd].
    unfold download_csv, download_json.
    cbn [set_scan_progress latest_results last_scan_time].
    split; [reflexivity|]. split; [reflexivity|].
    split; [rewrite length_map, length_firstn; lia|].
    destruct results as [|r rs]; [split; reflexivity|].
    cbn [List.length]. split; [reflexivity|].
    eexists. split; [reflexivity|]. split; [apply length_map|].
    apply Forall_forall. intros row Hrow. apply in_map_iff in Hrow.
    destruct Hrow as (x & <- & _). reflexivity.
  - unfold scan_route, bind, write_progress, ret. cbn.
    unfold download_csv, download_json. cbn. repeat split; reflexivity.
Qed.

(** ** X13, X14: the label of a time difference *)

Lemma time_diff_hours_shift (t d : Z) :
  time_diff_hours t (t + d)%Z = time_diff_hours 0%Z d.
Proof.
  unfold time_diff_hours. replace (t + d - t)%Z with (d - 0)%Z by lia. reflexivity.
Qed.

Lemma forallb_Z_range (P : Z -> bool) (n : nat) :
  forallb P (map Z.of_nat (seq 0 n)) = true ->
  forall z, (0 <= z < Z.of_nat n)%Z -> P z = true.
Proof.
  intros H z Hz. rewrite forallb_forall in H. apply H.
  apply in_map_iff. exists (Z.to_nat z). split; [lia|]. apply in_seq. lia.
Qed.

(** X13.  Between two candles of one series the label is exact: for the
    three candle widths of the recent series (15 minutes, 1 hour, 4 hours)
    and every distance of up to 1000 candles, [format_time_display] applied
    to the float hours of the difference, as line 401 computes them,
    returns the days-and-hours, hours-and-minutes or minutes reading of the
    exact number of minutes. *)
Theorem format_time_display_candle_steps :
  forall (width k : Z) (low_time : datetime),
    In width [15; 60; 240]%Z -> (0 <= k <= 1000)%Z ->
    format_time_display (time_diff_hours low_time (low_time + k * width * 60000000)%Z)
    = Some (minutes_label (k * width)).
Proof.
  intros width k low_time Hwidth Hk. rewrite time_diff_hours_shift.
  assert (Hall : forallb (fun width =>
            forallb (fun k =>
              match format_time_display (time_diff_hours 0%Z (k * width * 60000000)%Z) with
              | Some l => String.eqb l (minutes_label (k * width))
              | None => false
              end) (map Z.of_nat (seq 0 1001))) [15; 60; 240]%Z = true)
    by (vm_compute; reflexivity).
  rewrite forallb_forall in Hall. specialize (Hall width Hwidth).
  pose proof (forallb_Z_range _ _ Hall k ltac:(lia)) as H. cbv beta in H.
  destruct (format_time_display _) as [l|]; [|discriminate].
  apply String.eqb_eq in H. now subst.
Qed.

Lemma format_time_display_candle_steps_witness :
  format_time_display (time_diff_hours t0 (t0 + 7 * 240 * 60000000)%Z) = Some "1d4h"%string.
Proof.
  exact (format_time_display_candle_steps 240 7 t0
           (or_intror (or_intror (or_introl eq_refl)))
           (conj (Zle_bool_imp_le 0 7 eq_refl) (Zle_bool_imp_le 7 1000 eq_refl))).
Defined.

(** X14.  On whole minutes the label never overstates and can be one
    minute short: for every difference of up to two days in whole minutes
    the label is that of the exact number of minutes or, between one hour
    and one day, that of one minute less; and the second case occurs (72
    minutes are shown as 1h11m), because [(hours % 1) * 60] is rounded
    before [int] truncates it. *)
Theorem format_time_display_whole_minutes :
  (forall (m : Z) (low_time : datetime), (0 <= m <= 2880)%Z ->
     let shown := format_time_display (time_diff_hours low_time (low_time + m * 60000000)%Z) in
     shown = Some (minutes_label m) \/
     ((60 < m < 1440)%Z /\ shown = Some (minutes_label (m - 1)))) /\
  format_time_display (time_diff_hours t0 (t0 + 72 * 60000000)%Z) = Some "1h11m"%string /\
  minutes_label 72 = "1h12m"%string.
Proof.
  split; [|split; [rewrite time_diff_hours_shift; vm_compute; reflexivity|reflexivity]].
  intros m low_time Hm shown. subst shown. rewrite time_diff_hours_shift.
  assert (Hall : forallb (fun m =>
            match format_time_display (time_diff_hours 0%Z (m * 60000000)%Z) with
            | Some l => String.eqb l (minutes_label m)
                        || ((60 <? m)%Z && (m <? 1440)%Z && String.eqb l (minutes_label (m - 1)))
            | None => false
            end) (map Z.of_nat (seq 0 2881)) = true)
    by (vm_compute; reflexivity).
  pose proof (forallb_Z_range _ _ Hall m ltac:(lia)) as H. cbv beta in H.
  destruct (format_time_display _) as [l|]; [|discriminate].
  apply orb_true_iff in H. destruct H as [H|H].
  - left. apply String.eqb_eq in H. now subst.
  - right. apply andb_true_iff in H. destruct H as [H Hl].
    apply andb_true_iff in H. destruct H as [H1 H2].
    apply String.eqb_eq in Hl. subst. split; [lia|reflexivity].
Qed.

(** ** X15: the progress percentage *)

Lemma percentage_of_checked :
  forall current total : Z, (0 <= current <= total)%Z -> (0 < total <= 300)%Z ->
    let p := percentage_of current total in
    (0 <= p)%Z /\
    (100 * current / total - 1 <= p <= 100 * current / total)%Z /\
    (percentage_of (current - 1) total <= p \/ current = 0)%Z /\
    (p = 100%Z <-> current = total).
Proof.
  intros current total Hc Ht p. subst p.
  assert (Hall : forallb (fun total =>
            forallb (fun current =>
              let p := percentage_of current total in
              (total <? current)%Z
              || ((0 <=? p)%Z
                  && (100 * current / total - 1 <=? p)%Z && (p <=? 100 * current / total)%Z
                  && ((percentage_of (current - 1) total <=? p)%Z || (current =? 0)%Z)
                  && Bool.eqb (p =? 100)%Z (current =? total)%Z))
              (map Z.of_nat (seq 0 301))) (map Z.of_nat (seq 1 300)) = true)
    by (vm_compute; reflexivity).
  rewrite forallb_forall in Hall.
  assert (Hin : In total (map Z.of_nat (seq 1 300))).
  { apply in_map_iff. exists (Z.to_nat total). split; [lia|]. apply in_seq. lia. }
  specialize (Hall total Hin).
  pose proof (forallb_Z_range _ _ Hall current ltac:(lia)) as H. cbv beta zeta in H.
  apply orb_true_iff in H. destruct H as [H|H]; [lia|].
  apply andb_true_iff in H. destruct H as [H Heq].
  apply andb_true_iff in H. destruct H as [H Hmono].
  apply andb_true_iff in H. destruct H as [H Hhi].
  apply andb_true_iff in H. destruct H as [Hnn Hlo].
  apply Bool.eqb_prop in Heq.
  split; [lia|]. split; [lia|]. split.
  - apply orb_true_iff in Hmono. destruct Hmono; [left|right]; lia.
  - split; intro Hp.
    + apply Z.eqb_eq. rewrite <- Heq. now apply Z.eqb_eq.
    + apply Z.eqb_eq. rewrite Heq. now apply Z.eqb_eq.
Qed.

(** X15.  The percentage of a progress update, computed in binary64 as
    [int((current / total) * 100)] (line 520): for every total of up to
    300 symbols and every count from 0 to the total it lies between 0 and
    100, it is the exact integer percentage or one less, it does not go
    down when the count grows, and it is 100 only when the count has
    reached the total. *)
Theorem percentage_of_bounds :
  forall current total : Z, (0 <= current <= total)%Z -> (0 < total <= 300)%Z ->
    let p := percentage_of current total in
    (0 <= p <= 100)%Z /\
    (100 * current / total - 1 <= p <= 100 * current / total)%Z /\
    (forall earlier : Z, (0 <= earlier <= current)%Z -> (percentage_of earlier total <= p)%Z) /\
    (p = 100%Z <-> current = total).
Proof.
  intros current total Hc Ht p. subst p.
  destruct (percentage_of_checked current total Hc Ht) as (Hnn & Hfloor & _ & Hfull).
  assert (Hmono : forall n : nat, forall c : Z, (0 <= c)%Z -> (c + Z.of_nat n <= total)%Z ->
            (percentage_of c total <= percentage_of (c + Z.of_nat n) total)%Z).
  { induction n as [|n IH]; intros c Hc0 Hle.
    - replace (c + Z.of_nat 0)%Z with c by lia. lia.
    - destruct (percentage_of_checked (c + Z.of_nat (S n)) total ltac:(lia) Ht)
        as (_ & _ & [Hstep|Hzero] & _); [|lia].
      replace (c + Z.of_nat (S n) - 1)%Z with (c + Z.of_nat n)%Z in Hstep by lia.
      specialize (IH c Hc0 ltac:(lia)). lia. }
  cbv zeta in Hnn, Hfloor, Hfull.
  assert (Hdiv : (100 * current / total <= 100)%Z).
  { apply Z.div_le_upper_bound; lia. }
  split; [|split; [exact Hfloor|split; [|exact Hfull]]].
  - lia.
  - intros earlier He.
    pose proof (Hmono (Z.to_nat (current - earlier)) earlier ltac:(lia) ltac:(lia)) as Hup.
    replace (earlier + Z.of_nat (Z.to_nat (current - earlier)))%Z with current in Hup by lia.
    exact Hup.
Qed.

Lemma percentage_of_bounds_witness :
  (0 <= percentage_of 29 100 <= 100)%Z /\
  (100 * 29 / 100 - 1 <= percentage_of 29 100 <= 100 * 29 / 100)%Z /\
  (forall earlier : Z, (0 <= earlier <= 29)%Z ->
     (percentage_of earlier 100 <= percentage_of 29 100)%Z) /\
  (percentage_of 29 100 = 100%Z <-> 29%Z = 100%Z).
Proof.
  apply (percentage_of_bounds 29 100); lia.
Defined.

(** ** X16: whose results are installed *)



